(** * Allihoopa export archive tool: rename planner, executor, undo, sanitizer

    Shallow embedding of [allihoopa_tool.py].  Python strings are sequences of
    Unicode code points, paths are POSIX component lists, the file system is
    an ordered table of entries, and exceptions are explicit outcomes. *)

From Stdlib Require Import String Ascii DecimalString DecimalNat List NArith ZArith Lia Bool.
Import ListNotations.

(** ** Python strings *)

Module PyStr.

Local Open Scope N_scope.

(** A Python [str]: the list of its code points. *)
Definition pystr := list N.

(** Literal written in ASCII. *)
Definition str (s : string) : pystr :=
  map N_of_ascii (list_ascii_of_string s).

Fixpoint pystr_eqb (a b : pystr) : bool :=
  match a, b with
  | [], [] => true
  | x :: a', y :: b' => (x =? y) && pystr_eqb a' b'
  | _, _ => false
  end.

(** [str.isspace] / the regex class [\s] on a single code point. *)
Definition is_space (c : N) : bool :=
  ((9 <=? c) && (c <=? 13)) || ((28 <=? c) && (c <=? 32))
  || (c =? 133) || (c =? 160) || (c =? 5760)
  || ((8192 <=? c) && (c <=? 8202))
  || (c =? 8232) || (c =? 8233) || (c =? 8239) || (c =? 8287) || (c =? 12288).

Fixpoint lstrip_by (f : N -> bool) (s : pystr) : pystr :=
  match s with
  | [] => []
  | c :: t => if f c then lstrip_by f t else s
  end.

Fixpoint rstrip_by (f : N -> bool) (s : pystr) : pystr :=
  match s with
  | [] => []
  | c :: t =>
      match rstrip_by f t with
      | [] => if f c then [] else [c]
      | t' => c :: t'
      end
  end.

(** [s.strip()] *)
Definition strip (s : pystr) : pystr := rstrip_by is_space (lstrip_by is_space s).

(** [s.rstrip()] *)
Definition rstrip (s : pystr) : pystr := rstrip_by is_space s.

(** [re.sub(r"C+", rep, s)] for a character class [C]: every maximal run of
    class members is replaced by one copy of [rep].  [prev] tells whether the
    previous character belonged to the run being replaced. *)
Fixpoint sub_runs (f : N -> bool) (rep : pystr) (prev : bool) (s : pystr) : pystr :=
  match s with
  | [] => []
  | c :: t =>
      if f c
      then (if prev then [] else rep) ++ sub_runs f rep true t
      else c :: sub_runs f rep false t
  end.

Definition underscore : N := 95.
Definition space : N := 32.
Definition dot : N := 46.
Definition newline : N := 10.

Definition is_underscore (c : N) : bool := c =? underscore.

(** [WS_RE = re.compile(r"\s+")] *)
Definition WS_RE_sub (rep : pystr) (s : pystr) : pystr := sub_runs is_space rep false s.

(** [re.sub(r"_+", "_", s)] *)
Definition collapse_underscores (s : pystr) : pystr :=
  sub_runs is_underscore [underscore] false s.

(** Character class of [INVALID_WIN_RE]: less-than, greater-than, colon,
    double quote, slash, backslash, bar, question mark, star, and the
    control characters U+0000..U+001F. *)
Definition is_invalid_win (c : N) : bool :=
  (c =? 60) || (c =? 62) || (c =? 58) || (c =? 34) || (c =? 47) || (c =? 92)
  || (c =? 124) || (c =? 63) || (c =? 42) || (c <=? 31).

(** [INVALID_WIN_RE.sub("_", s)]: the class is matched one character at a
    time, so every member becomes its own underscore. *)
Definition INVALID_WIN_RE_sub (s : pystr) : pystr :=
  map (fun c => if is_invalid_win c then underscore else c) s.

Definition is_space_or_dot (c : N) : bool := (c =? space) || (c =? dot).

(** [s.rstrip(" .")] *)
Definition rstrip_space_dot (s : pystr) : pystr := rstrip_by is_space_or_dot s.

(** [s.upper()], as far as the membership test in [WIN_RESERVED] can tell:
    ASCII letters are upper-cased.  The reserved names are made of ASCII
    letters C O N P R A U X L M T and digits, and no non-ASCII code point has
    an upper-case expansion that is a substring of one of them, so other code
    points are left alone. *)
Definition upper_char (c : N) : N :=
  if (97 <=? c) && (c <=? 122) then c - 32 else c.

Definition upper (s : pystr) : pystr := map upper_char s.

Definition digits_1_9 : list string :=
  ["1"; "2"; "3"; "4"; "5"; "6"; "7"; "8"; "9"]%string.

Definition WIN_RESERVED : list pystr :=
  map str (["CON"; "PRN"; "AUX"; "NUL"]%string
           ++ map (fun d => ("COM" ++ d)%string) digits_1_9
           ++ map (fun d => ("LPT" ++ d)%string) digits_1_9).

Definition mem (s : pystr) (l : list pystr) : bool := existsb (pystr_eqb s) l.

(** [s.upper() in WIN_RESERVED] *)
Definition is_reserved (s : pystr) : bool := mem (upper s) WIN_RESERVED.

(** [s[:n]] for a Python int [n] (negative [n] counts from the end). *)
Definition slice_to (s : pystr) (n : Z) : pystr :=
  if (n <? 0)%Z
  then firstn (Z.to_nat (Z.max 0 (Z.of_nat (length s) + n))) s
  else firstn (Z.to_nat n) s.

(** [x or "untitled"] *)
Definition or_untitled (s : pystr) : pystr :=
  match s with [] => str "untitled" | _ => s end.

(** [safe_filename_base(s, max_len=..., preserve_blanks=...)] *)
Definition safe_filename_base (s : pystr) (max_len : Z) (preserve_blanks : bool) : pystr :=
  let s := strip s in
  let s := if preserve_blanks
           then WS_RE_sub [space] s
           else collapse_underscores (WS_RE_sub [underscore] s) in
  let s := or_untitled s in
  let s := INVALID_WIN_RE_sub s in
  let s := rstrip_space_dot s in
  let s := if is_reserved s then [underscore] ++ s ++ [underscore] else s in
  let s := if (Z.of_nat (length s) >? max_len)%Z
           then rstrip_space_dot (slice_to s max_len)
           else s in
  or_untitled s.

(** Default of the keyword argument [max_len]. *)
Definition default_max_len : Z := 180.

(** *** Shapes of sanitized names *)

(** Two underscores in a row. *)
Fixpoint has_underscore_run (s : pystr) : bool :=
  match s with
  | [] => false
  | a :: t =>
      match t with
      | [] => false
      | b :: _ => (is_underscore a && is_underscore b) || has_underscore_run t
      end
  end.

(** Blanks are plain spaces, each one alone, none at the start ([prev] tells
    whether a blank or the start of the text comes just before). *)
Fixpoint single_spaced (prev : bool) (s : pystr) : bool :=
  match s with
  | [] => true
  | c :: t =>
      if is_space c then (c =? space) && negb prev && single_spaced true t
      else single_spaced false t
  end.

(** The part of [settled] that survives cutting a text short. *)
Definition shaped (pb : bool) (s : pystr) : Prop :=
  single_spaced true s = true
  /\ Forall (fun c => is_invalid_win c = false) s
  /\ (pb = false -> Forall (fun c => is_space c = false) s).

(** What every result of [safe_filename_base] looks like. *)
Definition settled (preserve_blanks : bool) (r : pystr) : Prop :=
  r <> []
  /\ Forall (fun c => is_invalid_win c = false) r
  /\ rstrip_space_dot r = r
  /\ single_spaced true r = true
  /\ (preserve_blanks = false -> Forall (fun c => is_space c = false) r).

End PyStr.

Import PyStr.

(** ** Exceptions *)

Inductive Exc :=
| AttributeError | KeyError | TypeError | ValueError | RuntimeError
| FileNotFoundError | FileExistsError | NotADirectoryError | IsADirectoryError
| PermissionError | OSError | JSONDecodeError | SystemExit (code : Z).

(** Result of a call: a value, a raised exception, or a loop that was still
    running when its fuel ran out. *)
Inductive Outcome (A : Type) :=
| Ok (a : A)
| Raised (e : Exc)
| OutOfFuel.
Arguments Ok {A} a.
Arguments Raised {A} e.
Arguments OutOfFuel {A}.

Definition bind {A B} (m : Outcome A) (k : A -> Outcome B) : Outcome B :=
  match m with
  | Ok a => k a
  | Raised e => Raised e
  | OutOfFuel => OutOfFuel
  end.

Notation "x <- m ;; k" := (bind m (fun x => k))
  (at level 61, m at next level, right associativity).

(** ** Paths (pathlib, POSIX flavour) *)

Module PyPath.

Local Open Scope N_scope.

(** An absolute path: its components below the root; [[]] is the root. *)
Definition Path := list pystr.

Definition slash : N := 47.

Fixpoint path_eqb (p q : Path) : bool :=
  match p, q with
  | [], [] => true
  | a :: p', b :: q' => pystr_eqb a b && path_eqb p' q'
  | _, _ => false
  end.

(** Components of a path text: split at slashes, empty and [.] components
    dropped, as the [Path] constructor does. *)
Fixpoint split_slash (s : pystr) (cur : pystr) : list pystr :=
  match s with
  | [] => [rev cur]
  | c :: t => if c =? slash then rev cur :: split_slash t [] else split_slash t (c :: cur)
  end.

Definition keep_part (c : pystr) : bool :=
  negb (pystr_eqb c []) && negb (pystr_eqb c [dot]).

Definition parts_of (s : pystr) : list pystr := filter keep_part (split_slash s []).

(** [Path(s)]; a relative text is read from the working directory, which is
    taken to be the root. *)
Definition Path_of (s : pystr) : Path := parts_of s.

(** [p / s] *)
Definition div (p : Path) (s : pystr) : Path :=
  match s with
  | c :: _ => if c =? slash then parts_of s else p ++ parts_of s
  | [] => p
  end.

(** [str(p)] *)
Definition str_of (p : Path) : pystr :=
  match p with
  | [] => [slash]
  | _ => concat (map (fun c => slash :: c) p)
  end.

(** [p.name] *)
Definition name (p : Path) : pystr := last p [].

(** [p.parent] *)
Definition parent (p : Path) : Path := removelast p.

(** [s.rfind(c)] *)
Fixpoint rfind (c : N) (s : pystr) : option nat :=
  match s with
  | [] => None
  | x :: t =>
      match rfind c t with
      | Some i => Some (S i)
      | None => if x =? c then Some 0%nat else None
      end
  end.

(** Position of the dot that starts the suffix: [0 < i < len(name) - 1]. *)
Definition suffix_pos (n : pystr) : option nat :=
  match rfind dot n with
  | Some i => if (0 <? i)%nat && (i <? length n - 1)%nat then Some i else None
  | None => None
  end.

(** [p.suffix] *)
Definition suffix (p : Path) : pystr :=
  match suffix_pos (name p) with
  | Some i => skipn i (name p)
  | None => []
  end.

(** [p.stem] *)
Definition stem (p : Path) : pystr :=
  match suffix_pos (name p) with
  | Some i => firstn i (name p)
  | None => name p
  end.

(** [p.with_name(n)]: [ValueError] when [p] has no name. *)
Definition with_name (p : Path) (n : pystr) : Outcome Path :=
  match p with
  | [] => Raised ValueError
  | _ => Ok (parent p ++ [n])
  end.

(** [str.lower()], as CPython 3.11 computes it from the Unicode 14.0 tables:
    every character is replaced by its lower-case mapping, which is one
    character except for U+0130, and a capital sigma becomes a final sigma
    when a cased letter precedes it and none follows, characters that are
    ignored for case being skipped on both sides. *)

(** The characters with a lower-case mapping of their own, as runs
    [(first, last, step, image of first)]: the characters [first],
    [first + step], ... up to [last] map to the image of [first] moved by
    the same distance. *)
Definition LOWER_RUNS : list (N * N * N * N) :=
  [
   (65, 90, 1, 97); (192, 214, 1, 224); (216, 222, 1, 248); (256, 302, 2, 257);
    (306, 310, 2, 307); (313, 327, 2, 314); (330, 374, 2, 331); (376, 376, 1, 255);
    (377, 381, 2, 378); (385, 385, 1, 595); (386, 388, 2, 387); (390, 390, 1, 596);
    (391, 391, 1, 392); (393, 394, 1, 598); (395, 395, 1, 396); (398, 398, 1, 477);
    (399, 399, 1, 601); (400, 400, 1, 603); (401, 401, 1, 402); (403, 403, 1, 608);
    (404, 404, 1, 611); (406, 406, 1, 617); (407, 407, 1, 616); (408, 408, 1, 409);
    (412, 412, 1, 623); (413, 413, 1, 626); (415, 415, 1, 629); (416, 420, 2, 417);
    (422, 422, 1, 640); (423, 423, 1, 424); (425, 425, 1, 643); (428, 428, 1, 429);
    (430, 430, 1, 648); (431, 431, 1, 432); (433, 434, 1, 650); (435, 437, 2, 436);
    (439, 439, 1, 658); (440, 440, 1, 441); (444, 444, 1, 445); (452, 452, 1, 454);
    (453, 453, 1, 454); (455, 455, 1, 457); (456, 456, 1, 457); (458, 458, 1, 460);
    (459, 475, 2, 460); (478, 494, 2, 479); (497, 497, 1, 499); (498, 500, 2, 499);
    (502, 502, 1, 405); (503, 503, 1, 447); (504, 542, 2, 505); (544, 544, 1, 414);
    (546, 562, 2, 547); (570, 570, 1, 11365); (571, 571, 1, 572); (573, 573, 1, 410);
    (574, 574, 1, 11366); (577, 577, 1, 578); (579, 579, 1, 384); (580, 580, 1, 649);
    (581, 581, 1, 652); (582, 590, 2, 583); (880, 882, 2, 881); (886, 886, 1, 887);
    (895, 895, 1, 1011); (902, 902, 1, 940); (904, 906, 1, 941); (908, 908, 1, 972);
    (910, 911, 1, 973); (913, 929, 1, 945); (932, 939, 1, 964); (975, 975, 1, 983);
    (984, 1006, 2, 985); (1012, 1012, 1, 952); (1015, 1015, 1, 1016); (1017, 1017, 1, 1010);
    (1018, 1018, 1, 1019); (1021, 1023, 1, 891); (1024, 1039, 1, 1104); (1040, 1071, 1, 1072);
    (1120, 1152, 2, 1121); (1162, 1214, 2, 1163); (1216, 1216, 1, 1231); (1217, 1229, 2, 1218);
    (1232, 1326, 2, 1233); (1329, 1366, 1, 1377); (4256, 4293, 1, 11520);
    (4295, 4295, 1, 11559); (4301, 4301, 1, 11565); (5024, 5103, 1, 43888);
    (5104, 5109, 1, 5112); (7312, 7354, 1, 4304); (7357, 7359, 1, 4349); (7680, 7828, 2, 7681);
    (7838, 7838, 1, 223); (7840, 7934, 2, 7841); (7944, 7951, 1, 7936); (7960, 7965, 1, 7952);
    (7976, 7983, 1, 7968); (7992, 7999, 1, 7984); (8008, 8013, 1, 8000); (8025, 8031, 2, 8017);
    (8040, 8047, 1, 8032); (8072, 8079, 1, 8064); (8088, 8095, 1, 8080); (8104, 8111, 1, 8096);
    (8120, 8121, 1, 8112); (8122, 8123, 1, 8048); (8124, 8124, 1, 8115); (8136, 8139, 1, 8050);
    (8140, 8140, 1, 8131); (8152, 8153, 1, 8144); (8154, 8155, 1, 8054); (8168, 8169, 1, 8160);
    (8170, 8171, 1, 8058); (8172, 8172, 1, 8165); (8184, 8185, 1, 8056); (8186, 8187, 1, 8060);
    (8188, 8188, 1, 8179); (8486, 8486, 1, 969); (8490, 8490, 1, 107); (8491, 8491, 1, 229);
    (8498, 8498, 1, 8526); (8544, 8559, 1, 8560); (8579, 8579, 1, 8580); (9398, 9423, 1, 9424);
    (11264, 11311, 1, 11312); (11360, 11360, 1, 11361); (11362, 11362, 1, 619);
    (11363, 11363, 1, 7549); (11364, 11364, 1, 637); (11367, 11371, 2, 11368);
    (11373, 11373, 1, 593); (11374, 11374, 1, 625); (11375, 11375, 1, 592);
    (11376, 11376, 1, 594); (11378, 11378, 1, 11379); (11381, 11381, 1, 11382);
    (11390, 11391, 1, 575); (11392, 11490, 2, 11393); (11499, 11501, 2, 11500);
    (11506, 11506, 1, 11507); (42560, 42604, 2, 42561); (42624, 42650, 2, 42625);
    (42786, 42798, 2, 42787); (42802, 42862, 2, 42803); (42873, 42875, 2, 42874);
    (42877, 42877, 1, 7545); (42878, 42886, 2, 42879); (42891, 42891, 1, 42892);
    (42893, 42893, 1, 613); (42896, 42898, 2, 42897); (42902, 42920, 2, 42903);
    (42922, 42922, 1, 614); (42923, 42923, 1, 604); (42924, 42924, 1, 609);
    (42925, 42925, 1, 620); (42926, 42926, 1, 618); (42928, 42928, 1, 670);
    (42929, 42929, 1, 647); (42930, 42930, 1, 669); (42931, 42931, 1, 43859);
    (42932, 42946, 2, 42933); (42948, 42948, 1, 42900); (42949, 42949, 1, 642);
    (42950, 42950, 1, 7566); (42951, 42953, 2, 42952); (42960, 42960, 1, 42961);
    (42966, 42968, 2, 42967); (42997, 42997, 1, 42998); (65313, 65338, 1, 65345);
    (66560, 66599, 1, 66600); (66736, 66771, 1, 66776); (66928, 66938, 1, 66967);
    (66940, 66954, 1, 66979); (66956, 66962, 1, 66995); (66964, 66965, 1, 67003);
    (68736, 68786, 1, 68800); (71840, 71871, 1, 71872); (93760, 93791, 1, 93792);
    (125184, 125217, 1, 125218)
  ]%N.

(** The characters that are ignored for case (Case_Ignorable), as ranges. *)
Definition CASE_IGNORABLE : list (N * N) :=
  [
   (39, 39); (46, 46); (58, 58); (94, 94); (96, 96); (168, 168); (173, 173); (175, 175);
    (180, 180); (183, 184); (688, 879); (884, 885); (890, 890); (900, 901); (903, 903);
    (1155, 1161); (1369, 1369); (1375, 1375); (1425, 1469); (1471, 1471); (1473, 1474);
    (1476, 1477); (1479, 1479); (1524, 1524); (1536, 1541); (1552, 1562); (1564, 1564);
    (1600, 1600); (1611, 1631); (1648, 1648); (1750, 1757); (1759, 1768); (1770, 1773);
    (1807, 1807); (1809, 1809); (1840, 1866); (1958, 1968); (2027, 2037); (2042, 2042);
    (2045, 2045); (2070, 2093); (2137, 2139); (2184, 2184); (2192, 2193); (2200, 2207);
    (2249, 2306); (2362, 2362); (2364, 2364); (2369, 2376); (2381, 2381); (2385, 2391);
    (2402, 2403); (2417, 2417); (2433, 2433); (2492, 2492); (2497, 2500); (2509, 2509);
    (2530, 2531); (2558, 2558); (2561, 2562); (2620, 2620); (2625, 2626); (2631, 2632);
    (2635, 2637); (2641, 2641); (2672, 2673); (2677, 2677); (2689, 2690); (2748, 2748);
    (2753, 2757); (2759, 2760); (2765, 2765); (2786, 2787); (2810, 2815); (2817, 2817);
    (2876, 2876); (2879, 2879); (2881, 2884); (2893, 2893); (2901, 2902); (2914, 2915);
    (2946, 2946); (3008, 3008); (3021, 3021); (3072, 3072); (3076, 3076); (3132, 3132);
    (3134, 3136); (3142, 3144); (3146, 3149); (3157, 3158); (3170, 3171); (3201, 3201);
    (3260, 3260); (3263, 3263); (3270, 3270); (3276, 3277); (3298, 3299); (3328, 3329);
    (3387, 3388); (3393, 3396); (3405, 3405); (3426, 3427); (3457, 3457); (3530, 3530);
    (3538, 3540); (3542, 3542); (3633, 3633); (3636, 3642); (3654, 3662); (3761, 3761);
    (3764, 3772); (3782, 3782); (3784, 3789); (3864, 3865); (3893, 3893); (3895, 3895);
    (3897, 3897); (3953, 3966); (3968, 3972); (3974, 3975); (3981, 3991); (3993, 4028);
    (4038, 4038); (4141, 4144); (4146, 4151); (4153, 4154); (4157, 4158); (4184, 4185);
    (4190, 4192); (4209, 4212); (4226, 4226); (4229, 4230); (4237, 4237); (4253, 4253);
    (4348, 4348); (4957, 4959); (5906, 5908); (5938, 5939); (5970, 5971); (6002, 6003);
    (6068, 6069); (6071, 6077); (6086, 6086); (6089, 6099); (6103, 6103); (6109, 6109);
    (6155, 6159); (6211, 6211); (6277, 6278); (6313, 6313); (6432, 6434); (6439, 6440);
    (6450, 6450); (6457, 6459); (6679, 6680); (6683, 6683); (6742, 6742); (6744, 6750);
    (6752, 6752); (6754, 6754); (6757, 6764); (6771, 6780); (6783, 6783); (6823, 6823);
    (6832, 6862); (6912, 6915); (6964, 6964); (6966, 6970); (6972, 6972); (6978, 6978);
    (7019, 7027); (7040, 7041); (7074, 7077); (7080, 7081); (7083, 7085); (7142, 7142);
    (7144, 7145); (7149, 7149); (7151, 7153); (7212, 7219); (7222, 7223); (7288, 7293);
    (7376, 7378); (7380, 7392); (7394, 7400); (7405, 7405); (7412, 7412); (7416, 7417);
    (7468, 7530); (7544, 7544); (7579, 7679); (8125, 8125); (8127, 8129); (8141, 8143);
    (8157, 8159); (8173, 8175); (8189, 8190); (8203, 8207); (8216, 8217); (8228, 8228);
    (8231, 8231); (8234, 8238); (8288, 8292); (8294, 8303); (8305, 8305); (8319, 8319);
    (8336, 8348); (8400, 8432); (11388, 11389); (11503, 11505); (11631, 11631); (11647, 11647);
    (11744, 11775); (11823, 11823); (12293, 12293); (12330, 12333); (12337, 12341);
    (12347, 12347); (12441, 12446); (12540, 12542); (40981, 40981); (42232, 42237);
    (42508, 42508); (42607, 42610); (42612, 42621); (42623, 42623); (42652, 42655);
    (42736, 42737); (42752, 42785); (42864, 42864); (42888, 42890); (42994, 42996);
    (43000, 43001); (43010, 43010); (43014, 43014); (43019, 43019); (43045, 43046);
    (43052, 43052); (43204, 43205); (43232, 43249); (43263, 43263); (43302, 43309);
    (43335, 43345); (43392, 43394); (43443, 43443); (43446, 43449); (43452, 43453);
    (43471, 43471); (43493, 43494); (43561, 43566); (43569, 43570); (43573, 43574);
    (43587, 43587); (43596, 43596); (43632, 43632); (43644, 43644); (43696, 43696);
    (43698, 43700); (43703, 43704); (43710, 43711); (43713, 43713); (43741, 43741);
    (43756, 43757); (43763, 43764); (43766, 43766); (43867, 43871); (43881, 43883);
    (44005, 44005); (44008, 44008); (44013, 44013); (64286, 64286); (64434, 64450);
    (65024, 65039); (65043, 65043); (65056, 65071); (65106, 65106); (65109, 65109);
    (65279, 65279); (65287, 65287); (65294, 65294); (65306, 65306); (65342, 65342);
    (65344, 65344); (65392, 65392); (65438, 65439); (65507, 65507); (65529, 65531);
    (66045, 66045); (66272, 66272); (66422, 66426); (67456, 67461); (67463, 67504);
    (67506, 67514); (68097, 68099); (68101, 68102); (68108, 68111); (68152, 68154);
    (68159, 68159); (68325, 68326); (68900, 68903); (69291, 69292); (69446, 69456);
    (69506, 69509); (69633, 69633); (69688, 69702); (69744, 69744); (69747, 69748);
    (69759, 69761); (69811, 69814); (69817, 69818); (69821, 69821); (69826, 69826);
    (69837, 69837); (69888, 69890); (69927, 69931); (69933, 69940); (70003, 70003);
    (70016, 70017); (70070, 70078); (70089, 70092); (70095, 70095); (70191, 70193);
    (70196, 70196); (70198, 70199); (70206, 70206); (70367, 70367); (70371, 70378);
    (70400, 70401); (70459, 70460); (70464, 70464); (70502, 70508); (70512, 70516);
    (70712, 70719); (70722, 70724); (70726, 70726); (70750, 70750); (70835, 70840);
    (70842, 70842); (70847, 70848); (70850, 70851); (71090, 71093); (71100, 71101);
    (71103, 71104); (71132, 71133); (71219, 71226); (71229, 71229); (71231, 71232);
    (71339, 71339); (71341, 71341); (71344, 71349); (71351, 71351); (71453, 71455);
    (71458, 71461); (71463, 71467); (71727, 71735); (71737, 71738); (71995, 71996);
    (71998, 71998); (72003, 72003); (72148, 72151); (72154, 72155); (72160, 72160);
    (72193, 72202); (72243, 72248); (72251, 72254); (72263, 72263); (72273, 72278);
    (72281, 72283); (72330, 72342); (72344, 72345); (72752, 72758); (72760, 72765);
    (72767, 72767); (72850, 72871); (72874, 72880); (72882, 72883); (72885, 72886);
    (73009, 73014); (73018, 73018); (73020, 73021); (73023, 73029); (73031, 73031);
    (73104, 73105); (73109, 73109); (73111, 73111); (73459, 73460); (78896, 78904);
    (92912, 92916); (92976, 92982); (92992, 92995); (94031, 94031); (94095, 94111);
    (94176, 94177); (94179, 94180); (110576, 110579); (110581, 110587); (110589, 110590);
    (113821, 113822); (113824, 113827); (118528, 118573); (118576, 118598); (119143, 119145);
    (119155, 119170); (119173, 119179); (119210, 119213); (119362, 119364); (121344, 121398);
    (121403, 121452); (121461, 121461); (121476, 121476); (121499, 121503); (121505, 121519);
    (122880, 122886); (122888, 122904); (122907, 122913); (122915, 122916); (122918, 122922);
    (123184, 123197); (123566, 123566); (123628, 123631); (125136, 125142); (125252, 125259);
    (127995, 127999); (917505, 917505); (917536, 917631); (917760, 917999)
  ]%N.

(** The cased characters that are not ignored for case, as ranges. *)
Definition CASED : list (N * N) :=
  [
   (65, 90); (97, 122); (170, 170); (181, 181); (186, 186); (192, 214); (216, 246); (248, 442);
    (444, 447); (452, 659); (661, 687); (880, 883); (886, 887); (891, 893); (895, 895);
    (902, 902); (904, 906); (908, 908); (910, 929); (931, 1013); (1015, 1153); (1162, 1327);
    (1329, 1366); (1376, 1416); (4256, 4293); (4295, 4295); (4301, 4301); (4304, 4346);
    (4349, 4351); (5024, 5109); (5112, 5117); (7296, 7304); (7312, 7354); (7357, 7359);
    (7424, 7467); (7531, 7543); (7545, 7578); (7680, 7957); (7960, 7965); (7968, 8005);
    (8008, 8013); (8016, 8023); (8025, 8025); (8027, 8027); (8029, 8029); (8031, 8061);
    (8064, 8116); (8118, 8124); (8126, 8126); (8130, 8132); (8134, 8140); (8144, 8147);
    (8150, 8155); (8160, 8172); (8178, 8180); (8182, 8188); (8450, 8450); (8455, 8455);
    (8458, 8467); (8469, 8469); (8473, 8477); (8484, 8484); (8486, 8486); (8488, 8488);
    (8490, 8493); (8495, 8500); (8505, 8505); (8508, 8511); (8517, 8521); (8526, 8526);
    (8544, 8575); (8579, 8580); (9398, 9449); (11264, 11387); (11390, 11492); (11499, 11502);
    (11506, 11507); (11520, 11557); (11559, 11559); (11565, 11565); (42560, 42605);
    (42624, 42651); (42786, 42863); (42865, 42887); (42891, 42894); (42896, 42954);
    (42960, 42961); (42963, 42963); (42965, 42969); (42997, 42998); (43002, 43002);
    (43824, 43866); (43872, 43880); (43888, 43967); (64256, 64262); (64275, 64279);
    (65313, 65338); (65345, 65370); (66560, 66639); (66736, 66771); (66776, 66811);
    (66928, 66938); (66940, 66954); (66956, 66962); (66964, 66965); (66967, 66977);
    (66979, 66993); (66995, 67001); (67003, 67004); (68736, 68786); (68800, 68850);
    (71840, 71903); (93760, 93823); (119808, 119892); (119894, 119964); (119966, 119967);
    (119970, 119970); (119973, 119974); (119977, 119980); (119982, 119993); (119995, 119995);
    (119997, 120003); (120005, 120069); (120071, 120074); (120077, 120084); (120086, 120092);
    (120094, 120121); (120123, 120126); (120128, 120132); (120134, 120134); (120138, 120144);
    (120146, 120485); (120488, 120512); (120514, 120538); (120540, 120570); (120572, 120596);
    (120598, 120628); (120630, 120654); (120656, 120686); (120688, 120712); (120714, 120744);
    (120746, 120770); (120772, 120779); (122624, 122633); (122635, 122654); (125184, 125251);
    (127280, 127305); (127312, 127337); (127344, 127369)
  ]%N.

Definition in_run (c : N) (r : N * N * N * N) : bool :=
  let '(first, last, step_, _) := r in
  ((first <=? c) && (c <=? last) && ((c - first) mod step_ =? 0))%N.

(** The lower-case mapping of one character other than the capital sigma. *)
Definition to_lower (c : N) : pystr :=
  if (c =? 304)%N then [105; 775]%N
  else match find (in_run c) LOWER_RUNS with
       | Some (first, _, _, image) => [image + (c - first)]%N
       | None => [c]
       end.

Definition in_ranges (c : N) (l : list (N * N)) : bool :=
  existsb (fun r => ((fst r <=? c) && (c <=? snd r))%N) l.

Definition case_ignorable (c : N) : bool := in_ranges c CASE_IGNORABLE.

Definition cased (c : N) : bool := in_ranges c CASED.

Fixpoint skip_ignorable (s : pystr) : pystr :=
  match s with
  | [] => []
  | c :: t => if case_ignorable c then skip_ignorable t else s
  end.

(** Whether a capital sigma stands at the end of a word: [before] is the
    text in front of it, nearest character first. *)
Definition final_sigma (before after : pystr) : bool :=
  match skip_ignorable before with
  | [] => false
  | c :: _ =>
      cased c && match skip_ignorable after with
                 | [] => true
                 | d :: _ => negb (cased d)
                 end
  end.

Fixpoint lower_from (before s : pystr) : pystr :=
  match s with
  | [] => []
  | c :: t =>
      (if (c =? 931)%N then [if final_sigma before t then 962%N else 963%N]
       else to_lower c)
      ++ lower_from (c :: before) t
  end.

(** [s.lower()] *)
Definition lower (s : pystr) : pystr := lower_from [] s.

(** [str(i)] for a non-negative int. *)
Definition str_of_nat (i : nat) : pystr :=
  str (DecimalString.NilEmpty.string_of_uint (Nat.to_uint i)).

End PyPath.

Import PyPath.

(** ** File system

    The file system is a table from paths to entries.  A symbolic link is
    followed when it is the last component of a path; a path that leads
    through a link to a directory is looked up as it is written, so the
    table is exactly what the program sees when no link leads to a
    directory ([no_linked_dirs] below).  Names and paths of any length are
    accepted and permissions always suffice, except where the [Platform]
    says otherwise. *)

Module FileSys.

(** A directory entry.  A hard link is a second [File] entry with the same
    data: the rename command never rewrites the data of a media file. *)
Inductive Node :=
| File (data : pystr)
| Dir
| Symlink (target : Path).

(** The table of entries, in directory iteration order. *)
Definition FS := list (Path * Node).

(** The entry at a path itself (no link is followed); the root is always a
    directory. *)
Fixpoint find_entry (fs : FS) (p : Path) : option Node :=
  match fs with
  | [] => None
  | (q, n) :: r => if path_eqb q p then Some n else find_entry r p
  end.

Definition lookup (fs : FS) (p : Path) : option Node :=
  match p with
  | [] => Some Dir
  | _ => find_entry fs p
  end.

(** Follow symbolic links, at most [fuel] of them (a longer chain is a loop). *)
Fixpoint resolve (fuel : nat) (fs : FS) (p : Path) : option (Path * Node) :=
  match lookup fs p with
  | None => None
  | Some (Symlink t) =>
      match fuel with
      | O => None
      | S k => resolve k fs t
      end
  | Some n => Some (p, n)
  end.

(** [os.stat]: the node a path leads to, links followed. *)
Definition stat (fs : FS) (p : Path) : option (Path * Node) :=
  resolve (length fs) fs p.

(** [p.exists()] *)
Definition exists_ (fs : FS) (p : Path) : bool :=
  match stat fs p with Some _ => true | None => false end.

(** [p.is_file()] *)
Definition is_file (fs : FS) (p : Path) : bool :=
  match stat fs p with Some (_, File _) => true | _ => false end.

(** [p.is_dir()] *)
Definition is_dir (fs : FS) (p : Path) : bool :=
  match stat fs p with Some (_, Dir) => true | _ => false end.

(** [p.is_symlink()] *)
Definition is_symlink (fs : FS) (p : Path) : bool :=
  match lookup fs p with Some (Symlink _) => true | _ => false end.

(** [p.read_text()] / [p.read_bytes()] of a regular file. *)
Definition read (fs : FS) (p : Path) : option pystr :=
  match stat fs p with Some (_, File d) => Some d | _ => None end.

(** [folder.iterdir()] *)
Definition iterdir (fs : FS) (folder : Path) : Outcome (list Path) :=
  match stat fs folder with
  | None => Raised FileNotFoundError
  | Some (d, Dir) =>
      Ok (map fst (filter (fun e => match fst e with
                                    | [] => false
                                    | q => path_eqb (parent q) d
                                    end) fs))
  | Some _ => Raised NotADirectoryError
  end.

Definition remove_entry (fs : FS) (p : Path) : FS :=
  filter (fun e => negb (path_eqb (fst e) p)) fs.

(** [q] with its leading [src] replaced by [dst], when [q] is [src] or lies
    below it. *)
Fixpoint rebase (src dst q : Path) : option Path :=
  match src, q with
  | [], _ => Some (dst ++ q)
  | a :: src', b :: q' => if pystr_eqb a b then rebase src' dst q' else None
  | _ :: _, [] => None
  end.

Definition is_below (p q : Path) : bool :=
  match rebase p [] q with Some _ => true | None => false end.

(** [os.rename(src, dst)] on POSIX: the entry is moved with everything below
    it, and a file or link already at [dst] is replaced. *)
Definition os_rename (fs : FS) (src dst : Path) : Outcome FS :=
  match src, find_entry fs src with
  | [], _ => Raised OSError
  | _, None => Raised FileNotFoundError
  | _, Some n =>
      if negb (is_dir fs (parent dst)) then Raised FileNotFoundError
      else match lookup fs dst, n with
           | Some Dir, Dir => Raised OSError
           | Some Dir, _ => Raised IsADirectoryError
           | Some _, Dir => Raised NotADirectoryError
           | _, _ =>
               if path_eqb src dst then Ok fs
               else if is_below src dst then Raised OSError
               else Ok (map (fun e => match rebase src dst (fst e) with
                                      | Some q => (q, snd e)
                                      | None => e
                                      end)
                            (remove_entry fs dst))
           end
  end.

(** [p.mkdir(parents=True, exist_ok=True)]: [done] is the part of the path
    already known to be a directory. *)
Fixpoint mkdir_parents (fs : FS) (done : Path) (rest : list pystr) : Outcome FS :=
  match rest with
  | [] => Ok fs
  | c :: r =>
      let d := done ++ [c] in
      if is_dir fs d then mkdir_parents fs d r
      else match lookup fs d with
           | Some _ => Raised (match r with [] => FileExistsError | _ => NotADirectoryError end)
           | None => mkdir_parents (fs ++ [(d, Dir)]) d r
           end
  end.

Definition mkdir (fs : FS) (p : Path) : Outcome FS := mkdir_parents fs [] p.

(** Replace the data of the regular file entry at [p]. *)
Definition set_data (fs : FS) (p : Path) (d : pystr) : FS :=
  map (fun e => if path_eqb (fst e) p then (fst e, File d) else e) fs.

(** Where a chain of symbolic links that starts at [p] ends without an
    entry: [p] itself when nothing is there. *)
Fixpoint dangling_end (fuel : nat) (fs : FS) (p : Path) : option Path :=
  match lookup fs p with
  | None => Some p
  | Some (Symlink t) =>
      match fuel with
      | O => None
      | S k => dangling_end k fs t
      end
  | Some _ => None
  end.

(** [p.open("a")]: links are followed, and the file is created empty where
    the path, or the chain of links that starts at it, ends without an
    entry; a chain that never ends is an [OSError]. *)
Definition open_append (fs : FS) (p : Path) : Outcome (FS * Path) :=
  match stat fs p with
  | Some (q, File _) => Ok (fs, q)
  | Some (_, _) => Raised IsADirectoryError
  | None =>
      match dangling_end (length fs) fs p with
      | None => Raised OSError
      | Some [] => Raised IsADirectoryError
      | Some q => if is_dir fs (parent q) then Ok (fs ++ [(q, File [])], q)
                  else Raised FileNotFoundError
      end
  end.

(** [f.write(text); f.flush()] on a file opened for appending at [q]. *)
Definition append (fs : FS) (q : Path) (text : pystr) : FS :=
  match find_entry fs q with
  | Some (File d) => set_data fs q (d ++ text)
  | _ => fs
  end.

(** What the platform decides: whether links and copies can be made, and how
    a deletion ends. *)
Inductive UnlinkResult := UnlinkOk | UnlinkPermission | UnlinkFails.

Record Platform := {
  hardlink_ok : Path -> Path -> bool;
  symlink_ok : Path -> Path -> bool;
  copy_ok : Path -> Path -> bool;
  unlink_result : Path -> UnlinkResult;
  unlink_retry_ok : Path -> bool
}.

(** A platform on which every operation succeeds. *)
Definition permissive : Platform := {|
  hardlink_ok := fun _ _ => true;
  symlink_ok := fun _ _ => true;
  copy_ok := fun _ _ => true;
  unlink_result := fun _ => UnlinkOk;
  unlink_retry_ok := fun _ => true
|}.

(** [os.link(new, old)] *)
Definition os_link (pf : Platform) (fs : FS) (new old : Path) : Outcome FS :=
  match lookup fs old, stat fs new with
  | Some _, _ => Raised FileExistsError
  | None, Some (_, File d) =>
      if is_dir fs (parent old) && hardlink_ok pf new old
      then Ok (fs ++ [(old, File d)]) else Raised OSError
  | None, Some _ => Raised PermissionError
  | None, None => Raised FileNotFoundError
  end.

(** [os.symlink(relpath(new, old.parent), old)] *)
Definition os_symlink (pf : Platform) (fs : FS) (new old : Path) : Outcome FS :=
  match lookup fs old with
  | Some _ => Raised FileExistsError
  | None =>
      if is_dir fs (parent old) && symlink_ok pf new old
      then Ok (fs ++ [(old, Symlink new)]) else Raised OSError
  end.

(** [shutil.copy2(new, old)] where [old] does not exist. *)
Definition copy2 (pf : Platform) (fs : FS) (new old : Path) : Outcome FS :=
  match stat fs new with
  | Some (_, File d) =>
      if copy_ok pf new old
      then fs1 <- open_append fs old ;; Ok (set_data (fst fs1) (snd fs1) d)
      else Raised OSError
  | Some _ => Raised IsADirectoryError
  | None => Raised FileNotFoundError
  end.

(** [p.unlink()] *)
Definition unlink (fs : FS) (p : Path) : Outcome FS :=
  match lookup fs p with
  | None => Raised FileNotFoundError
  | Some Dir => Raised IsADirectoryError
  | Some _ => Ok (remove_entry fs p)
  end.

End FileSys.

Import FileSys.

(** ** Parsed JSON values *)

#[warnings="-register-all"]
Inductive Json :=
| JNull
| JBool (b : bool)
| JNum (literal : pystr)
| JStr (s : pystr)
| JArr (items : list Json)
| JObj (fields : list (pystr * Json)).

Fixpoint assoc (k : pystr) (l : list (pystr * Json)) : option Json :=
  match l with
  | [] => None
  | (k', v) :: r => if pystr_eqb k' k then Some v else assoc k r
  end.

(** [d.get(k)] *)
Definition json_get (d : Json) (k : pystr) : Outcome Json :=
  match d with
  | JObj l => Ok (match assoc k l with Some v => v | None => JNull end)
  | _ => Raised AttributeError
  end.

(** [d[k]] for a text key *)
Definition json_index (d : Json) (k : pystr) : Outcome Json :=
  match d with
  | JObj l => match assoc k l with Some v => Ok v | None => Raised KeyError end
  | _ => Raised TypeError
  end.

(** What [json.loads] makes of a number literal: an [int] when the literal
    has neither fraction nor exponent, a [float] with the decimal value
    [mantissa * 10 ^ exp10] otherwise, and a [float] that is not finite for
    the constants [NaN], [Infinity] and [-Infinity].  The sign is left out:
    it plays no part in the truth value. *)
Inductive PyNumber :=
| PyInt (magnitude : N)
| PyFloat (mantissa : N) (exp10 : Z)
| PyNonFinite.

(** The decimal digits at the head of a text, and the rest of the text. *)
Fixpoint span_digits (s : pystr) : pystr * pystr :=
  match s with
  | [] => ([], [])
  | c :: t =>
      if ((48 <=? c) && (c <=? 57))%N
      then let (d, r) := span_digits t in (c :: d, r)
      else ([], s)
  end.

Definition digits_value (d : pystr) : N :=
  fold_left (fun a c => 10 * a + (c - 48))%N d 0%N.

Definition parse_number (n : pystr) : PyNumber :=
  let body := match n with c :: t => if (c =? 45)%N then t else n | [] => n end in
  let (ip, r1) := span_digits body in
  match ip, r1 with
  | [], _ => PyNonFinite
  | _, [] => PyInt (digits_value ip)
  | _, c :: t =>
      let (fp, r2) := if (c =? 46)%N then span_digits t else ([], r1) in
      let ex :=
        match r2 with
        | e :: t2 =>
            if ((e =? 101) || (e =? 69))%N
            then match t2 with
                 | sign :: d =>
                     if (sign =? 45)%N then (- Z.of_N (digits_value d))%Z
                     else if (sign =? 43)%N then Z.of_N (digits_value d)
                     else Z.of_N (digits_value t2)
                 | [] => 0%Z
                 end
            else 0%Z
        | [] => 0%Z
        end in
      PyFloat (digits_value (ip ++ fp)) (ex - Z.of_nat (length fp))%Z
  end.

(** A decimal value is read as the float [0.0] when it is zero or rounds to
    zero: it is at most [2 ^ -1075], half of the least positive float (the
    tie goes to the even neighbour, which is zero). *)
Definition rounds_to_zero (mantissa : N) (exp10 : Z) : bool :=
  (mantissa =? 0)%N
  || ((exp10 <? 0)%Z
      && (Z.of_N mantissa * 2 ^ 1075 <=? 10 ^ (- exp10))%Z).

(** [not n] for the number that a literal denotes. *)
Definition is_zero_literal (n : pystr) : bool :=
  match parse_number n with
  | PyInt m => (m =? 0)%N
  | PyFloat m e => rounds_to_zero m e
  | PyNonFinite => false
  end.

(** Truth value of a parsed value. *)
Definition json_truthy (v : Json) : bool :=
  match v with
  | JNull => false
  | JBool b => b
  | JNum n => negb (is_zero_literal n)
  | JStr s => negb (pystr_eqb s [])
  | JArr l => match l with [] => false | _ => true end
  | JObj l => match l with [] => false | _ => true end
  end.

(** [a or b] *)
Definition json_or (a b : Json) : Json := if json_truthy a then a else b.

(** ** The rename command *)

Module Rename.

Local Open Scope string_scope.

(** [@dataclass RenameOp] *)
Record RenameOp := {
  kind : pystr;        (* audio / cover / attachment *)
  short_id : pystr;
  title : Json;
  src : Path;
  dst : Path;
  keep_mode : pystr    (* none / link / copy *)
}.

(** What an attribute of a [RenameOp] evaluates to. *)
Inductive Attr :=
| AText (s : pystr)
| AJson (v : Json)
| APath (p : Path)
| AMethod.

(** [op.<a>] for an ordinary attribute name: the dataclass has its six fields
    and the method [to_json]; any other name raises [AttributeError]. *)
Definition getattr (op : RenameOp) (a : string) : Outcome Attr :=
  if String.eqb a "kind" then Ok (AText (kind op))
  else if String.eqb a "short_id" then Ok (AText (short_id op))
  else if String.eqb a "title" then Ok (AJson (title op))
  else if String.eqb a "src" then Ok (APath (src op))
  else if String.eqb a "dst" then Ok (APath (dst op))
  else if String.eqb a "keep_mode" then Ok (AText (keep_mode op))
  else if String.eqb a "to_json" then Ok AMethod
  else Raised AttributeError.

Definition attr_truthy (v : Attr) : bool :=
  match v with
  | AText s => negb (pystr_eqb s [])
  | AJson j => json_truthy j
  | APath _ => true
  | AMethod => true
  end.

(** [RenameOp.to_json] *)
Definition to_json (op : RenameOp) : Json :=
  JObj [ (str "kind", JStr (kind op));
         (str "short_id", JStr (short_id op));
         (str "title", title op);
         (str "src", JStr (str_of (src op)));
         (str "dst", JStr (str_of (dst op)));
         (str "keep_link", JStr (keep_mode op)) ].

(** The body of the [while True] loop of [unique_path], from index [i]. *)
Fixpoint unique_path_loop (fuel : nat) (fs : FS) (p : Path) (stem_ suf : pystr) (i : nat)
  : Outcome Path :=
  match fuel with
  | O => OutOfFuel
  | S k =>
      cand <- with_name p (stem_ ++ str "__" ++ str_of_nat i ++ suf)%list ;;
      if exists_ fs cand then unique_path_loop k fs p stem_ suf (S i) else Ok cand
  end.

(** [unique_path(p)]: the loop gets one more round than the table has
    entries, which is always enough because the alternative names differ
    from one another. *)
Definition unique_path (fs : FS) (p : Path) : Outcome Path :=
  if negb (exists_ fs p) then Ok p
  else unique_path_loop (S (length fs)) fs p (stem p) (suffix p) 2.

(** The [i]-th alternative name of [p], with the numeric suffix before the
    extension. *)
Definition candidate (p : Path) (i : nat) : Path :=
  (parent p ++ [ stem p ++ str "__" ++ str_of_nat i ++ suffix p ])%list.


(** [find_by_stem(folder, stem)] *)
Definition find_by_stem (fs : FS) (folder : Path) (stem_ : pystr) : Outcome (option Path) :=
  ps <- iterdir fs folder ;;
  Ok (find (fun p => is_file fs p && pystr_eqb (lower (stem p)) (lower stem_)) ps).

Inductive Warning :=
| WNoShortId
| WFolderMissing (sid : pystr) (folder : Path)
| WAudioNotFound (sid : pystr)
| WCoverNotFound (sid : pystr)
| WAttachmentMissing (sid : pystr) (attach : pystr).

Section Environment.

(** The platform, the [json] module, and [str()] of a parsed value that is
    not a text (used when a title is formatted into the file name). *)
Variable pf : Platform.
Variable json_dumps : Json -> pystr.
Variable json_loads : pystr -> Outcome Json.
Variable format_json : Json -> pystr.

Definition format (v : Json) : pystr :=
  match v with
  | JStr s => s
  | _ => format_json v
  end.

(** The first of the canonical names that exists, else a stem search. *)
Definition locate (fs : FS) (folder : Path) (names : list string) (stem_ : string)
  : Outcome (option Path) :=
  match find (exists_ fs) (map (fun n => div folder (str n)) names) with
  | Some c => Ok (Some c)
  | None => find_by_stem fs folder (str stem_)
  end.

(** The guarded [ops.append(RenameOp(...))] shared by the three asset kinds. *)
Definition plan_asset (fs : FS) (kind_ : string) (sid : pystr) (title_ : Json)
    (keep : pystr) (src_ dst_ : Path) : Outcome (list RenameOp) :=
  if negb (pystr_eqb (name src_) (name dst_)) && negb (exists_ fs dst_)
  then d <- unique_path fs dst_ ;;
       Ok [ {| kind := str kind_; short_id := sid; title := title_;
               src := src_; dst := d; keep_mode := keep |} ]
  else Ok [].

(** One round of the loop over the pieces. *)
Definition plan_piece (fs : FS) (pieces_dir : Path) (username_clean : pystr)
    (preserve_blanks : bool) (keep : pystr) (piece : Json)
  : Outcome (list RenameOp * list Warning) :=
  sid <- json_get piece (str "short_id") ;;
  t <- json_get piece (str "title") ;;
  let title_ := json_or t (JStr (str "untitled")) in
  attach <- json_get piece (str "attachment") ;;
  if negb (json_truthy sid) then Ok ([], [WNoShortId])
  else
    match sid with
    | JStr sid =>
        let folder := div pieces_dir sid in
        if negb (exists_ fs folder) then Ok ([], [WFolderMissing sid folder])
        else
          let base := safe_filename_base
                        (username_clean ++ str " - " ++ format title_)%list
                        default_max_len preserve_blanks in
          audio_src <- locate fs folder ["audio.mp4"; "audio.m4a"; "audio.wav"; "audio.aac"] "audio" ;;
          audio <- match audio_src with
                   | Some a =>
                       ops <- plan_asset fs "audio" sid title_ keep a
                                (div folder (base ++ suffix a)%list) ;;
                       Ok (ops, [])
                   | None => Ok ([], [WAudioNotFound sid])
                   end ;;
          cover_src <- locate fs folder ["cover.jpg"; "cover.jpeg"; "cover.png"] "cover" ;;
          cover <- match cover_src with
                   | Some c =>
                       ops <- plan_asset fs "cover" sid title_ keep c
                                (div folder (base ++ str ".cover" ++ suffix c)%list) ;;
                       Ok (ops, [])
                   | None => Ok ([], [WCoverNotFound sid])
                   end ;;
          attachment <- match attach with
                        | JStr a =>
                            if negb (pystr_eqb (strip a) [])
                            then
                              let attach_src := div folder a in
                              if exists_ fs attach_src
                              then ops <- plan_asset fs "attachment" sid title_ keep attach_src
                                            (div folder (base ++ suffix attach_src)%list) ;;
                                   Ok (ops, [])
                              else Ok ([], [WAttachmentMissing sid a])
                            else Ok ([], [])
                        | _ => Ok ([], [])
                        end ;;
          Ok ((fst audio ++ fst cover ++ fst attachment)%list,
              (snd audio ++ snd cover ++ snd attachment)%list)
    | _ => Raised TypeError
    end.

(** What comes between the base and the extension in a planned name. *)
Definition infix_of (kind_ : pystr) : pystr :=
  if pystr_eqb kind_ (str "cover") then str ".cover" else [].

(** The destination of an operation as the naming convention alone gives it:
    [<pieces_dir>/<short_id>/<base><infix><extension>]. *)
Definition plain_destination (pieces_dir : Path) (username_clean : pystr)
    (preserve_blanks : bool) (op : RenameOp) : Path :=
  div (div pieces_dir (short_id op))
      (safe_filename_base
         (username_clean ++ str " - " ++ format (title op))%list
         default_max_len preserve_blanks
       ++ infix_of (kind op) ++ suffix (src op))%list.

Fixpoint plan_pieces (fs : FS) (pieces_dir : Path) (username_clean : pystr)
    (preserve_blanks : bool) (keep : pystr) (pieces : list Json)
  : Outcome (list RenameOp * list Warning) :=
  match pieces with
  | [] => Ok ([], [])
  | piece :: rest =>
      r <- plan_piece fs pieces_dir username_clean preserve_blanks keep piece ;;
      rs <- plan_pieces fs pieces_dir username_clean preserve_blanks keep rest ;;
      Ok ((fst r ++ fst rs)%list, (snd r ++ snd rs)%list)
  end.

(** [build_rename_ops(pieces, pieces_dir, username, preserve_blanks, keep_mode)] *)
Definition build_rename_ops (fs : FS) (pieces : list Json) (pieces_dir : Path)
    (username : pystr) (preserve_blanks : bool) (keep : pystr)
  : Outcome (list RenameOp * list Warning) :=
  let username_clean := safe_filename_base username default_max_len preserve_blanks in
  plan_pieces fs pieces_dir username_clean preserve_blanks keep pieces.

(** [ensure_compat_link(old_path, new_path)] *)
Definition ensure_compat_link (fs : FS) (old_path new_path : Path) : Outcome FS :=
  if exists_ fs old_path then Ok fs
  else match os_link pf fs new_path old_path with
       | Ok fs' => Ok fs'
       | _ => match os_symlink pf fs new_path old_path with
              | Ok fs' => Ok fs'
              | _ => Raised RuntimeError
              end
       end.

(** [ensure_compat_copy(old_path, new_path)] *)
Definition ensure_compat_copy (fs : FS) (old_path new_path : Path) : Outcome FS :=
  if exists_ fs old_path then Ok fs else copy2 pf fs new_path old_path.

(** [try: ... except Exception: print(WARN)] around a file system step. *)
Definition attempt (fs : FS) (r : Outcome FS) : FS :=
  match r with
  | Ok fs' => fs'
  | _ => fs
  end.

(** The loop of [apply_rename_ops] inside [with log_path.open("a") as f]. *)
Fixpoint apply_loop (f : Path) (ops : list RenameOp) (fs : FS) : FS * Outcome unit :=
  match ops with
  | [] => (fs, Ok tt)
  | op :: rest =>
      if exists_ fs (dst op) then apply_loop f rest fs
      else
        let old_path := src op in
        let new_path := dst op in
        match os_rename fs old_path new_path with
        | Ok fs1 =>
            let fs2 :=
              if pystr_eqb (keep_mode op) (str "link")
              then attempt fs1 (ensure_compat_link fs1 old_path new_path)
              else if pystr_eqb (keep_mode op) (str "copy")
              then attempt fs1 (ensure_compat_copy fs1 old_path new_path)
              else fs1 in
            match getattr op "keep_link" with
            | Ok v =>
                let fs3 :=
                  if attr_truthy v
                  then attempt fs2 (ensure_compat_link fs2 old_path new_path)
                  else fs2 in
                let fs4 := append fs3 f (json_dumps (to_json op) ++ [newline])%list in
                apply_loop f rest fs4
            | Raised e => (fs2, Raised e)
            | OutOfFuel => (fs2, OutOfFuel)
            end
        | Raised e => (fs, Raised e)
        | OutOfFuel => (fs, OutOfFuel)
        end
  end.

(** [apply_rename_ops(ops, log_path, dry_run)]; console output is not
    modelled. *)
Definition apply_rename_ops (ops : list RenameOp) (log_path : Path) (dry_run : bool)
    (fs : FS) : FS * Outcome unit :=
  match mkdir fs (parent log_path) with
  | Ok fs1 =>
      match ops with
      | [] => (fs1, Ok tt)
      | _ =>
          if dry_run then (fs1, Ok tt)
          else match open_append fs1 log_path with
               | Ok (fs2, f) => apply_loop f ops fs2
               | Raised e => (fs1, Raised e)
               | OutOfFuel => (fs1, OutOfFuel)
               end
      end
  | Raised e => (fs, Raised e)
  | OutOfFuel => (fs, OutOfFuel)
  end.

(** Lines of a text file read in text mode. *)
Fixpoint split_lines (s : pystr) (cur : pystr) : list pystr :=
  match s with
  | [] => match cur with [] => [] | _ => [rev cur] end
  | c :: t =>
      if ((c =? 10) || (c =? 13))%N then rev cur :: split_lines t []
      else split_lines t (c :: cur)
  end.

(** The entries of the journal: blank lines and lines that do not parse are
    skipped. *)
Fixpoint read_entries (lines : list pystr) : list Json :=
  match lines with
  | [] => []
  | line :: rest =>
      let line := strip line in
      match line with
      | [] => read_entries rest
      | _ => match json_loads line with
             | Ok e => e :: read_entries rest
             | _ => read_entries rest
             end
      end
  end.

(** [Path(e[k])] *)
Definition entry_path (e : Json) (k : string) : Outcome Path :=
  v <- json_index e (str k) ;;
  match v with
  | JStr s => Ok (Path_of s)
  | _ => Raised TypeError
  end.

(** The deletion of the compat file in [undo_rename_from_log], with its retry
    after [os.chmod]; every failure is caught and reported. *)
Definition delete_compat (fs : FS) (src_ : Path) : FS :=
  match unlink fs src_ with
  | Ok fs' =>
      match unlink_result pf src_ with
      | UnlinkOk => fs'
      | UnlinkPermission => if unlink_retry_ok pf src_ then fs' else fs
      | UnlinkFails => fs
      end
  | _ => fs
  end.

(** One round of the loop over the reversed journal. *)
Definition undo_entry (dry_run : bool) (e : Json) (fs : FS) : FS * Outcome unit :=
  match entry_path e "src" with
  | Ok src_ =>
      match entry_path e "dst" with
      | Ok dst_ =>
          if negb (exists_ fs dst_) then (fs, Ok tt)
          else
            let fs1 :=
              if exists_ fs src_ || is_symlink fs src_
              then if is_dir fs src_ then fs
                   else if dry_run then fs else delete_compat fs src_
              else fs in
            let fs2 := if dry_run then fs1 else attempt fs1 (os_rename fs1 dst_ src_) in
            (fs2, Ok tt)
      | Raised e => (fs, Raised e)
      | OutOfFuel => (fs, OutOfFuel)
      end
  | Raised e => (fs, Raised e)
  | OutOfFuel => (fs, OutOfFuel)
  end.

Fixpoint undo_loop (dry_run : bool) (entries : list Json) (fs : FS) : FS * Outcome unit :=
  match entries with
  | [] => (fs, Ok tt)
  | e :: rest =>
      match undo_entry dry_run e fs with
      | (fs', Ok _) => undo_loop dry_run rest fs'
      | r => r
      end
  end.

(** [undo_rename_from_log(log_path, dry_run)] *)
Definition undo_rename_from_log (log_path : Path) (dry_run : bool) (fs : FS)
  : FS * Outcome unit :=
  if negb (exists_ fs log_path) then (fs, Ok tt)
  else match read fs log_path with
       | Some text =>
           let entries := read_entries (split_lines text []) in
           match entries with
           | [] => (fs, Ok tt)
           | _ => undo_loop dry_run (rev entries) fs
           end
       | None => (fs, Raised IsADirectoryError)
       end.

End Environment.

End Rename.

Import Rename.

(** ** Command line *)

Module Cli.

Local Open Scope string_scope.

(** Options of the [rename] subcommand as given on the command line. *)
Record RenameFlags := {
  log : option Path;
  apply : bool;
  dry_run : bool;
  keep_link : bool;
  keep_copy : bool;
  undo : bool
}.

(** Options of the [tag] subcommand. *)
Record TagFlags := {
  tag_apply : bool;
  tag_dry_run : bool;
  no_overwrite_meta : bool
}.

(** What follows the global options: a subcommand with its options, or a
    request for help.  [SubHelp] stands for [-h] or [--help] met by the
    parser before anything it refuses, among the global options ([None]) or
    among the options of the named subcommand. *)
Inductive Sub :=
| SubRename (f : RenameFlags)
| SubTag (f : TagFlags)
| SubHelp (cmd : option string).

(** A command line accepted by the grammar of [build_cli]. *)
Record CommandLine := {
  root : option Path;
  meta : option Path;
  pieces_dir : option Path;
  username : option pystr;
  preserve_blanks : bool;
  sub : Sub
}.

(** The paths that [main] works with, read off the command line. *)
Definition root_of (cl : CommandLine) : Path :=
  match root cl with Some p => p | None => [] end.

Definition meta_path_of (cl : CommandLine) : Path :=
  match meta cl with
  | Some p => p
  | None => div (div (root_of cl) (str "dump")) (str "alltihop.json")
  end.

Definition pieces_dir_of (cl : CommandLine) : Path :=
  match pieces_dir cl with
  | Some p => p
  | None => div (div (div (root_of cl) (str "dump")) (str "assets")) (str "pieces")
  end.

(** Value of an attribute of the parsed arguments. *)
Inductive ArgVal :=
| ANone
| ABool (b : bool)
| AStr (s : pystr)
| APathV (p : Path).

(** [argparse.Namespace]: the attributes that were defined, by name. *)
Definition Namespace := list (string * ArgVal).

Definition of_path (o : option Path) : ArgVal :=
  match o with Some p => APathV p | None => ANone end.

Definition of_text (o : option pystr) : ArgVal :=
  match o with Some s => AStr s | None => ANone end.

(** [build_cli().parse_args()]: one attribute per declared option, named
    after the option; [--keep-link] and [--keep-copy] exclude each other,
    and the help option that [argparse] adds to every parser prints the help
    text and exits with status 0.
    The default root [Path(".")] is the working directory, the root here. *)
Definition parse_args (cl : CommandLine) : Outcome Namespace :=
  let globals :=
    [ ("root", APathV (match root cl with Some p => p | None => [] end));
      ("meta", of_path (meta cl));
      ("pieces_dir", of_path (pieces_dir cl));
      ("username", of_text (username cl));
      ("preserve_blanks", ABool (preserve_blanks cl)) ] in
  match sub cl with
  | SubRename f =>
      if keep_link f && keep_copy f then Raised (SystemExit 2)
      else Ok (globals ++
                 [ ("cmd", AStr (str "rename"));
                   ("log", of_path (log f));
                   ("apply", ABool (apply f));
                   ("dry_run", ABool (dry_run f));
                   ("keep_link", ABool (keep_link f));
                   ("keep_copy", ABool (keep_copy f));
                   ("undo", ABool (undo f)) ])%list
  | SubTag f =>
      Ok (globals ++
            [ ("cmd", AStr (str "tag"));
              ("apply", ABool (tag_apply f));
              ("dry_run", ABool (tag_dry_run f));
              ("no_overwrite_meta", ABool (no_overwrite_meta f)) ])%list
  | SubHelp _ => Raised (SystemExit 0)
  end.

(** [args.<a>] *)
Fixpoint attr (args : Namespace) (a : string) : Outcome ArgVal :=
  match args with
  | [] => Raised AttributeError
  | (k, v) :: r => if String.eqb k a then Ok v else attr r a
  end.

Definition arg_truthy (v : ArgVal) : bool :=
  match v with
  | ANone => false
  | ABool b => b
  | AStr s => negb (pystr_eqb s [])
  | APathV _ => true
  end.

(** [(v or default).resolve()] for a path option. *)
Definition path_or (v : ArgVal) (default : Path) : Outcome Path :=
  match v with
  | APathV p => Ok p
  | ANone => Ok default
  | _ => Raised AttributeError
  end.

Definition starts_with (pre s : pystr) : bool :=
  pystr_eqb (firstn (length pre) s) pre.

(** Run a step that cannot change the file system, then continue. *)
Definition step {A B} (fs : FS) (m : Outcome A) (k : A -> FS * Outcome B) : FS * Outcome B :=
  match m with
  | Ok a => k a
  | Raised e => (fs, Raised e)
  | OutOfFuel => (fs, OutOfFuel)
  end.

Notation "x <~ m 'on' fs ;; k" := (step fs m (fun x => k))
  (at level 61, m at next level, fs at next level, right associativity).

Section Environment.

Variable pf : Platform.
Variable json_dumps : Json -> pystr.
Variable json_loads : pystr -> Outcome Json.
Variable format_json : Json -> pystr.

(** The [tag] subcommand, which delegates to the tagging library. *)
Variable cmd_tag : Json -> Path -> Json -> bool -> bool -> bool -> FS -> FS * Outcome Z.

(** [load_alltihop_json(path)] *)
Definition load_alltihop_json (fs : FS) (path : Path) : Outcome Json :=
  match stat fs path with
  | Some (_, File raw) =>
      let raw := strip raw in
      let raw := if starts_with (str "alltihop=") raw
                 then skipn (length (str "alltihop=")) raw else raw in
      let raw := rstrip_by (fun c => c =? 59)%N (strip raw) in
      json_loads raw
  | Some _ => Raised IsADirectoryError
  | None => Raised FileNotFoundError
  end.

(** The [rename] branch of [main] once [--undo] is ruled out. *)
Definition main_rename (args : Namespace) (data : Json) (pieces_dir_ : Path)
    (username_ : Json) (log_path : Path) (dry : bool) (fs : FS) : FS * Outcome Z :=
  pieces <~ json_get data (str "pieces") on fs ;;
  match pieces with
  | JArr pieces =>
      kl <~ attr args "keep_link" on fs ;;
      kc <~ (if arg_truthy kl then Ok ANone else attr args "keep_copy") on fs ;;
      (* keep_mode = "none" / "link" / "copy": assigned, then not used *)
      pb <~ attr args "preserve_blanks" on fs ;;
      km <~ attr args "keep_mode" on fs ;;
      match username_ with
      | JStr u =>
          plan <~ build_rename_ops format_json fs pieces pieces_dir_ u (arg_truthy pb)
                    (match km with AStr s => s | _ => [] end) on fs ;;
          match apply_rename_ops pf json_dumps (fst plan) log_path dry fs with
          | (fs', Ok _) => (fs', Ok 0%Z)
          | (fs', Raised e) => (fs', Raised e)
          | (fs', OutOfFuel) => (fs', OutOfFuel)
          end
      | _ => (fs, Raised AttributeError)
      end
  | _ => (fs, Ok 2%Z)
  end.

(** [main()], for the parsed command line [cl]. *)
Definition main (cl : CommandLine) (fs : FS) : FS * Outcome Z :=
  args <~ parse_args cl on fs ;;
  r <~ attr args "root" on fs ;;
  root_ <~ path_or r [] on fs ;;
  m <~ attr args "meta" on fs ;;
  meta_path <~ path_or m (div (div root_ (str "dump")) (str "alltihop.json")) on fs ;;
  pd <~ attr args "pieces_dir" on fs ;;
  pieces_dir_ <~ path_or pd (div (div (div root_ (str "dump")) (str "assets")) (str "pieces")) on fs ;;
  if negb (exists_ fs meta_path) then (fs, Ok 2%Z)
  else if negb (exists_ fs pieces_dir_) then (fs, Ok 2%Z)
  else
    data <~ load_alltihop_json fs meta_path on fs ;;
    user <~ json_get data (str "user") on fs ;;
    let meta_user := json_or user (JObj []) in
    un <~ json_get meta_user (str "username") on fs ;;
    dn <~ (if json_truthy un then Ok un else json_get meta_user (str "display_name")) on fs ;;
    let default_username := json_or (json_or un dn) (JStr (str "unknown")) in
    au <~ attr args "username" on fs ;;
    let username_ := match au with
                     | AStr ((_ :: _) as s) => JStr s
                     | _ => default_username
                     end in
    c <~ attr args "cmd" on fs ;;
    match c with
    | AStr c =>
        if pystr_eqb c (str "rename") then
          l <~ attr args "log" on fs ;;
          log_path <~ path_or l (div root_ (str "rename_log.jsonl")) on fs ;;
          d <~ attr args "dry_run" on fs ;;
          a <~ (if arg_truthy d then Ok d else attr args "apply") on fs ;;
          u <~ (if arg_truthy d || arg_truthy a then Ok ANone else attr args "undo") on fs ;;
          let dry := arg_truthy d || (negb (arg_truthy a) && negb (arg_truthy u)) in
          u' <~ attr args "undo" on fs ;;
          if arg_truthy u' then
            match undo_rename_from_log pf json_loads log_path dry fs with
            | (fs', Ok _) => (fs', Ok 0%Z)
            | (fs', Raised e) => (fs', Raised e)
            | (fs', OutOfFuel) => (fs', OutOfFuel)
            end
          else main_rename args data pieces_dir_ username_ log_path dry fs
        else if pystr_eqb c (str "tag") then
          d <~ attr args "dry_run" on fs ;;
          a <~ (if arg_truthy d then Ok d else attr args "apply") on fs ;;
          let dry := arg_truthy d || negb (arg_truthy a) in
          n <~ attr args "no_overwrite_meta" on fs ;;
          p <~ attr args "preserve_blanks" on fs ;;
          cmd_tag data pieces_dir_ username_ (arg_truthy p) dry (negb (arg_truthy n)) fs
        else (fs, Ok 2%Z)
    | _ => (fs, Ok 2%Z)
    end.

End Environment.

(** [raise SystemExit(main())]: the exit status of the process.  An
    exception that nothing catches ends the process with status 1. *)
Definition exit_status (r : Outcome Z) : option Z :=
  match r with
  | Ok code => Some code
  | Raised (SystemExit code) => Some code
  | Raised _ => Some 1%Z
  | OutOfFuel => None
  end.

End Cli.

Import Cli.

(** ** Comment tag *)

Module Comment.

Section Fold.

(** [str.casefold] and [str()] of a parsed value that is not a text. *)
Variable casefold : pystr -> pystr.
Variable format_json : Json -> pystr.

(** The loop of [build_comment] over [cols_raw]: [cols] and [seen] are the
    accumulators of the same names. *)
Fixpoint collect (user_norm : pystr) (cols_raw : list Json) (cols seen : list pystr)
  : list pystr :=
  match cols_raw with
  | [] => cols
  | c :: rest =>
      if negb (json_truthy c) then collect user_norm rest cols seen
      else
        let c_clean := strip (format format_json c) in
        if pystr_eqb c_clean [] then collect user_norm rest cols seen
        else
          let c_norm := casefold c_clean in
          if negb (pystr_eqb user_norm []) && pystr_eqb c_norm user_norm
          then collect user_norm rest cols seen
          else if mem c_norm seen then collect user_norm rest cols seen
          else collect user_norm rest (cols ++ [c_clean]) (c_norm :: seen)
  end.

(** [sep.join(items)] *)
Fixpoint join (sep : pystr) (items : list pystr) : pystr :=
  match items with
  | [] => []
  | [x] => x
  | x :: r => x ++ sep ++ join sep r
  end.

Definition or_empty (o : option pystr) : pystr :=
  match o with Some s => s | None => [] end.

(** [build_comment(description, collaborators, username)] *)
Definition build_comment (description : option pystr) (collaborators : option (list Json))
    (username : option pystr) : pystr :=
  let desc := rstrip (or_empty description) in
  let user_norm := casefold (strip (or_empty username)) in
  let cols_raw := match collaborators with Some l => l | None => [] end in
  let cols := collect user_norm cols_raw [] [] in
  match cols with
  | [] => desc
  | _ =>
      let tail := (str "Collaborators:" ++ [newline] ++ join [newline] cols) in
      match desc with
      | [] => tail
      | _ => desc ++ [newline; newline] ++ tail
      end
  end.

(** *** The comment in the words of the specification

    These definitions do not use the helpers of the code above: they are
    what the code is compared with. *)

(** A text without the blanks at its front. *)
Fixpoint drop_blanks (s : pystr) : pystr :=
  match s with
  | [] => []
  | c :: t => if is_space c then drop_blanks t else s
  end.

(** A name without the blanks around it. *)
Definition trim (s : pystr) : pystr := rev (drop_blanks (rev (drop_blanks s))).

(** Trimmed names, blanks dropped. *)
Definition trimmed (cols_raw : list Json) : list pystr :=
  filter (fun s => negb (pystr_eqb s []))
         (map (fun c => trim (format format_json c)) (filter json_truthy cols_raw)).

(** Case-insensitive de-duplication that keeps the first occurrence. *)
Fixpoint dedup (seen : list pystr) (names : list pystr) : list pystr :=
  match names with
  | [] => []
  | x :: r =>
      if mem (casefold x) seen then dedup seen r
      else x :: dedup (casefold x :: seen) r
  end.

(** The uploader's own name, compared case-insensitively. *)
Definition is_self (user_norm : pystr) (x : pystr) : bool :=
  negb (pystr_eqb user_norm []) && pystr_eqb (casefold x) user_norm.

(** Names that remain after trimming, de-duplication and exclusion of the
    uploader; an absent list is an empty list, an absent user name an empty
    name. *)
Definition remaining_names (collaborators : option (list Json)) (username : option pystr)
  : list pystr :=
  let user_norm := casefold (trim (match username with Some u => u | None => [] end)) in
  filter (fun x => negb (is_self user_norm x))
         (dedup [] (trimmed (match collaborators with Some l => l | None => [] end))).

(** The block under the literal header: the header line, then every name on
    a line of its own. *)
Definition header_block (names : list pystr) : pystr :=
  str "Collaborators:" ++ flat_map (fun n => newline :: n) names.

End Fold.

End Comment.

Import Comment.

(** ** Concrete archives used by the examples *)

Module Fixtures.

Local Open Scope string_scope.

(** A path written as text. *)
Definition path (s : string) : Path := Path_of (str s).

Definition pieces_dir0 : Path := path "/dump/assets/pieces".

Definition tree0 : FS :=
  [ (path "/dump", Dir);
    (path "/dump/assets", Dir);
    (pieces_dir0, Dir) ].

(** One piece folder [abc123] holding [audio.mp4] and [cover.jpg]. *)
Definition archive1 : FS :=
  (tree0 ++
   [ (path "/dump/assets/pieces/abc123", Dir);
     (path "/dump/assets/pieces/abc123/audio.mp4", File (str "AUDIO-BYTES"));
     (path "/dump/assets/pieces/abc123/cover.jpg", File (str "COVER-BYTES")) ])%list.

Definition piece1 : Json :=
  JObj [ (str "short_id", JStr (str "abc123")); (str "title", JStr (str "My Song")) ].

(** Two piece folders whose pieces carry the same title. *)
Definition archive2 : FS :=
  (tree0 ++
   [ (path "/dump/assets/pieces/a1", Dir);
     (path "/dump/assets/pieces/a1/audio.mp4", File (str "FIRST"));
     (path "/dump/assets/pieces/b2", Dir);
     (path "/dump/assets/pieces/b2/audio.mp4", File (str "SECOND")) ])%list.

Definition piece_a : Json :=
  JObj [ (str "short_id", JStr (str "a1")); (str "title", JStr (str "Same")) ].

Definition piece_b : Json :=
  JObj [ (str "short_id", JStr (str "b2")); (str "title", JStr (str "Same")) ].

(** The plan for [archive2]. *)
Definition op_a1 : RenameOp :=
  {| kind := str "audio"; short_id := str "a1"; title := JStr (str "Same");
     src := path "/dump/assets/pieces/a1/audio.mp4";
     dst := path "/dump/assets/pieces/a1/jdoe_-_Same.mp4";
     keep_mode := str "none" |}.

Definition op_b2 : RenameOp :=
  {| kind := str "audio"; short_id := str "b2"; title := JStr (str "Same");
     src := path "/dump/assets/pieces/b2/audio.mp4";
     dst := path "/dump/assets/pieces/b2/jdoe_-_Same.mp4";
     keep_mode := str "none" |}.

(** A stand-in for [str()] of values that are not texts; the examples only
    have text titles, which never reach it. *)
Definition plain_format (v : Json) : pystr := str "?".

(** A stand-in for [json.loads] that accepts nothing, for runs that do not
    read any JSON. *)
Definition no_json (s : pystr) : Outcome Json := Raised JSONDecodeError.

(** The plan for [archive1]: one audio rename. *)
Definition op_audio1 : RenameOp :=
  {| kind := str "audio"; short_id := str "abc123"; title := JStr (str "My Song");
     src := path "/dump/assets/pieces/abc123/audio.mp4";
     dst := path "/dump/assets/pieces/abc123/jdoe_-_My_Song.mp4";
     keep_mode := str "none" |}.

(** A folder in which [x.mp4] is taken. *)
Definition taken : FS :=
  [ (path "/d", Dir); (path "/d/x.mp4", File (str "OLD")) ].

(** A stand-in for [json.dumps] and for the [tag] subcommand, for runs that
    reach neither. *)
Definition no_dumps (v : Json) : pystr := [].

Definition no_tag (data : Json) (pieces_dir_ : Path) (username_ : Json)
    (pb dry overwrite : bool) (fs : FS) : FS * Outcome Z := (fs, Ok 0%Z).

(** A stand-in for [json.loads] that reads every text as the given value. *)
Definition reads_as (v : Json) (s : pystr) : Outcome Json := Ok v.

(** [rename] with no option at all, and [rename --apply]. *)
Definition plain_rename (apply_ : bool) : CommandLine :=
  {| root := None; meta := None; pieces_dir := None; username := None;
     preserve_blanks := false;
     sub := SubRename {| log := None; apply := apply_; dry_run := false;
                         keep_link := false; keep_copy := false; undo := false |} |}.

(** [archive1] with its manifest file. *)
Definition manifest1 : Json :=
  JObj [ (str "user", JObj [ (str "username", JStr (str "jdoe")) ]);
         (str "pieces", JArr [piece1]) ].

Definition archive1_with_manifest : FS :=
  (archive1 ++ [ (path "/dump/alltihop.json", File (str "alltihop={};")) ])%list.

Definition log0 : Path := path "/rename_log.jsonl".

(** A journal path whose parent directory does not exist yet. *)
Definition log_new_dir : Path := path "/logs/rename_log.jsonl".

End Fixtures.

Import Fixtures.

(** ** The tag command: locating assets, sidecar files *)

Module Tag.

Local Open Scope string_scope.

Definition AUDIO_EXTS : list string := [".mp4"; ".m4a"; ".aac"].
Definition COVER_EXTS : list string := [".jpg"; ".jpeg"; ".png"].

(** [[p for p in folder.iterdir() if p.is_file() and p.suffix.lower() in exts]] *)
Definition candidates (fs : FS) (folder : Path) (exts : list string) : Outcome (list Path) :=
  ps <- iterdir fs folder ;;
  Ok (filter (fun p => is_file fs p && mem (lower (suffix p)) (map str exts)) ps).

(** The first path of the list that exists. *)
Definition first_existing (fs : FS) (ps : list Path) : option Path := find (exists_ fs) ps.

(** The last two fallbacks shared by both finders: a file with the given
    stem, else the only file with one of the extensions. *)
Definition by_stem_or_sole (fs : FS) (folder : Path) (stem_ : string) (exts : list string)
  : Outcome (option Path) :=
  p <- find_by_stem fs folder (str stem_) ;;
  match p with
  | Some p => Ok (Some p)
  | None =>
      c <- candidates fs folder exts ;;
      match c with
      | [x] => Ok (Some x)
      | _ => Ok None
      end
  end.

(** [find_audio_file(folder, base)] *)
Definition find_audio_file (fs : FS) (folder : Path) (base : pystr) : Outcome (option Path) :=
  match first_existing fs (map (fun ext => div folder (base ++ str ext)%list) AUDIO_EXTS) with
  | Some p => Ok (Some p)
  | None =>
      match first_existing fs
              (map (fun ext => div folder (str "audio" ++ str ext)%list)
                   [".mp4"; ".m4a"; ".aac"; ".wav"; ".flac"; ".mp3"; ".ogg"]) with
      | Some p => Ok (Some p)
      | None => by_stem_or_sole fs folder "audio" AUDIO_EXTS
      end
  end.

(** [find_cover_file(folder, base)] *)
Definition find_cover_file (fs : FS) (folder : Path) (base : pystr) : Outcome (option Path) :=
  match first_existing fs
          (map (fun ext => div folder (base ++ str ".cover" ++ str ext)%list) COVER_EXTS) with
  | Some p => Ok (Some p)
  | None =>
      match first_existing fs
              (map (fun ext => div folder (str "cover" ++ str ext)%list) COVER_EXTS) with
      | Some p => Ok (Some p)
      | None => by_stem_or_sole fs folder "cover" COVER_EXTS
      end
  end.

(** [p.write_text(text)]: the file is created or its data replaced. *)
Definition write_text (fs : FS) (p : Path) (text : pystr) : Outcome FS :=
  r <- open_append fs p ;; Ok (set_data (fst r) (snd r) text).

Inductive TagWarning :=
| TNoShortId
| TFolderMissing (sid : pystr) (folder : Path)
| TAudioNotFound (sid : pystr)
| TNotMp4 (sid : pystr) (audio : Path)
| TCoverNotFound (sid : pystr)
| TError (sid : pystr).

Section Environment.

(** [str.casefold], [str()] of a value that is not a text,
    [json.dumps(piece, ensure_ascii=False, indent=2)], and the call into the
    tagging library, which may change the file system and may raise. *)
Variable casefold : pystr -> pystr.
Variable format_json : Json -> pystr.
Variable json_dumps_indent : Json -> pystr.
Variable tag_mp4_file :
  Path -> Json -> pystr -> pystr -> option pystr -> Json -> option Path -> Json ->
  FS -> FS * Outcome unit.

(** [write_meta_file(meta_path, piece, overwrite=...)] *)
Definition write_meta_file (fs : FS) (meta_path : Path) (piece : Json) (overwrite : bool)
  : Outcome FS :=
  if exists_ fs meta_path && negb overwrite then Ok fs
  else write_text fs meta_path (json_dumps_indent piece ++ [newline])%list.

(** One round of the loop of [cmd_tag]: the number of pieces planned (0 or
    1) and the warnings it adds. *)
Definition tag_piece (pieces_dir : Path) (username username_clean : pystr)
    (preserve_blanks dry_run overwrite_meta : bool) (piece : Json) (fs : FS)
  : FS * Outcome (nat * list TagWarning) :=
  sid <~ json_get piece (str "short_id") on fs ;;
  t <~ json_get piece (str "title") on fs ;;
  let title_ := json_or t (JStr (str "untitled")) in
  description <~ json_get piece (str "description") on fs ;;
  collaborators <~ json_get piece (str "collaborators") on fs ;;
  created_at <~ json_get piece (str "created_at") on fs ;;
  tempo_value <~ json_get piece (str "tempo") on fs ;;
  if negb (json_truthy sid) then (fs, Ok (0, [TNoShortId]))
  else
    match sid with
    | JStr sid =>
        let folder := div pieces_dir sid in
        if negb (exists_ fs folder) then (fs, Ok (0, [TFolderMissing sid folder]))
        else
          let base := safe_filename_base
                        (username_clean ++ str " - " ++ format format_json title_)%list
                        default_max_len preserve_blanks in
          audio <~ find_audio_file fs folder base on fs ;;
          match audio with
          | None => (fs, Ok (0, [TAudioNotFound sid]))
          | Some audio_path =>
              if negb (mem (lower (suffix audio_path)) (map str AUDIO_EXTS))
              then (fs, Ok (0, [TNotMp4 sid audio_path]))
              else
                cover_path <~ find_cover_file fs folder base on fs ;;
                let w := match cover_path with
                         | None => [TCoverNotFound sid]
                         | Some _ => []
                         end in
                let meta_path := div folder (base ++ str ".meta.json")%list in
                let comment :=
                  build_comment casefold format_json
                    (match description with JStr d => Some d | _ => None end)
                    (match collaborators with JArr l => Some l | _ => None end)
                    (Some username) in
                if dry_run then (fs, Ok (1, w))
                else
                  match write_meta_file fs meta_path piece overwrite_meta with
                  | Ok fs1 =>
                      match tag_mp4_file audio_path title_ username comment
                              (match created_at with JStr c => Some c | _ => None end)
                              tempo_value cover_path piece fs1 with
                      | (fs2, Ok _) => (fs2, Ok (1, w))
                      | (fs2, _) => (fs2, Ok (1, w ++ [TError sid])%list)
                      end
                  | _ => (fs, Ok (1, w ++ [TError sid])%list)
                  end
          end
    | _ => (fs, Raised TypeError)
    end.

Fixpoint tag_pieces (pieces_dir : Path) (username username_clean : pystr)
    (preserve_blanks dry_run overwrite_meta : bool) (pieces : list Json) (fs : FS)
  : FS * Outcome (nat * list TagWarning) :=
  match pieces with
  | [] => (fs, Ok (0, []))
  | piece :: rest =>
      match tag_piece pieces_dir username username_clean preserve_blanks dry_run
              overwrite_meta piece fs with
      | (fs1, Ok (n, w)) =>
          match tag_pieces pieces_dir username username_clean preserve_blanks dry_run
                  overwrite_meta rest fs1 with
          | (fs2, Ok (n', w')) => (fs2, Ok (n + n', w ++ w')%list)
          | r => r
          end
      | r => r
      end
  end.

(** [cmd_tag(data=..., pieces_dir=..., username=..., preserve_blanks=...,
    dry_run=..., overwrite_meta=...)]; console output is not modelled. *)
Definition cmd_tag (data : Json) (pieces_dir : Path) (username : pystr)
    (preserve_blanks dry_run overwrite_meta : bool) (fs : FS) : FS * Outcome Z :=
  pieces <~ json_get data (str "pieces") on fs ;;
  match pieces with
  | JArr pieces =>
      let username_clean := safe_filename_base username default_max_len preserve_blanks in
      match tag_pieces pieces_dir username username_clean preserve_blanks dry_run
              overwrite_meta pieces fs with
      | (fs', Ok _) => (fs', Ok 0%Z)
      | (fs', Raised e) => (fs', Raised e)
      | (fs', OutOfFuel) => (fs', OutOfFuel)
      end
  | _ => (fs, Ok 2%Z)
  end.

End Environment.

End Tag.

Import Tag.

(** ** The earlier stand-alone script [rename_allihoopa.py] *)

Module Legacy.

Local Open Scope string_scope.

(** [@dataclass RenameOp] of the script: the compat choice is a flag. *)
Record RenameOp := {
  kind : pystr;
  short_id : pystr;
  title : Json;
  src : Path;
  dst : Path;
  keep_compat : bool
}.

(** [RenameOp.to_json] *)
Definition to_json (op : RenameOp) : Json :=
  JObj [ (str "kind", JStr (kind op));
         (str "short_id", JStr (short_id op));
         (str "title", title op);
         (str "src", JStr (str_of (src op)));
         (str "dst", JStr (str_of (dst op)));
         (str "keep_compat", JBool (keep_compat op)) ].

Section Environment.

Variable pf : Platform.
Variable json_dumps : Json -> pystr.
Variable json_loads : pystr -> Outcome Json.

(** The loop of [apply_ops] inside [with log_path.open("a") as f]. *)
Fixpoint apply_loop (f : Path) (ops : list RenameOp) (fs : FS) : FS * Outcome unit :=
  match ops with
  | [] => (fs, Ok tt)
  | op :: rest =>
      if exists_ fs (dst op) then apply_loop f rest fs
      else
        let old_path := src op in
        let new_path := dst op in
        match os_rename fs old_path new_path with
        | Ok fs1 =>
            let fs2 :=
              if keep_compat op
              then attempt fs1 (ensure_compat_link pf fs1 old_path new_path)
              else fs1 in
            let fs3 := append fs2 f (json_dumps (to_json op) ++ [newline])%list in
            apply_loop f rest fs3
        | Raised e => (fs, Raised e)
        | OutOfFuel => (fs, OutOfFuel)
        end
  end.

(** [apply_ops(ops, log_path, dry_run)] *)
Definition apply_ops (ops : list RenameOp) (log_path : Path) (dry_run : bool) (fs : FS)
  : FS * Outcome unit :=
  match mkdir fs (parent log_path) with
  | Ok fs1 =>
      match ops with
      | [] => (fs1, Ok tt)
      | _ =>
          if dry_run then (fs1, Ok tt)
          else match open_append fs1 log_path with
               | Ok (fs2, f) => apply_loop f ops fs2
               | Raised e => (fs1, Raised e)
               | OutOfFuel => (fs1, OutOfFuel)
               end
      end
  | Raised e => (fs, Raised e)
  | OutOfFuel => (fs, OutOfFuel)
  end.

(** [dst.unlink()], not guarded by any handler. *)
Definition unlink_now (fs : FS) (p : Path) : Outcome FS :=
  fs' <- unlink fs p ;;
  match unlink_result pf p with
  | UnlinkOk => Ok fs'
  | UnlinkPermission => Raised PermissionError
  | UnlinkFails => Raised OSError
  end.

(** One round of the loop of [undo_from_log]. *)
Definition undo_entry (dry_run : bool) (e : Json) (fs : FS) : FS * Outcome unit :=
  src_ <~ entry_path e "src" on fs ;;
  dst_ <~ entry_path e "dst" on fs ;;
  kc <~ json_get e (str "keep_compat") on fs ;;
  if json_truthy kc then
    if exists_ fs dst_ && negb dry_run
    then match unlink_now fs dst_ with
         | Ok fs' => (fs', Ok tt)
         | Raised x => (fs, Raised x)
         | OutOfFuel => (fs, OutOfFuel)
         end
    else (fs, Ok tt)
  else
    if exists_ fs dst_ && negb dry_run
    then if exists_ fs src_ then (fs, Ok tt)
         else match os_rename fs dst_ src_ with
              | Ok fs' => (fs', Ok tt)
              | Raised x => (fs, Raised x)
              | OutOfFuel => (fs, OutOfFuel)
              end
    else (fs, Ok tt).

Fixpoint undo_loop (dry_run : bool) (entries : list Json) (fs : FS) : FS * Outcome unit :=
  match entries with
  | [] => (fs, Ok tt)
  | e :: rest =>
      match undo_entry dry_run e fs with
      | (fs', Ok _) => undo_loop dry_run rest fs'
      | r => r
      end
  end.

(** [undo_from_log(log_path, dry_run)] *)
Definition undo_from_log (log_path : Path) (dry_run : bool) (fs : FS) : FS * Outcome unit :=
  if negb (exists_ fs log_path) then (fs, Ok tt)
  else match read fs log_path with
       | Some text =>
           let entries := read_entries json_loads (split_lines text []) in
           match entries with
           | [] => (fs, Ok tt)
           | _ => undo_loop dry_run (rev entries) fs
           end
       | None => (fs, Raised IsADirectoryError)
       end.

End Environment.

End Legacy.

(** ** Conditions used by the further properties *)

Module Conditions.


(** A path component that [Path] keeps as it is: not empty, not a single
    dot, without slash. *)
Definition plain_part (c : pystr) : bool :=
  keep_part c && forallb (fun x => negb (x =? slash)%N) c.

Definition plain_path (p : Path) : bool := forallb plain_part p.

(** Every directory on the way to [p], and [p] itself, is a directory. *)
Definition dirs_exist (fs : FS) (p : Path) : Prop :=
  forall k, 1 <= k <= length p -> is_dir fs (firstn k p) = true.

(** The table after the entry at [src], with everything below it, was moved
    to [dst]: the map that [os_rename] applies. *)
Definition moved (src dst : Path) (fs : FS) : FS :=
  map (fun e => match rebase src dst (fst e) with
                | Some q => (q, snd e)
                | None => e
                end) fs.

(** A file system shaped like a tree: whatever has an entry lies in a
    directory. *)
Definition tree (fs : FS) : Prop :=
  forall q, In q (map fst fs) -> lookup fs (parent q) = Some Dir.

(** No symbolic link of the archive leads to a directory.  Every path is
    then reached through directories of the table itself, which is exactly
    what the program sees. *)
Definition no_linked_dirs (fs : FS) : bool :=
  forallb (fun e => match snd e with
                    | Symlink _ => negb (is_dir fs (fst e))
                    | _ => true
                    end) fs.


(** The platform lets [p] be deleted, at once or after the retry. *)
Definition deletes (pf : Platform) (p : Path) : Prop :=
  unlink_result pf p = UnlinkOk
  \/ (unlink_result pf p = UnlinkPermission /\ unlink_retry_ok pf p = true).

End Conditions.

Import Conditions.

(** ** More concrete archives *)

Module MoreFixtures.

Local Open Scope string_scope.

(** A folder whose audio file has an unusual name and letter case. *)
Definition odd_names : FS :=
  [ (path "/p", Dir);
    (path "/p/s1", Dir);
    (path "/p/s1/notes.txt", File (str "N"));
    (path "/p/s1/AUDIO.Flac", File (str "A")) ].

(** A pieces directory in which the entry named after the piece is a regular
    file, not a folder. *)
Definition file_for_folder : FS :=
  [ (path "/p", Dir); (path "/p/s1", File (str "oops")) ].

Definition piece_s1 : Json :=
  JObj [ (str "short_id", JStr (str "s1")); (str "title", JStr (str "T")) ].



(** A journal inside the [dump] folder of [archive1]. *)
Definition log_in_dump : Path := path "/dump/rename_log.jsonl".

(** An operation whose destination is taken in [taken]. *)
Definition op_onto_taken : RenameOp :=
  {| Rename.kind := str "audio"; Rename.short_id := str "d";
     Rename.title := JStr (str "T");
     Rename.src := path "/d/y.mp4"; Rename.dst := path "/d/x.mp4";
     Rename.keep_mode := str "none" |}.

(** A stand-in for [json.loads] that reads one text as the given value and
    refuses every other text. *)
Definition reads_only (good : pystr) (v : Json) (s : pystr) : Outcome Json :=
  if pystr_eqb s good then Ok v else Raised JSONDecodeError.

(** A journal with one record between lines that are not JSON, and a blank
    line. *)
Definition mixed_journal : pystr :=
  (str "garbage" ++ [newline] ++ str "  {record}" ++ [newline; newline]
   ++ str "more garbage" ++ [newline])%list.

(** An operation of the stand-alone script on [archive1]. *)
Definition legacy_op1 : Legacy.RenameOp :=
  {| Legacy.kind := str "audio"; Legacy.short_id := str "abc123";
     Legacy.title := JStr (str "My Song");
     Legacy.src := path "/dump/assets/pieces/abc123/audio.mp4";
     Legacy.dst := path "/dump/assets/pieces/abc123/jdoe_-_My_Song.mp4";
     Legacy.keep_compat := false |}.

(** After a rename with a compat copy: the renamed file, and a copy under
    the old name. *)
Definition renamed_with_copy : FS :=
  [ (path "/d", Dir);
    (path "/d/new.mp4", File (str "BYTES"));
    (path "/d/audio.mp4", File (str "BYTES"));
    (path "/d/other.txt", File (str "X")) ].

Definition entry_audio_new : Json :=
  JObj [ (str "src", JStr (str "/d/audio.mp4")); (str "dst", JStr (str "/d/new.mp4")) ].

(** A stand-in for [json.dumps] that writes every record as the same short
    text on one line. *)
Definition dumps_one_line (v : Json) : pystr := str "{record}".


(** The state right after a rename without compat artifact. *)
Definition renamed_only : FS :=
  [ (path "/d", Dir); (path "/d/new.mp4", File (str "BYTES")) ].

(** A manifest text, and the same text in its JavaScript wrapper. *)
Definition bare_manifest : pystr := str "{}".
Definition wrapped_manifest : pystr := str "alltihop={};".


Definition sidecar1 : Path := path "/dump/assets/pieces/abc123/jdoe_-_My_Song.meta.json".

(** [rename -h] *)
Definition rename_help : CommandLine :=
  {| root := None; meta := None; pieces_dir := None; username := None;
     preserve_blanks := false; sub := SubHelp (Some "rename") |}.

(** A folder whose one file is named with the Kelvin sign, U+212A, which
    [str.lower] turns into the letter k. *)
Definition kelvin_file : Path := [str "p"; (8490%N :: str ".mp4")%list].

Definition kelvin_folder : FS :=
  [ (path "/p", Dir); (kelvin_file, File (str "K")) ].

(** [archive1] where the sidecar path of [piece1] is a symbolic link to a
    file that does not exist yet. *)
Definition archive1_linked_sidecar : FS :=
  (archive1 ++ [ (sidecar1, Symlink (path "/dump/meta_store.json")) ])%list.

End MoreFixtures.

Import MoreFixtures.

(** * Properties *)

(** ** Texts and paths *)

Lemma pystr_eqb_eq (a b : pystr) : pystr_eqb a b = true <-> a = b.
Proof.
  revert b; induction a as [|x a IH]; intros [|y b]; simpl; split;
    try congruence; try reflexivity.
  - intros H. apply andb_true_iff in H as [Hx Hr].
    apply N.eqb_eq in Hx. apply IH in Hr. congruence.
  - intros H. injection H as -> ->. rewrite N.eqb_refl. simpl. now apply IH.
Qed.

Lemma pystr_eqb_refl (a : pystr) : pystr_eqb a a = true.
Proof. now apply pystr_eqb_eq. Qed.

Lemma path_eqb_eq (p q : Path) : path_eqb p q = true <-> p = q.
Proof.
  revert q; induction p as [|x p IH]; intros [|y q]; simpl; split;
    try congruence; try reflexivity.
  - intros H. apply andb_true_iff in H as [Hx Hr].
    apply pystr_eqb_eq in Hx. apply IH in Hr. congruence.
  - intros H. injection H as -> ->. rewrite pystr_eqb_refl. simpl. now apply IH.
Qed.

Lemma path_eqb_refl (p : Path) : path_eqb p p = true.
Proof. now apply path_eqb_eq. Qed.

(** ** Stripping and run replacement *)

Section Strip.

Variable f : N -> bool.

Lemma rstrip_by_prefix (s : pystr) :
  exists rest, s = rstrip_by f s ++ rest.
Proof.
  induction s as [|c t [rest IH]]; simpl.
  - now exists [].
  - destruct (rstrip_by f t) as [|d t'] eqn:E.
    + destruct (f c).
      * now exists (c :: t).
      * now exists t.
    + exists rest. simpl in *. now f_equal.
Qed.

Lemma rstrip_by_idem (s : pystr) :
  rstrip_by f (rstrip_by f s) = rstrip_by f s.
Proof.
  induction s as [|c t IH]; simpl; [reflexivity|].
  destruct (rstrip_by f t) as [|d t'] eqn:E.
  - destruct (f c) eqn:Ec; simpl; [reflexivity|]. now rewrite Ec.
  - simpl in *. now rewrite IH.
Qed.

Lemma rstrip_by_snoc (s : pystr) (c : N) :
  f c = false -> rstrip_by f (s ++ [c]) = s ++ [c].
Proof.
  intros Hc. induction s as [|d t IH]; simpl.
  - now rewrite Hc.
  - rewrite IH. destruct (t ++ [c]) eqn:E; [|reflexivity].
    now destruct t.
Qed.

Lemma rstrip_by_snoc_drop (s : pystr) (c : N) :
  f c = true -> rstrip_by f (s ++ [c]) = rstrip_by f s.
Proof.
  intros Hc. induction s as [|x t IH]; cbn [app rstrip_by].
  - now rewrite Hc.
  - now rewrite IH.
Qed.

(** What right-stripping leaves and what it removes: the text is the result
    followed by characters of the class only, and the result does not end in
    the class. *)
Lemma rstrip_by_split (s : pystr) :
  exists rest,
    s = rstrip_by f s ++ rest
    /\ Forall (fun c => f c = true) rest
    /\ (forall d c, rstrip_by f s = d ++ [c] -> f c = false).
Proof.
  induction s as [|c t (rest & IH1 & IH2 & IH3)]; cbn [rstrip_by].
  - exists []. split; [reflexivity|]. split; [constructor|].
    intros d c H. now destruct d.
  - destruct (rstrip_by f t) as [|d0 t'] eqn:E.
    + cbn [app] in IH1. subst rest. destruct (f c) eqn:Ec.
      * exists (c :: t). split; [reflexivity|]. split; [now constructor|].
        intros d x H. now destruct d.
      * exists t. split; [reflexivity|]. split; [exact IH2|].
        intros d x H. destruct d as [|y d]; [now injection H as <-|].
        injection H as _ H. now destruct d.
    + exists rest. split; [cbn [app] in *; now f_equal|]. split; [exact IH2|].
      intros d x H. destruct d as [|y d]; [discriminate|].
      injection H as _ H. exact (IH3 d x H).
Qed.

Lemma rstrip_by_rev (s : pystr) : rstrip_by f s = rev (lstrip_by f (rev s)).
Proof.
  induction s as [|c t IH] using rev_ind; [reflexivity|].
  rewrite rev_app_distr. cbn [rev app lstrip_by].
  destruct (f c) eqn:Ec.
  - now rewrite rstrip_by_snoc_drop.
  - rewrite rstrip_by_snoc by exact Ec. cbn [rev]. now rewrite rev_involutive.
Qed.

Lemma rstrip_by_length (s : pystr) : (length (rstrip_by f s) <= length s)%nat.
Proof.
  destruct (rstrip_by_prefix s) as [rest E].
  rewrite E at 2. rewrite length_app. lia.
Qed.

(** A text that ends outside [f] also ends outside any narrower class. *)
Lemma rstrip_by_narrower (g : N -> bool) (s : pystr) :
  Forall (fun c => g c = true -> f c = true) s ->
  rstrip_by f s = s -> rstrip_by g s = s.
Proof.
  induction s as [|c t IH]; simpl; [reflexivity|].
  intros Hall E. inversion Hall as [|? ? Hc Ht]; subst.
  destruct (rstrip_by f t) as [|d t'] eqn:Et.
  - destruct (f c) eqn:Ec; [discriminate|].
    injection E as <-. simpl.
    destruct (g c) eqn:Eg; [|reflexivity].
    specialize (Hc eq_refl). discriminate.
  - injection E as E.
    rewrite (IH Ht E). subst t. reflexivity.
Qed.

Lemma rstrip_by_keeps_head (c : N) (t : pystr) :
  f c = false -> exists t', rstrip_by f (c :: t) = c :: t'.
Proof.
  intros Hc. simpl. destruct (rstrip_by f t).
  - rewrite Hc. now exists [].
  - eexists. reflexivity.
Qed.

Lemma lstrip_by_head (s : pystr) :
  match lstrip_by f s with
  | [] => True
  | c :: _ => f c = false
  end.
Proof.
  induction s as [|c t IH]; simpl; [exact I|].
  destruct (f c) eqn:E; [exact IH|exact E].
Qed.

Lemma sub_runs_none (rep : pystr) (prev : bool) (s : pystr) :
  Forall (fun c => f c = false) s -> sub_runs f rep prev s = s.
Proof.
  intros H. revert prev. induction H as [|c t Hc _ IH]; intros prev; simpl.
  - reflexivity.
  - rewrite Hc. now rewrite IH.
Qed.

Lemma sub_runs_Forall (P : N -> Prop) (rep : pystr) (prev : bool) (s : pystr) :
  Forall P rep ->
  Forall (fun c => f c = false -> P c) s ->
  Forall P (sub_runs f rep prev s).
Proof.
  intros Hrep H. revert prev. induction H as [|c t Hc _ IH]; intros prev; simpl.
  - constructor.
  - destruct (f c) eqn:E.
    + apply Forall_app. split; [destruct prev; [constructor|exact Hrep]|apply IH].
    + constructor; [now apply Hc|apply IH].
Qed.

End Strip.

(** ** The sanitizer *)

Lemma single_spaced_blanks (b : bool) (s : pystr) :
  single_spaced b s = true -> Forall (fun c => is_space c = true -> c = space) s.
Proof.
  revert b; induction s as [|c t IH]; intros b H; constructor; simpl in H;
    destruct (is_space c) eqn:E.
  - intros _. apply andb_true_iff in H as [H _]. apply andb_true_iff in H as [H _].
    now apply N.eqb_eq.
  - discriminate.
  - apply andb_true_iff in H as [_ H]. now apply IH in H.
  - now apply IH in H.
Qed.

Lemma single_spaced_weaken (s : pystr) :
  single_spaced true s = true -> single_spaced false s = true.
Proof.
  destruct s as [|c t]; simpl; [reflexivity|].
  destruct (is_space c); [|trivial].
  rewrite andb_false_r. discriminate.
Qed.

Lemma single_spaced_prefix (b : bool) (s rest : pystr) :
  single_spaced b (s ++ rest) = true -> single_spaced b s = true.
Proof.
  revert b; induction s as [|c t IH]; intros b; simpl; [reflexivity|].
  destruct (is_space c).
  - intros H. apply andb_true_iff in H as [H1 H2]. rewrite H1. simpl. now apply IH in H2.
  - apply IH.
Qed.

Lemma single_spaced_snoc (b : bool) (s : pystr) (c : N) :
  is_space c = false -> single_spaced b s = true -> single_spaced b (s ++ [c]) = true.
Proof.
  intros Hc. revert b; induction s as [|d t IH]; intros b; simpl.
  - now rewrite Hc.
  - destruct (is_space d).
    + intros H. apply andb_true_iff in H as [H1 H2]. rewrite H1. simpl. now apply IH.
    + apply IH.
Qed.

Lemma single_spaced_no_blank (b : bool) (s : pystr) :
  Forall (fun c => is_space c = false) s -> single_spaced b s = true.
Proof.
  intros H. revert b. induction H as [|c t Hc _ IH]; intros b; simpl; [reflexivity|].
  rewrite Hc. apply IH.
Qed.

(** Replacing blank runs by one space leaves single spaces. *)
Lemma WS_RE_sub_single_spaced (s : pystr) :
  single_spaced true (sub_runs is_space [space] true s) = true
  /\ single_spaced false (sub_runs is_space [space] false s) = true.
Proof.
  induction s as [|c t [IHt IHf]]; simpl; [now split|].
  destruct (is_space c) eqn:E; simpl.
  - split; [exact IHt|]. now rewrite IHt.
  - rewrite E. now split.
Qed.

Lemma single_spaced_fixed (s : pystr) :
  (single_spaced true s = true -> forall p, sub_runs is_space [space] p s = s)
  /\ (single_spaced false s = true -> sub_runs is_space [space] false s = s).
Proof.
  induction s as [|c t [IHt IHf]]; simpl; [now split|].
  destruct (is_space c) eqn:E; split.
  - rewrite andb_false_r. discriminate.
  - intros H. apply andb_true_iff in H as [H1 H2]. rewrite andb_true_r in H1.
    apply N.eqb_eq in H1. subst c. simpl. now rewrite (IHt H2).
  - intros H p. now rewrite (IHf H).
  - intros H. now rewrite (IHf H).
Qed.

Lemma single_spaced_head (s : pystr) :
  single_spaced true s = true ->
  lstrip_by is_space s = s.
Proof.
  destruct s as [|c t]; simpl; [reflexivity|].
  destruct (is_space c); [|reflexivity].
  rewrite andb_false_r. discriminate.
Qed.

Lemma has_underscore_run_fixed (s : pystr) :
  has_underscore_run s = false ->
  sub_runs is_underscore [underscore] false s = s
  /\ (match s with c :: _ => is_underscore c = false | [] => True end ->
      sub_runs is_underscore [underscore] true s = s).
Proof.
  induction s as [|c t IH]; [now split|].
  intros H. cbn [has_underscore_run] in H.
  cbn [sub_runs].
  destruct t as [|d t'].
  - simpl. destruct (is_underscore c) eqn:E; split; trivial.
    + unfold is_underscore in E. apply N.eqb_eq in E. now subst.
    + discriminate.
  - apply orb_false_iff in H as [Hcd Ht].
    destruct (IH Ht) as [IHf IHt].
    destruct (is_underscore c) eqn:E; split.
    + simpl in Hcd. rewrite (IHt Hcd).
      unfold is_underscore in E. apply N.eqb_eq in E. now subst.
    + discriminate.
    + now rewrite IHf.
    + intros _. now rewrite IHf.
Qed.

Lemma INVALID_WIN_RE_sub_valid (s : pystr) :
  Forall (fun c => is_invalid_win c = false) (INVALID_WIN_RE_sub s).
Proof.
  unfold INVALID_WIN_RE_sub. apply Forall_forall. intros x Hx.
  apply in_map_iff in Hx as [c [<- _]].
  destruct (is_invalid_win c) eqn:E; [reflexivity|exact E].
Qed.

Lemma INVALID_WIN_RE_sub_fixed (s : pystr) :
  Forall (fun c => is_invalid_win c = false) s -> INVALID_WIN_RE_sub s = s.
Proof.
  induction 1 as [|c t Hc _ IH]; simpl; [reflexivity|].
  rewrite Hc. f_equal. exact IH.
Qed.

Lemma INVALID_WIN_RE_sub_single_spaced (b : bool) (s : pystr) :
  single_spaced b s = true -> single_spaced b (INVALID_WIN_RE_sub s) = true.
Proof.
  revert b; induction s as [|c t IH]; intros b; simpl; [reflexivity|].
  destruct (is_space c) eqn:E.
  - intros H. apply andb_true_iff in H as [H1 H2].
    apply andb_true_iff in H1 as [Hc Hb]. apply N.eqb_eq in Hc. subst c.
    simpl. rewrite Hb. simpl. now apply IH.
  - intros H. destruct (is_invalid_win c).
    + simpl. now apply IH.
    + rewrite E. now apply IH.
Qed.

Lemma INVALID_WIN_RE_sub_no_blank (s : pystr) :
  Forall (fun c => is_space c = false) s ->
  Forall (fun c => is_space c = false) (INVALID_WIN_RE_sub s).
Proof.
  induction 1 as [|c t Hc _ IH]; simpl; constructor; [|exact IH].
  now destruct (is_invalid_win c).
Qed.

Lemma shaped_prefix (pb : bool) (s rest : pystr) :
  shaped pb (s ++ rest) -> shaped pb s.
Proof.
  intros (H1 & H2 & H3). repeat split.
  - eapply single_spaced_prefix; eassumption.
  - now apply Forall_app in H2.
  - intros E. specialize (H3 E). now apply Forall_app in H3.
Qed.

Lemma shaped_rstrip (pb : bool) (f : N -> bool) (s : pystr) :
  shaped pb s -> shaped pb (rstrip_by f s).
Proof.
  intros H. destruct (rstrip_by_prefix f s) as [rest E].
  rewrite E in H. eapply shaped_prefix; eassumption.
Qed.

Lemma shaped_firstn (pb : bool) (n : nat) (s : pystr) :
  shaped pb s -> shaped pb (firstn n s).
Proof.
  intros H. rewrite <- (firstn_skipn n s) in H. eapply shaped_prefix; eassumption.
Qed.

Lemma shaped_wrap (pb : bool) (s : pystr) :
  shaped pb s -> shaped pb ([underscore] ++ s ++ [underscore]).
Proof.
  intros (H1 & H2 & H3). repeat split.
  - simpl. apply single_spaced_snoc; [reflexivity|]. now apply single_spaced_weaken.
  - constructor; [reflexivity|]. apply Forall_app. split; [assumption|]. now repeat constructor.
  - intros E. constructor; [reflexivity|]. apply Forall_app. split; [auto|]. now repeat constructor.
Qed.

Lemma shaped_untitled (pb : bool) : shaped pb (str "untitled").
Proof.
  repeat split; [|intros _]; repeat constructor.
Qed.

Lemma strip_head (s : pystr) :
  match strip s with
  | [] => True
  | c :: _ => is_space c = false
  end.
Proof.
  unfold strip. pose proof (lstrip_by_head is_space s) as H.
  destruct (lstrip_by is_space s) as [|c t]; [exact I|].
  destruct (rstrip_by_keeps_head is_space c t H) as [t' E]. now rewrite E.
Qed.

(** After the blank runs are replaced, the text is single-spaced, and free of
    blanks when they became underscores. *)
Lemma blanks_normalized (s : pystr) (pb : bool) :
  let s2 := if pb then WS_RE_sub [space] (strip s)
            else collapse_underscores (WS_RE_sub [underscore] (strip s)) in
  single_spaced true s2 = true /\ (pb = false -> Forall (fun c => is_space c = false) s2).
Proof.
  destruct pb; cbv zeta.
  - split; [|discriminate].
    unfold WS_RE_sub. pose proof (strip_head s) as H.
    destruct (strip s) as [|c t]; [reflexivity|].
    simpl. rewrite H. simpl. rewrite H. apply WS_RE_sub_single_spaced.
  - assert (H : Forall (fun c => is_space c = false)
                  (collapse_underscores (WS_RE_sub [underscore] (strip s)))).
    { unfold collapse_underscores, WS_RE_sub.
      apply sub_runs_Forall; [now repeat constructor|].
      eapply Forall_impl; [|apply sub_runs_Forall with (P := fun c => is_space c = false)].
      - intros c Hc _. exact Hc.
      - now repeat constructor.
      - apply Forall_forall. intros c _ Hc. exact Hc. }
    split; [now apply single_spaced_no_blank|intros _; exact H].
Qed.

Lemma or_untitled_shaped (pb : bool) (s : pystr) :
  single_spaced true s = true ->
  (pb = false -> Forall (fun c => is_space c = false) s) ->
  single_spaced true (or_untitled s) = true
  /\ (pb = false -> Forall (fun c => is_space c = false) (or_untitled s)).
Proof.
  intros H1 H2. destruct s as [|c t]; [|now split].
  split; [reflexivity|intros _; repeat constructor].
Qed.

(** Every result of the sanitizer is settled, whatever the parameters. *)
Lemma safe_filename_base_settled (s : pystr) (max_len : Z) (pb : bool) :
  settled pb (safe_filename_base s max_len pb).
Proof.
  unfold safe_filename_base. cbv zeta.
  destruct (blanks_normalized s pb) as [Ha Hb]. cbv zeta in Ha, Hb.
  set (s2 := if pb then _ else _) in *.
  destruct (or_untitled_shaped pb s2 Ha Hb) as [Hc Hd].
  set (s3 := or_untitled s2) in *.
  assert (H4 : shaped pb (INVALID_WIN_RE_sub s3)).
  { repeat split.
    - now apply INVALID_WIN_RE_sub_single_spaced.
    - apply INVALID_WIN_RE_sub_valid.
    - intros E. apply INVALID_WIN_RE_sub_no_blank. auto. }
  set (s4 := INVALID_WIN_RE_sub s3) in *.
  assert (H5 : shaped pb (rstrip_space_dot s4)) by now apply shaped_rstrip.
  assert (F5 : rstrip_space_dot (rstrip_space_dot s4) = rstrip_space_dot s4)
    by apply rstrip_by_idem.
  set (s5 := rstrip_space_dot s4) in *.
  set (s6 := if is_reserved s5 then [underscore] ++ s5 ++ [underscore] else s5).
  assert (H6 : shaped pb s6 /\ rstrip_space_dot s6 = s6).
  { unfold s6. destruct (is_reserved s5); [|now split].
    split; [now apply shaped_wrap|].
    change ([underscore] ++ s5 ++ [underscore]) with (([underscore] ++ s5) ++ [underscore]).
    now apply rstrip_by_snoc. }
  destruct H6 as [H6 F6].
  set (s7 := if (Z.of_nat (length s6) >? max_len)%Z
             then rstrip_space_dot (slice_to s6 max_len) else s6).
  assert (H7 : shaped pb s7 /\ rstrip_space_dot s7 = s7).
  { unfold s7. destruct (Z.of_nat (length s6) >? max_len)%Z; [|now split].
    split; [|apply rstrip_by_idem].
    apply shaped_rstrip. unfold slice_to.
    destruct (max_len <? 0)%Z; now apply shaped_firstn. }
  destruct H7 as [(H7a & H7b & H7c) F7].
  destruct s7 as [|c t]; simpl or_untitled.
  - destruct (shaped_untitled pb) as (U1 & U2 & U3).
    repeat split; try assumption; discriminate.
  - repeat split; try assumption; discriminate.
Qed.

Lemma safe_filename_base_length (s : pystr) (max_len : Z) (pb : bool) :
  (8 <= max_len)%Z ->
  (Z.of_nat (length (safe_filename_base s max_len pb)) <= max_len)%Z.
Proof.
  intros Hm. unfold safe_filename_base. cbv zeta.
  match goal with
  | |- context [if is_reserved ?x then ?a else ?b] =>
      set (s6 := if is_reserved x then a else b)
  end.
  set (s7 := if (Z.of_nat (length s6) >? max_len)%Z
             then rstrip_space_dot (slice_to s6 max_len) else s6).
  assert (H : (Z.of_nat (length s7) <= max_len)%Z).
  { unfold s7. destruct (Z.of_nat (length s6) >? max_len)%Z eqn:E; [|lia].
    unfold rstrip_space_dot, slice_to.
    destruct (max_len <? 0)%Z eqn:E0; [lia|].
    pose proof (rstrip_by_length is_space_or_dot (firstn (Z.to_nat max_len) s6)) as L1.
    pose proof (firstn_le_length (Z.to_nat max_len) s6) as L2. lia. }
  clearbody s7. destruct s7 as [|c t].
  - simpl. lia.
  - exact H.
Qed.

(** A settled text that fits, has no underscore run where blanks become
    underscores, and is not a reserved name, is left alone. *)
Lemma settled_fixed (r : pystr) (max_len : Z) (pb : bool) :
  settled pb r ->
  (Z.of_nat (length r) <= max_len)%Z ->
  (pb = false -> has_underscore_run r = false) ->
  is_reserved r = false ->
  safe_filename_base r max_len pb = r.
Proof.
  intros (Hne & Hval & Hfix & Hsp & Hnb) Hlen Hrun Hres.
  unfold safe_filename_base. cbv zeta.
  assert (E1 : strip r = r).
  { unfold strip. rewrite (single_spaced_head r Hsp).
    apply rstrip_by_narrower with (f := is_space_or_dot); [|exact Hfix].
    eapply Forall_impl; [|apply (single_spaced_blanks true r Hsp)].
    intros c Hc Hs. rewrite (Hc Hs). reflexivity. }
  rewrite E1.
  assert (E2 : (if pb then WS_RE_sub [space] r
                else collapse_underscores (WS_RE_sub [underscore] r)) = r).
  { destruct pb.
    - unfold WS_RE_sub. now apply (proj1 (single_spaced_fixed r)).
    - unfold collapse_underscores, WS_RE_sub.
      rewrite (sub_runs_none is_space [underscore] false r (Hnb eq_refl)).
      apply has_underscore_run_fixed. now apply Hrun. }
  rewrite E2.
  assert (E3 : or_untitled r = r) by (destruct r; [contradiction|reflexivity]).
  rewrite E3, (INVALID_WIN_RE_sub_fixed r Hval), Hfix, Hres.
  assert (E7 : (Z.of_nat (length r) >? max_len)%Z = false) by lia.
  rewrite E7. exact E3.
Qed.

Example sanitize_my_song :
  safe_filename_base (str "jdoe - My Song") default_max_len false = str "jdoe_-_My_Song".
Proof. vm_compute. reflexivity. Qed.

Example sanitize_my_song_blanks :
  safe_filename_base (str "  jdoe  -  My Song. ") default_max_len true = str "jdoe - My Song".
Proof. vm_compute. reflexivity. Qed.

Example sanitize_reserved :
  safe_filename_base (str "con") default_max_len false = str "_con_".
Proof. vm_compute. reflexivity. Qed.

(** C4, as stated, fails: an illegal character next to another one (or next
    to an underscore) becomes an underscore only after the underscore runs
    were collapsed, so the second pass collapses what the first pass made.
    Here [a::b] becomes [a__b], and [a__b] becomes [a_b]. *)
Lemma safe_filename_base_not_idempotent :
  safe_filename_base (str "a::b") default_max_len false = str "a__b"
  /\ safe_filename_base (safe_filename_base (str "a::b") default_max_len false)
       default_max_len false
     <> safe_filename_base (str "a::b") default_max_len false.
Proof. split; [vm_compute; reflexivity|vm_compute; discriminate]. Qed.

(** Two more ways in which a second pass changes the result: a result cut to
    [max_len] can be a reserved name, and the fallback name is longer than a
    small [max_len]. *)
Example second_pass_wraps_truncated_name :
  safe_filename_base (str "CONx") 3 true = str "CON"
  /\ safe_filename_base (str "CON") 3 true = str "_CO".
Proof. split; vm_compute; reflexivity. Qed.

Example second_pass_cuts_fallback :
  safe_filename_base (str "...") 3 true = str "untitled"
  /\ safe_filename_base (str "untitled") 3 true = str "unt".
Proof. split; vm_compute; reflexivity. Qed.

(** C4 (amended): with [max_len] at least 8 (the default is 180), sanitizing
    an already sanitized text with the same parameters gives the same text,
    provided the sanitized text is not a bare reserved device name and, when
    blanks become underscores, has no two underscores in a row. *)
Theorem safe_filename_base_idempotent (s : pystr) (max_len : Z) (pb : bool) :
  (8 <= max_len)%Z ->
  (pb = false -> has_underscore_run (safe_filename_base s max_len pb) = false) ->
  is_reserved (safe_filename_base s max_len pb) = false ->
  safe_filename_base (safe_filename_base s max_len pb) max_len pb
  = safe_filename_base s max_len pb.
Proof.
  intros Hm Hrun Hres.
  apply settled_fixed.
  - apply safe_filename_base_settled.
  - now apply safe_filename_base_length.
  - exact Hrun.
  - exact Hres.
Qed.

Lemma safe_filename_base_idempotent_witness :
  safe_filename_base (safe_filename_base (str "jdoe - My Song") 180 false) 180 false
  = safe_filename_base (str "jdoe - My Song") 180 false.
Proof.
  apply (safe_filename_base_idempotent (str "jdoe - My Song") 180 false).
  - lia.
  - intros _. vm_compute. reflexivity.
  - vm_compute. reflexivity.
Defined.

(** The two parts of C5 that hold for every input and every parameter: the
    result is never empty and has no illegal character. *)
Lemma safe_filename_base_nonempty_valid (s : pystr) (max_len : Z) (pb : bool) :
  safe_filename_base s max_len pb <> []
  /\ Forall (fun c => is_invalid_win c = false) (safe_filename_base s max_len pb).
Proof.
  destruct (safe_filename_base_settled s max_len pb) as (H1 & H2 & _).
  now split.
Qed.

(** C5, third part, at the failing input: the reserved-name check runs before
    the cut to [max_len], so [CON], 177 dots and [x] (181 characters) is cut
    to 180 characters, loses its trailing dots, and comes out as the bare
    device name [CON], with the default parameters. *)
Theorem safe_filename_base_returns_reserved_name :
  safe_filename_base (str "CON" ++ repeat dot 177 ++ str "x") default_max_len false
  = str "CON"
  /\ is_reserved (str "CON") = true.
Proof. split; vm_compute; reflexivity. Qed.

(** ** Collision avoidance *)




Lemma with_name_candidate (p : Path) (i : nat) :
  p <> [] ->
  with_name p (stem p ++ str "__" ++ str_of_nat i ++ suffix p) = Ok (candidate p i).
Proof.
  intros Hp. destruct p; [contradiction|reflexivity].
Qed.

Lemma find_entry_In (fs : FS) (p : Path) (n : Node) :
  find_entry fs p = Some n -> In p (map fst fs).
Proof.
  induction fs as [|[q m] r IH]; simpl; [discriminate|].
  destruct (path_eqb q p) eqn:E.
  - apply path_eqb_eq in E. now left.
  - intros H. right. now apply IH.
Qed.



(** What the loop returns: the first free candidate, or nothing when every
    candidate it had fuel for is taken. *)
Lemma unique_path_loop_spec (fs : FS) (p : Path) (fuel i : nat) :
  p <> [] ->
  match unique_path_loop fuel fs p (stem p) (suffix p) i with
  | Ok q =>
      exists j, i <= j < i + fuel /\ q = candidate p j /\ exists_ fs q = false
                /\ forall k, i <= k < j -> exists_ fs (candidate p k) = true
  | OutOfFuel => forall k, i <= k < i + fuel -> exists_ fs (candidate p k) = true
  | Raised _ => False
  end.
Proof.
  intros Hp. revert i. induction fuel as [|fuel IH]; intros i; cbn [unique_path_loop].
  - intros k Hk. lia.
  - rewrite (with_name_candidate p i Hp). cbn [bind].
    destruct (exists_ fs (candidate p i)) eqn:E.
    + specialize (IH (S i)).
      destruct (unique_path_loop fuel fs p (stem p) (suffix p) (S i)) as [q| |].
      * destruct IH as (j & Hj & Hq & Hfree & Hbelow).
        exists j. repeat split; try assumption; try lia.
        intros k Hk. destruct (Nat.eq_dec k i) as [->|Hne]; [exact E|].
        apply Hbelow. lia.
      * exact IH.
      * intros k Hk. destruct (Nat.eq_dec k i) as [->|Hne]; [exact E|].
        apply IH. lia.
    + exists i. repeat split; try assumption; try lia.
Qed.






Example unique_path_second_name :
  unique_path taken (path "/d/x.mp4") = Ok (path "/d/x__2.mp4").
Proof. vm_compute. reflexivity. Qed.

(** ** The rename planner *)

Lemma name_snoc (p : Path) (n : pystr) : name (p ++ [n]) = n.
Proof. unfold name. apply last_last. Qed.

Lemma suffix_snoc (p : Path) (n : pystr) : suffix (p ++ [n]) = suffix [n].
Proof. unfold suffix. now rewrite name_snoc. Qed.

(** Joining a folder with a plain file name appends one component. *)
Lemma div_plain (p : Path) (n : pystr) :
  match n with c :: _ => (c =? slash)%N = false | [] => False end ->
  parts_of n = [n] ->
  div p n = p ++ [n].
Proof.
  intros Hc Hn. unfold div. destruct n as [|c t]; [contradiction|].
  now rewrite Hc, Hn.
Qed.

Lemma unique_path_of_free (fs : FS) (p : Path) :
  exists_ fs p = false -> unique_path fs p = Ok p.
Proof. intros H. unfold unique_path. now rewrite H. Qed.

(** What [plan_asset] plans: nothing, or the one rename to the destination it
    was given, which is free. *)
Lemma plan_asset_spec (fs : FS) (k : string) (sid : pystr) (t : Json) (keep : pystr)
    (a d : Path) :
  plan_asset fs k sid t keep a d
  = if negb (pystr_eqb (name a) (name d)) && negb (exists_ fs d)
    then Ok [ {| kind := str k; short_id := sid; title := t;
                 src := a; dst := d; keep_mode := keep |} ]
    else Ok [].
Proof.
  unfold plan_asset.
  destruct (pystr_eqb (name a) (name d)); [reflexivity|].
  destruct (exists_ fs d) eqn:E; [reflexivity|].
  cbn [negb andb]. now rewrite (unique_path_of_free fs d E).
Qed.

(** C8, as stated, fails: blanks become underscores in the whole text
    [<username> - <title>], also around the dash, so the planned names are
    [jdoe_-_My_Song.mp4] and [jdoe_-_My_Song.cover.jpg], not the names with
    spaces around the dash. *)
Lemma plan_my_song_names_differ :
  exists ops ws,
    build_rename_ops plain_format archive1 [piece1] pieces_dir0 (str "jdoe") false (str "none")
    = Ok (ops, ws)
    /\ map (fun op => name (dst op)) ops
       = [str "jdoe_-_My_Song.mp4"; str "jdoe_-_My_Song.cover.jpg"]
    /\ map (fun op => name (dst op)) ops
       <> [str "jdoe - My_Song.mp4"; str "jdoe - My_Song.cover.jpg"].
Proof.
  eexists. eexists. split; [vm_compute; reflexivity|].
  split; [vm_compute; reflexivity|vm_compute; discriminate].
Qed.

(** C8 (amended): for the piece with short id [abc123] and title [My Song],
    user name [jdoe] and blanks not preserved, whenever the piece folder
    holds [audio.mp4] and [cover.jpg] and the new names are free, the plan is
    the rename of [audio.mp4] to [jdoe_-_My_Song.mp4] followed by the rename
    of [cover.jpg] to [jdoe_-_My_Song.cover.jpg], without warnings. *)
Theorem plan_my_song (format_json : Json -> pystr) (fs : FS) (pieces_dir : Path)
    (keep : pystr) :
  let folder := pieces_dir ++ [str "abc123"] in
  exists_ fs folder = true ->
  exists_ fs (folder ++ [str "audio.mp4"]) = true ->
  exists_ fs (folder ++ [str "cover.jpg"]) = true ->
  exists_ fs (folder ++ [str "jdoe_-_My_Song.mp4"]) = false ->
  exists_ fs (folder ++ [str "jdoe_-_My_Song.cover.jpg"]) = false ->
  build_rename_ops format_json fs [piece1] pieces_dir (str "jdoe") false keep
  = Ok ([ {| kind := str "audio"; short_id := str "abc123";
             title := JStr (str "My Song");
             src := folder ++ [str "audio.mp4"];
             dst := folder ++ [str "jdoe_-_My_Song.mp4"];
             keep_mode := keep |};
          {| kind := str "cover"; short_id := str "abc123";
             title := JStr (str "My Song");
             src := folder ++ [str "cover.jpg"];
             dst := folder ++ [str "jdoe_-_My_Song.cover.jpg"];
             keep_mode := keep |} ],
        []).
Proof.
  intros folder Hfolder Haudio Hcover Hfree1 Hfree2.
  unfold build_rename_ops, plan_pieces, plan_piece, locate.
  change (json_get piece1 (str "short_id")) with (Ok (JStr (str "abc123"))).
  change (json_get piece1 (str "title")) with (Ok (JStr (str "My Song"))).
  change (json_get piece1 (str "attachment")) with (Ok JNull).
  cbn [bind].
  change (json_truthy (JStr (str "abc123"))) with true. cbn [negb].
  rewrite (div_plain pieces_dir (str "abc123") eq_refl eq_refl).
  fold folder. rewrite Hfolder. cbn [negb map find].
  rewrite (div_plain folder (str "audio.mp4") eq_refl eq_refl), Haudio.
  rewrite (div_plain folder (str "cover.jpg") eq_refl eq_refl), Hcover.
  cbn [bind].
  rewrite !plan_asset_spec.
  rewrite !suffix_snoc.
  change (safe_filename_base
            (safe_filename_base (str "jdoe") default_max_len false ++ str " - "
             ++ format format_json (json_or (JStr (str "My Song")) (JStr (str "untitled"))))
            default_max_len false)
    with (str "jdoe_-_My_Song").
  change (str "jdoe_-_My_Song" ++ suffix [str "audio.mp4"]) with (str "jdoe_-_My_Song.mp4").
  change (str "jdoe_-_My_Song" ++ str ".cover" ++ suffix [str "cover.jpg"])
    with (str "jdoe_-_My_Song.cover.jpg").
  rewrite (div_plain folder (str "jdoe_-_My_Song.mp4") eq_refl eq_refl).
  rewrite (div_plain folder (str "jdoe_-_My_Song.cover.jpg") eq_refl eq_refl).
  rewrite !name_snoc, Hfree1, Hfree2.
  reflexivity.
Qed.

Lemma plan_my_song_witness :
  build_rename_ops plain_format archive1 [piece1] pieces_dir0 (str "jdoe") false (str "none")
  = Ok ([ {| kind := str "audio"; short_id := str "abc123";
             title := JStr (str "My Song");
             src := path "/dump/assets/pieces/abc123/audio.mp4";
             dst := path "/dump/assets/pieces/abc123/jdoe_-_My_Song.mp4";
             keep_mode := str "none" |};
          {| kind := str "cover"; short_id := str "abc123";
             title := JStr (str "My Song");
             src := path "/dump/assets/pieces/abc123/cover.jpg";
             dst := path "/dump/assets/pieces/abc123/jdoe_-_My_Song.cover.jpg";
             keep_mode := str "none" |} ],
        []).
Proof.
  apply (plan_my_song plain_format archive1 pieces_dir0 (str "none"));
    vm_compute; reflexivity.
Defined.

Ltac step_in H :=
  match type of H with
  | context [match ?x with _ => _ end] => destruct x eqn:?; try discriminate H
  end.

(** One asset block of the planner: whatever it plans goes to the free
    destination computed from the source. *)
Lemma asset_block_spec (fs : FS) (k : string) (sid : pystr) (t : Json) (keep : pystr)
    (D : Path -> Path) (found : option Path) (w : list Warning)
    (r : list RenameOp * list Warning) :
  match found with
  | Some a => ops <- plan_asset fs k sid t keep a (D a) ;; Ok (ops, [])
  | None => Ok ([], w)
  end = Ok r ->
  forall op, In op (fst r) ->
    exists_ fs (dst op) = false /\ dst op = D (src op)
    /\ kind op = str k /\ short_id op = sid /\ title op = t.
Proof.
  intros H op Hin. destruct found as [a|].
  - rewrite plan_asset_spec in H.
    destruct (negb (pystr_eqb (name a) (name (D a))) && negb (exists_ fs (D a))) eqn:E;
      cbn [bind] in H; injection H as <-; [|contradiction].
    destruct Hin as [<-|[]]. cbn.
    apply andb_true_iff in E as [_ E]. apply negb_true_iff in E. now repeat split.
  - injection H as <-. contradiction.
Qed.

Lemma plan_piece_spec (format_json : Json -> pystr) (fs : FS) (pieces_dir : Path)
    (uc : pystr) (pb : bool) (keep : pystr) (piece : Json)
    (ops : list RenameOp) (ws : list Warning) :
  plan_piece format_json fs pieces_dir uc pb keep piece = Ok (ops, ws) ->
  forall op, In op ops ->
    exists_ fs (dst op) = false
    /\ dst op = plain_destination format_json pieces_dir uc pb op.
Proof.
  unfold plan_piece, bind. intros H op Hin.
  repeat step_in H.
  - injection H as <- _. contradiction.
  - injection H as <- _. contradiction.
  - injection H as <- _. cbn [fst] in Hin.
    unfold plain_destination.
    apply in_app_or in Hin as [Hin|Hin]; [|apply in_app_or in Hin as [Hin|Hin]].
    + match goal with
      | Ha : _ = Ok ?r, Hi : In ?o (fst ?r) |- _ =>
          destruct (asset_block_spec fs "audio" _ _ keep _ _ _ r Ha o Hi)
            as (Hf & Hd & Hk & Hs & Ht)
      end.
      split; [exact Hf|]. rewrite Hd, Hk, Hs, Ht. reflexivity.
    + match goal with
      | Ha : _ = Ok ?r, Hi : In ?o (fst ?r) |- _ =>
          destruct (asset_block_spec fs "cover" _ _ keep _ _ _ r Ha o Hi)
            as (Hf & Hd & Hk & Hs & Ht)
      end.
      split; [exact Hf|]. rewrite Hd, Hk, Hs, Ht. reflexivity.
    + match goal with
      | Ha : match ?j with JStr _ => _ | _ => _ end = Ok ?r, Hi : In ?o (fst ?r) |- _ =>
          destruct j as [| | |att| |]; try (injection Ha as <-; contradiction);
          destruct (negb (pystr_eqb (strip att) []));
            try (injection Ha as <-; contradiction);
          match type of Ha with
          | (if exists_ fs ?src_ then _ else _) = _ =>
              destruct (exists_ fs src_); try (injection Ha as <-; contradiction);
              match type of Ha with
              | context [div ?folder (safe_filename_base ?b ?m ?q ++ suffix src_)] =>
                  destruct (asset_block_spec fs "attachment" _ _ keep
                              (fun x => div folder (safe_filename_base b m q ++ suffix x))
                              (Some src_) [] r Ha o Hi)
                    as (Hf & Hd & Hk & Hs & Ht)
              end
          end
      end.
      split; [exact Hf|]. rewrite Hd, Hk, Hs, Ht. reflexivity.
Qed.

Lemma split_slash_part (c rest cur : pystr) :
  forallb (fun x => negb (x =? slash)%N) c = true ->
  split_slash (c ++ rest) cur = split_slash rest (rev c ++ cur).
Proof.
  revert cur. induction c as [|x c IH]; intros cur H; [reflexivity|].
  cbn [forallb] in H. apply andb_true_iff in H as [Hx Hc].
  apply negb_true_iff in Hx. cbn [app split_slash]. rewrite Hx.
  rewrite (IH (x :: cur) Hc). cbn [rev]. now rewrite <- app_assoc.
Qed.

Lemma parts_of_plain (c : pystr) : plain_part c = true -> parts_of c = [c].
Proof.
  unfold plain_part, parts_of. intros H. apply andb_true_iff in H as [Hk Hs].
  rewrite <- (app_nil_r c) at 1. rewrite (split_slash_part c [] [] Hs).
  cbn [split_slash]. rewrite app_nil_r, rev_involutive. cbn [filter]. now rewrite Hk.
Qed.

Lemma div_plain_part (p : Path) (c : pystr) : plain_part c = true -> div p c = p ++ [c].
Proof.
  intros H. apply div_plain; [|now apply parts_of_plain].
  unfold plain_part in H. apply andb_true_iff in H as [Hk Hs].
  destruct c as [|x t]; [discriminate|]. cbn [forallb] in Hs.
  apply andb_true_iff in Hs as [Hx _]. now apply negb_true_iff in Hx.
Qed.

(** A plain destination lies under the folder named after the short id. *)
Lemma plain_destination_under (format_json : Json -> pystr) (pieces_dir : Path)
    (uc : pystr) (pb : bool) (op : RenameOp) :
  plain_part (short_id op) = true ->
  exists rest,
    plain_destination format_json pieces_dir uc pb op = pieces_dir ++ short_id op :: rest.
Proof.
  intros Hsid. unfold plain_destination. rewrite (div_plain_part _ _ Hsid).
  destruct (safe_filename_base_settled
              (uc ++ str " - " ++ format format_json (title op)) default_max_len pb)
    as (Hne & Hvalid & _).
  destruct (safe_filename_base _ default_max_len pb) as [|x base]; [contradiction|].
  inversion Hvalid as [|? ? Hx _]; subst. unfold div. cbn [app].
  assert (E : (x =? slash)%N = false).
  { destruct (x =? slash)%N eqn:E; [|reflexivity]. apply N.eqb_eq in E. subst x.
    discriminate. }
  rewrite E, <- app_assoc. eexists. reflexivity.
Qed.

(** C7, as stated, fails: two pieces with the same sanitized base live in
    two piece folders, and the planner only plans a rename whose destination
    is free, so [unique_path] has nothing to add.  Both planned names are
    [jdoe_-_Same.mp4]; the second one carries no [__2]. *)
Lemma second_piece_gets_no_suffix :
  exists opA opB ws,
    build_rename_ops plain_format archive2 [piece_a; piece_b] pieces_dir0
      (str "jdoe") false (str "none")
    = Ok ([opA; opB], ws)
    /\ dst opA = path "/dump/assets/pieces/a1/jdoe_-_Same.mp4"
    /\ dst opB = path "/dump/assets/pieces/b2/jdoe_-_Same.mp4"
    /\ name (dst opB) <> str "jdoe_-_Same__2.mp4".
Proof.
  do 3 eexists. split; [vm_compute; reflexivity|].
  split; [vm_compute; reflexivity|].
  split; [vm_compute; reflexivity|vm_compute; discriminate].
Qed.

Lemma planned_destinations (format_json : Json -> pystr) (fs : FS)
    (pieces : list Json) (pieces_dir : Path) (uc : pystr) (pb : bool)
    (keep : pystr) (ops : list RenameOp) (ws : list Warning) :
  plan_pieces format_json fs pieces_dir uc pb keep pieces = Ok (ops, ws) ->
  forall op, In op ops ->
    exists_ fs (dst op) = false
    /\ dst op = plain_destination format_json pieces_dir uc pb op.
Proof.
  revert ops ws. induction pieces as [|piece rest IH]; intros ops ws H op Hin.
  - injection H as <- _. contradiction.
  - cbn [plan_pieces] in H. unfold bind in H.
    destruct (plan_piece format_json fs pieces_dir uc pb keep piece)
      as [[ops1 ws1]| |] eqn:E1; try discriminate.
    destruct (plan_pieces format_json fs pieces_dir uc pb keep rest)
      as [[ops2 ws2]| |] eqn:E2; try discriminate.
    injection H as <- _. cbn [fst] in Hin.
    apply in_app_or in Hin as [Hin|Hin].
    + exact (plan_piece_spec format_json fs pieces_dir uc pb keep piece ops1 ws1 E1 op Hin).
    + exact (IH ops2 ws2 eq_refl op Hin).
Qed.

(** C7 (amended): whatever the pieces, also when two of them produce the same
    sanitized base, every planned destination is the plain
    [<pieces_dir>/<short_id>/<base><extension>] (with [.cover] before the
    extension of a cover), without numeric suffix, and it is free at planning
    time; two planned destinations are distinct whenever the short ids of
    their pieces are different single folder names (not empty, not a dot,
    without a slash). *)
Theorem planned_destinations_plain (format_json : Json -> pystr) (fs : FS)
    (pieces : list Json) (pieces_dir : Path) (username : pystr) (pb : bool)
    (keep : pystr) (ops : list RenameOp) (ws : list Warning) :
  build_rename_ops format_json fs pieces pieces_dir username pb keep = Ok (ops, ws) ->
  (forall op, In op ops ->
     exists_ fs (dst op) = false
     /\ dst op = plain_destination format_json pieces_dir
                   (safe_filename_base username default_max_len pb) pb op)
  /\ (forall opA opB, In opA ops -> In opB ops ->
        plain_part (short_id opA) = true -> plain_part (short_id opB) = true ->
        short_id opA <> short_id opB -> dst opA <> dst opB).
Proof.
  unfold build_rename_ops. intros H.
  pose proof (planned_destinations format_json fs pieces pieces_dir _ pb keep ops ws H)
    as Hplain.
  split; [exact Hplain|].
  intros opA opB HA HB HsA HsB Hne Heq.
  destruct (Hplain opA HA) as [_ EA]. destruct (Hplain opB HB) as [_ EB].
  destruct (plain_destination_under format_json pieces_dir
              (safe_filename_base username default_max_len pb) pb opA HsA) as [ra Ra].
  destruct (plain_destination_under format_json pieces_dir
              (safe_filename_base username default_max_len pb) pb opB HsB) as [rb Rb].
  rewrite EA, EB, Ra, Rb in Heq. apply app_inv_head in Heq.
  injection Heq as Heq _. contradiction.
Qed.

Lemma planned_destinations_plain_witness :
  (forall op, In op [op_a1; op_b2] ->
     exists_ archive2 (dst op) = false
     /\ dst op
        = plain_destination plain_format pieces_dir0
            (safe_filename_base (str "jdoe") default_max_len false) false op)
  /\ (forall opA opB, In opA [op_a1; op_b2] -> In opB [op_a1; op_b2] ->
        plain_part (short_id opA) = true -> plain_part (short_id opB) = true ->
        short_id opA <> short_id opB -> dst opA <> dst opB).
Proof.
  apply (planned_destinations_plain plain_format archive2 [piece_a; piece_b] pieces_dir0
           (str "jdoe") false (str "none") [op_a1; op_b2]
           [WCoverNotFound (str "a1"); WCoverNotFound (str "b2")]).
  vm_compute. reflexivity.
Defined.

(** The two planned destinations of the counterexample bear the same name
    and differ by their folders. *)
Example same_base_destinations_differ :
  name (dst op_a1) = name (dst op_b2) /\ dst op_a1 <> dst op_b2.
Proof. split; [vm_compute; reflexivity|vm_compute; discriminate]. Qed.

(** ** The command line *)

Lemma json_get_cases (d : Json) (k : pystr) :
  (exists v, json_get d k = Ok v) \/ json_get d k = Raised AttributeError.
Proof. destruct d; simpl; eauto. Qed.

Lemma path_or_of_path (o : option Path) (d : Path) :
  path_or (of_path o) d = Ok (match o with Some p => p | None => d end).
Proof. now destruct o. Qed.

(** C9, as stated, fails for the invocations that stop at a start-up check:
    without a metadata file, [rename] returns exit code 2 and raises
    nothing. *)
Lemma rename_without_metadata_exits :
  sub (plain_rename false) = SubRename {| log := None; apply := false; dry_run := false;
                                          keep_link := false; keep_copy := false;
                                          undo := false |}
  /\ main permissive no_dumps no_json plain_format no_tag (plain_rename false) []
     = ([], Ok 2%Z)
  /\ snd (main permissive no_dumps no_json plain_format no_tag (plain_rename false) [])
     <> Raised AttributeError.
Proof.
  split; [reflexivity|]. split; [vm_compute; reflexivity|vm_compute; discriminate].
Qed.

(** C9 (amended): a [rename] invocation without [--undo] that passes the
    start-up checks (the options parse, the metadata file and the pieces
    directory exist, the manifest loads and its [pieces] entry is a list)
    raises [AttributeError] and leaves the file system as it was: nothing is
    planned or executed, with or without [--apply]. *)
Theorem rename_raises_attribute_error
    (pf : Platform) (jd : Json -> pystr) (jl : pystr -> Outcome Json)
    (fj : Json -> pystr)
    (ct : Json -> Path -> Json -> bool -> bool -> bool -> FS -> FS * Outcome Z)
    (cl : CommandLine) (f : RenameFlags) (fs : FS) (data : Json) (ps : list Json) :
  sub cl = SubRename f ->
  undo f = false ->
  keep_link f && keep_copy f = false ->
  exists_ fs (meta_path_of cl) = true ->
  exists_ fs (pieces_dir_of cl) = true ->
  load_alltihop_json jl fs (meta_path_of cl) = Ok data ->
  json_get data (str "pieces") = Ok (JArr ps) ->
  main pf jd jl fj ct cl fs = (fs, Raised AttributeError).
Proof.
  intros Hsub Hundo Hkeep Hmeta Hdir Hload Hpieces.
  unfold main, parse_args. rewrite Hsub, Hkeep.
  cbn [step attr app String.eqb Ascii.eqb Bool.eqb path_or].
  rewrite !path_or_of_path. cbn [step].
  fold (root_of cl). fold (meta_path_of cl). fold (pieces_dir_of cl).
  rewrite Hmeta, Hdir, Hload. cbn [negb step].
  destruct data as [| | | | |fields]; try discriminate Hpieces.
  cbn [json_get step].
  match goal with
  | |- context [json_or ?u (JObj [])] => set (meta_user := json_or u (JObj []))
  end.
  destruct (json_get_cases meta_user (str "username")) as [[un ->]| ->];
    cbn [step]; [|reflexivity].
  destruct (json_truthy un);
    [|destruct (json_get_cases meta_user (str "display_name")) as [[dn ->]| ->]];
    cbn [step]; try reflexivity.
  all: change (pystr_eqb (str "rename") (str "rename")) with true; cbv iota.
  all: cbn [step arg_truthy]; rewrite Hundo.
  all: destruct (dry_run f); cbn [step arg_truthy orb];
    destruct (apply f); cbn [step arg_truthy orb];
    unfold main_rename; rewrite Hpieces;
    cbn [step attr String.eqb Ascii.eqb Bool.eqb arg_truthy];
    destruct (keep_link f); reflexivity.
Qed.

Lemma rename_raises_attribute_error_witness :
  main permissive no_dumps (reads_as manifest1) plain_format no_tag (plain_rename true)
    archive1_with_manifest
  = (archive1_with_manifest, Raised AttributeError).
Proof.
  apply (rename_raises_attribute_error permissive no_dumps (reads_as manifest1)
           plain_format no_tag (plain_rename true)
           {| log := None; apply := true; dry_run := false;
              keep_link := false; keep_copy := false; undo := false |}
           archive1_with_manifest manifest1 [piece1]);
    vm_compute; reflexivity.
Defined.

(** ** The executor and the undo engine *)

(** The attribute read after every rename does not exist on a [RenameOp]. *)
Lemma keep_link_is_no_attribute (op : RenameOp) :
  getattr op "keep_link" = Raised AttributeError.
Proof. reflexivity. Qed.

(** A run of the apply loop that ends without an exception has renamed
    nothing and written nothing: every operation was skipped because its
    destination existed. *)
Lemma apply_loop_normal_end (pf : Platform) (jd : Json -> pystr) (f : Path)
    (ops : list RenameOp) (fs fs' : FS) :
  apply_loop pf jd f ops fs = (fs', Ok tt) ->
  fs' = fs /\ Forall (fun op => exists_ fs (dst op) = true) ops.
Proof.
  induction ops as [|op rest IH]; cbn [apply_loop]; intros H.
  - injection H as <-. now split.
  - destruct (exists_ fs (dst op)) eqn:E.
    + destruct (IH H) as [-> Hall]. split; [reflexivity|now constructor].
    + rewrite keep_link_is_no_attribute in H.
      destruct (os_rename fs (src op) (dst op)); discriminate.
Qed.

(** C2 at the failing input: in apply mode the one planned rename of
    [archive1] is carried out, then reading [op.keep_link] raises
    [AttributeError] before the journal line is written; the journal file was
    created by opening it and stays empty. *)
Theorem apply_renames_without_journal_line (pf : Platform) (jd : Json -> pystr) :
  let r := apply_rename_ops pf jd [op_audio1] log0 false archive1 in
  snd r = Raised AttributeError
  /\ exists_ archive1 (dst op_audio1) = false
  /\ read (fst r) (dst op_audio1) = read archive1 (src op_audio1)
  /\ read archive1 (src op_audio1) = Some (str "AUDIO-BYTES")
  /\ exists_ (fst r) (src op_audio1) = false
  /\ read (fst r) log0 = Some [].
Proof. vm_compute. repeat split; reflexivity. Qed.

(** C1 at the failing input: the journal that the interrupted apply run
    leaves behind has no entry, so the undo that follows finds nothing to
    restore; the audio file stays under its new name and the original path
    stays empty. *)
Theorem apply_then_undo_does_not_restore (pf : Platform) (jd : Json -> pystr)
    (jl : pystr -> Outcome Json) :
  let applied := apply_rename_ops pf jd [op_audio1] log0 false archive1 in
  let undone := undo_rename_from_log pf jl log0 false (fst applied) in
  snd applied = Raised AttributeError
  /\ snd undone = Ok tt
  /\ fst undone = fst applied
  /\ read archive1 (src op_audio1) = Some (str "AUDIO-BYTES")
  /\ read (fst undone) (src op_audio1) = None
  /\ read (fst undone) (dst op_audio1) = Some (str "AUDIO-BYTES").
Proof. vm_compute. repeat split; reflexivity. Qed.

(** The undo engine on a journal that does hold the entry: the file goes
    back to its original path. *)
Example undo_restores_journalled_rename :
  let renamed :=
    [ (path "/d", Dir);
      (path "/d/new.mp4", File (str "BYTES"));
      (path "/log.jsonl", File (str "{...}" ++ [newline])) ] in
  let entry := JObj [ (str "src", JStr (str "/d/audio.mp4"));
                      (str "dst", JStr (str "/d/new.mp4")) ] in
  undo_rename_from_log permissive (reads_as entry) (path "/log.jsonl") false renamed
  = ([ (path "/d", Dir);
       (path "/d/audio.mp4", File (str "BYTES"));
       (path "/log.jsonl", File (str "{...}" ++ [newline])) ],
     Ok tt).
Proof. vm_compute. reflexivity. Qed.

(** C3 at the failing input: the directory of the journal is created before
    the dry-run test, so a dry run with a journal path under a directory
    that does not exist yet creates that directory. *)
Theorem dry_run_creates_journal_directory (pf : Platform) (jd : Json -> pystr) :
  exists_ archive1 (parent log_new_dir) = false
  /\ apply_rename_ops pf jd [op_audio1] log_new_dir true archive1
     = ((archive1 ++ [(parent log_new_dir, Dir)])%list, Ok tt)
  /\ apply_rename_ops pf jd [] log_new_dir true archive1
     = ((archive1 ++ [(parent log_new_dir, Dir)])%list, Ok tt).
Proof. vm_compute. repeat split; reflexivity. Qed.

(** Apart from that directory a dry run changes nothing: what it returns is
    what [mkdir] made of the file system. *)
Lemma dry_run_only_makes_directory (pf : Platform) (jd : Json -> pystr)
    (ops : list RenameOp) (log_path : Path) (fs : FS) :
  apply_rename_ops pf jd ops log_path true fs
  = match mkdir fs (parent log_path) with
    | Ok fs1 => (fs1, Ok tt)
    | Raised e => (fs, Raised e)
    | OutOfFuel => (fs, OutOfFuel)
    end.
Proof.
  unfold apply_rename_ops. destruct (mkdir fs (parent log_path)); try reflexivity.
  now destruct ops.
Qed.

(** ** The comment tag *)

Section CommentProperties.

Variable casefold : pystr -> pystr.
Variable format_json : Json -> pystr.

Lemma drop_blanks_lstrip (s : pystr) : drop_blanks s = lstrip_by is_space s.
Proof. induction s as [|c t IH]; cbn; [reflexivity|]. now rewrite IH. Qed.

(** [strip] removes the blanks around a text. *)
Lemma strip_trim (s : pystr) : strip s = trim s.
Proof.
  unfold strip, trim. now rewrite rstrip_by_rev, !drop_blanks_lstrip.
Qed.

(** The header line followed by the joined names is the header block. *)
Lemma join_lines (x : pystr) (names : list pystr) :
  newline :: join [newline] (x :: names)
  = flat_map (fun n => newline :: n) (x :: names).
Proof.
  revert x. induction names as [|y r IH]; intros x.
  - cbn. now rewrite app_nil_r.
  - change (join [newline] (x :: y :: r))
      with (x ++ newline :: join [newline] (y :: r)).
    rewrite IH. reflexivity.
Qed.

Lemma trimmed_cons (c : Json) (rest : list Json) :
  trimmed format_json (c :: rest)
  = if json_truthy c
    then if pystr_eqb (strip (format format_json c)) []
         then trimmed format_json rest
         else strip (format format_json c) :: trimmed format_json rest
    else trimmed format_json rest.
Proof.
  unfold trimmed. cbn [filter map]. rewrite strip_trim.
  destruct (json_truthy c); [|reflexivity].
  cbn [filter map]. now destruct (pystr_eqb (trim (format format_json c)) []).
Qed.

(** The loop computes the de-duplicated names without the uploader, as long
    as its [seen] set and the one of [dedup] agree on every other name. *)
Lemma collect_spec (user_norm : pystr) (cols_raw : list Json) :
  forall cols seen seen',
    (forall x, is_self casefold user_norm x = false ->
               mem (casefold x) seen = mem (casefold x) seen') ->
    collect casefold format_json user_norm cols_raw cols seen
    = cols ++ filter (fun x => negb (is_self casefold user_norm x))
                     (dedup casefold seen' (trimmed format_json cols_raw)).
Proof.
  induction cols_raw as [|c rest IH]; intros cols seen seen' Hseen.
  - cbn. now rewrite app_nil_r.
  - cbn [collect]. rewrite trimmed_cons.
    destruct (json_truthy c); cbn [negb]; [|now apply IH].
    set (c_clean := strip (format format_json c)).
    destruct (pystr_eqb c_clean []); [now apply IH|].
    cbn [dedup].
    fold (is_self casefold user_norm c_clean).
    destruct (is_self casefold user_norm c_clean) eqn:Eself.
    + destruct (mem (casefold c_clean) seen'); [now apply IH|].
      cbn [filter]. rewrite Eself. cbn [negb]. apply IH.
      intros x Hx. rewrite (Hseen x Hx). unfold mem. cbn [existsb].
      destruct (pystr_eqb (casefold x) (casefold c_clean)) eqn:E; [|reflexivity].
      apply pystr_eqb_eq in E. unfold is_self in *. rewrite E in Hx. congruence.
    + rewrite (Hseen c_clean Eself).
      destruct (mem (casefold c_clean) seen'); [now apply IH|].
      cbn [filter]. rewrite Eself. cbn [negb].
      rewrite (IH (cols ++ [c_clean]) (casefold c_clean :: seen) (casefold c_clean :: seen')).
      * now rewrite <- app_assoc.
      * intros x Hx. unfold mem. cbn [existsb]. fold (mem (casefold x) seen).
        fold (mem (casefold x) seen'). now rewrite (Hseen x Hx).
Qed.

(** C10: the description is cut into the text that [build_comment] keeps and
    the blanks that it drops from the end, so the kept text is the
    right-stripped description.  When no collaborator name remains after
    trimming, case-insensitive de-duplication and exclusion of the uploader,
    [build_comment] returns exactly that text; when names remain it returns
    the header block alone if that text is empty, and otherwise that text,
    two line breaks, and the header block.  The kept text does not end in a
    blank or a line break, so exactly one blank line separates it from the
    header. *)
Theorem build_comment_spec (description : option pystr)
    (collaborators : option (list Json)) (username : option pystr) :
  let text := match description with Some s => s | None => [] end in
  let names := remaining_names casefold format_json collaborators username in
  exists desc blanks,
    text = desc ++ blanks
    /\ Forall (fun c => is_space c = true) blanks
    /\ (forall d c, desc = d ++ [c] -> is_space c = false)
    /\ build_comment casefold format_json description collaborators username
       = match names with
         | [] => desc
         | _ :: _ =>
             match desc with
             | [] => header_block names
             | _ :: _ => desc ++ [newline; newline] ++ header_block names
             end
         end.
Proof.
  cbv zeta.
  destruct (rstrip_by_split is_space (match description with Some s => s | None => [] end))
    as (blanks & H1 & H2 & H3).
  exists (rstrip (match description with Some s => s | None => [] end)), blanks.
  split; [exact H1|]. split; [exact H2|]. split; [exact H3|].
  unfold build_comment, remaining_names, header_block.
  rewrite (collect_spec _ _ [] [] []) by reflexivity.
  cbn [app].
  replace (or_empty description) with (match description with Some s => s | None => [] end)
    by now destruct description.
  replace (strip (or_empty username))
    with (trim (match username with Some u => u | None => [] end))
    by (rewrite strip_trim; now destruct username).
  destruct (filter _ _) as [|x names]; [reflexivity|].
  now rewrite join_lines.
Qed.

End CommentProperties.

(** The example of the specification, with ASCII case folding. *)
Example build_comment_alice_bob :
  build_comment lower plain_format (Some (str "A song.  "))
    (Some [JStr (str "Alice"); JStr (str "alice"); JStr (str " Bob ")])
    (Some (str "Alice"))
  = (str "A song." ++ [newline; newline] ++ str "Collaborators:" ++ [newline] ++ str "Bob")%list
  /\ build_comment lower plain_format (Some (str "A song.  "))
       (Some [JStr (str "Alice"); JStr (str "alice")]) (Some (str "ALICE"))
     = str "A song.".
Proof. split; vm_compute; reflexivity. Qed.

(** * Further properties *)

(** ** More about the sanitizer *)

Lemma settled_strip (pb : bool) (r : pystr) : settled pb r -> strip r = r.
Proof.
  intros (_ & _ & Hfix & Hsp & _).
  unfold strip. rewrite (single_spaced_head r Hsp).
  apply rstrip_by_narrower with (f := is_space_or_dot); [|exact Hfix].
  eapply Forall_impl; [|apply (single_spaced_blanks true r Hsp)].
  intros c Hc Hs. rewrite (Hc Hs). reflexivity.
Qed.

(** X1: for every input and every parameter the sanitized name is not empty
    and has none of the characters of [INVALID_WIN_RE]. *)
Theorem sanitized_name_is_usable (s : pystr) (max_len : Z) (pb : bool) :
  safe_filename_base s max_len pb <> []
  /\ Forall (fun c => is_invalid_win c = false) (safe_filename_base s max_len pb).
Proof.
  destruct (safe_filename_base_settled s max_len pb) as (H1 & H2 & _).
  now split.
Qed.

(** X2: the sanitized name has no blank at either end and no trailing dot;
    when blanks become underscores it has no blank at all, and when they are
    preserved every blank in it is a single space. *)
Theorem sanitized_name_shape (s : pystr) (max_len : Z) (pb : bool) :
  let r := safe_filename_base s max_len pb in
  strip r = r
  /\ rstrip_space_dot r = r
  /\ (if pb then WS_RE_sub [space] r = r
      else Forall (fun c => is_space c = false) r).
Proof.
  cbv zeta. pose proof (safe_filename_base_settled s max_len pb) as H.
  split; [exact (settled_strip pb _ H)|].
  destruct H as (_ & _ & Hfix & Hsp & Hnb).
  split; [exact Hfix|].
  destruct pb.
  - unfold WS_RE_sub. now apply (proj1 (single_spaced_fixed _)).
  - now apply Hnb.
Qed.

(** X3: when [max_len] is at least 8, the length of the fallback name, the
    sanitized name is never longer than [max_len]. *)
Theorem sanitized_name_fits (s : pystr) (max_len : Z) (pb : bool) :
  (8 <= max_len)%Z ->
  (Z.of_nat (length (safe_filename_base s max_len pb)) <= max_len)%Z.
Proof. apply safe_filename_base_length. Qed.

Lemma sanitized_name_fits_witness :
  (Z.of_nat (length (safe_filename_base (repeat 97%N 300) 180 false)) <= 180)%Z.
Proof. apply (sanitized_name_fits (repeat 97%N 300) 180 false). lia. Defined.

Lemma lstrip_by_all (f : N -> bool) (s : pystr) :
  Forall (fun c => f c = true) s -> lstrip_by f s = [].
Proof. induction 1 as [|c t Hc _ IH]; simpl; [reflexivity|]. now rewrite Hc. Qed.

(** X4: an input made of blanks only (the empty text included) is named
    [untitled], provided [max_len] leaves room for it. *)
Theorem blank_input_is_untitled (s : pystr) (max_len : Z) (pb : bool) :
  Forall (fun c => is_space c = true) s ->
  (8 <= max_len)%Z ->
  safe_filename_base s max_len pb = str "untitled".
Proof.
  intros Hs Hm. unfold safe_filename_base. cbv zeta.
  unfold strip. rewrite (lstrip_by_all is_space s Hs).
  assert (E : (Z.of_nat (length (str "untitled")) >? max_len)%Z = false).
  { change (Z.of_nat (length (str "untitled"))) with 8%Z. lia. }
  destruct pb;
    change (rstrip_by is_space []) with (@nil N);
    [change (WS_RE_sub [space] []) with (@nil N)
    |change (collapse_underscores (WS_RE_sub [underscore] [])) with (@nil N)];
    change (or_untitled []) with (str "untitled");
    change (INVALID_WIN_RE_sub (str "untitled")) with (str "untitled");
    change (rstrip_space_dot (str "untitled")) with (str "untitled");
    change (is_reserved (str "untitled")) with false; cbv iota;
    rewrite E; reflexivity.
Qed.

Lemma blank_input_is_untitled_witness :
  safe_filename_base [space; 9%N; 160%N] 180 true = str "untitled".
Proof.
  apply (blank_input_is_untitled [space; 9%N; 160%N] 180 true).
  - repeat constructor.
  - lia.
Defined.

(** A check that holds on every code point below a bound, by enumeration. *)
Lemma checked_below (P : N -> bool) (n : nat) :
  forallb P (map N.of_nat (seq 0 n)) = true ->
  forall c, (c < N.of_nat n)%N -> P c = true.
Proof.
  intros H c Hc. rewrite forallb_forall in H. apply H.
  apply in_map_iff. exists (N.to_nat c). split; [apply N2Nat.id|].
  apply in_seq. lia.
Qed.

(** Capital ASCII letters and digits: what the reserved names are made of. *)
Lemma reserved_names_alnum :
  forallb (forallb (fun k => ((48 <=? k) && (k <=? 57) || (65 <=? k) && (k <=? 90))%N))
          WIN_RESERVED = true.
Proof. vm_compute. reflexivity. Qed.

(** A character whose upper case is a capital letter or a digit is neither a
    blank, nor illegal, nor a dot, nor an underscore. *)
Lemma alnum_is_plain (c : N) :
  ((48 <=? upper_char c) && (upper_char c <=? 57)
   || (65 <=? upper_char c) && (upper_char c <=? 90))%N = true ->
  is_space c = false /\ is_invalid_win c = false
  /\ is_space_or_dot c = false /\ is_underscore c = false.
Proof.
  intros H.
  assert (Hc : (c < N.of_nat 123)%N).
  { unfold upper_char in H.
    destruct ((97 <=? c) && (c <=? 122))%N eqn:E.
    - apply andb_true_iff in E as [_ E]. apply N.leb_le in E. lia.
    - apply orb_true_iff in H as [H|H]; apply andb_true_iff in H as [_ H];
        apply N.leb_le in H; lia. }
  pose proof (checked_below
    (fun c => implb ((48 <=? upper_char c) && (upper_char c <=? 57)
                     || (65 <=? upper_char c) && (upper_char c <=? 90))%N
                    (negb (is_space c) && negb (is_invalid_win c)
                     && negb (is_space_or_dot c) && negb (is_underscore c)))
    123 eq_refl c Hc) as P.
  cbv beta in P. rewrite H in P. cbn [implb] in P.
  repeat (apply andb_true_iff in P as [P ?]).
  repeat split; now apply negb_true_iff.
Qed.

Lemma reserved_is_plain (s : pystr) :
  is_reserved s = true ->
  Forall (fun c => is_space c = false /\ is_invalid_win c = false
                   /\ is_space_or_dot c = false /\ is_underscore c = false) s
  /\ s <> [] /\ length s <= 4.
Proof.
  unfold is_reserved, mem. intros H.
  apply existsb_exists in H as (w & Hw & E). apply pystr_eqb_eq in E.
  pose proof reserved_names_alnum as A. rewrite forallb_forall in A.
  specialize (A w Hw). rewrite forallb_forall in A.
  assert (Hlen : w <> [] /\ length w <= 4).
  { clear - Hw. unfold WIN_RESERVED in Hw. cbn in Hw.
    repeat (destruct Hw as [<-|Hw]; [split; [discriminate|cbn; lia]|]).
    contradiction. }
  rewrite <- E in Hlen. unfold upper in Hlen. rewrite length_map in Hlen.
  split; [|split; [|apply Hlen]].
  - apply Forall_forall. intros c Hc. apply alnum_is_plain.
    apply A. rewrite <- E. unfold upper. now apply in_map.
  - destruct Hlen as [Hne _]. intros ->. now apply Hne.
Qed.

Lemma strip_by_none (f : N -> bool) (s : pystr) :
  Forall (fun c => f c = false) s -> lstrip_by f s = s /\ rstrip_by f s = s.
Proof.
  induction 1 as [|c t Hc _ [_ IHr]]; [now split|].
  simpl. rewrite Hc, IHr. split; [reflexivity|]. now destruct t.
Qed.

(** X5: a bare reserved device name, in any mix of upper and lower case, is
    returned wrapped in underscores (for [max_len] of 6 or more, which leaves
    room for the longest wrapped name). *)
Theorem reserved_name_is_wrapped (s : pystr) (max_len : Z) (pb : bool) :
  is_reserved s = true ->
  (6 <= max_len)%Z ->
  safe_filename_base s max_len pb = [underscore] ++ s ++ [underscore].
Proof.
  intros Hres Hm.
  destruct (reserved_is_plain s Hres) as (Hplain & Hne & Hlen).
  assert (Hsp : Forall (fun c => is_space c = false) s)
    by (eapply Forall_impl; [|exact Hplain]; now intros c (H & _)).
  assert (Hinv : Forall (fun c => is_invalid_win c = false) s)
    by (eapply Forall_impl; [|exact Hplain]; now intros c (_ & H & _)).
  assert (Hdot : Forall (fun c => is_space_or_dot c = false) s)
    by (eapply Forall_impl; [|exact Hplain]; now intros c (_ & _ & H & _)).
  assert (Hund : Forall (fun c => is_underscore c = false) s)
    by (eapply Forall_impl; [|exact Hplain]; now intros c (_ & _ & _ & H)).
  unfold safe_filename_base. cbv zeta.
  assert (E1 : strip s = s).
  { unfold strip. destruct (strip_by_none is_space s Hsp) as [-> ->]. reflexivity. }
  rewrite E1.
  assert (E2 : (if pb then WS_RE_sub [space] s
                else collapse_underscores (WS_RE_sub [underscore] s)) = s).
  { unfold collapse_underscores, WS_RE_sub. destruct pb.
    - now apply sub_runs_none.
    - rewrite (sub_runs_none is_space [underscore] false s Hsp).
      now apply sub_runs_none. }
  rewrite E2.
  assert (E3 : or_untitled s = s) by (destruct s; [contradiction|reflexivity]).
  rewrite E3, (INVALID_WIN_RE_sub_fixed s Hinv).
  unfold rstrip_space_dot. rewrite (proj2 (strip_by_none is_space_or_dot s Hdot)).
  rewrite Hres.
  assert (E7 : (Z.of_nat (length ([underscore] ++ s ++ [underscore])) >? max_len)%Z = false).
  { cbn [app length]. rewrite length_app. cbn [length].
    rewrite Z.gtb_ltb. apply Z.ltb_ge. lia. }
  rewrite E7. reflexivity.
Qed.

Lemma reserved_name_is_wrapped_witness :
  safe_filename_base (str "Lpt7") 180 true = [underscore] ++ str "Lpt7" ++ [underscore].
Proof.
  apply (reserved_name_is_wrapped (str "Lpt7") 180 true).
  - vm_compute. reflexivity.
  - lia.
Defined.

(** ** More about collision avoidance *)

Lemma rfind_split (c : N) (s : pystr) (i : nat) :
  rfind c s = Some i ->
  exists rest, skipn i s = c :: rest /\ rfind c rest = None /\ i < length s.
Proof.
  revert i. induction s as [|x t IH]; intros i; simpl; [discriminate|].
  destruct (rfind c t) as [j|] eqn:E.
  - intros H. injection H as <-. destruct (IH j eq_refl) as (rest & H1 & H2 & H3).
    exists rest. simpl. repeat split; try assumption. lia.
  - destruct (x =? c)%N eqn:Ex; [|discriminate].
    intros H. injection H as <-. apply N.eqb_eq in Ex. subst x.
    exists t. simpl. repeat split; try assumption. lia.
Qed.

Lemma rfind_last (c : N) (a rest : pystr) :
  rfind c rest = None -> rfind c (a ++ c :: rest) = Some (length a).
Proof.
  intros H. induction a as [|x a IH]; simpl.
  - now rewrite H, N.eqb_refl.
  - now rewrite IH.
Qed.

(** The alternative names keep the extension, when there is one. *)
Lemma candidate_suffix (p : Path) (i : nat) :
  suffix p <> [] -> suffix (candidate p i) = suffix p.
Proof.
  intros Hs. unfold candidate. rewrite suffix_snoc.
  unfold suffix at 1. cbn [name last].
  unfold suffix in *. unfold stem.
  destruct (suffix_pos (name p)) as [i0|] eqn:E; [|contradiction].
  unfold suffix_pos in E.
  destruct (rfind dot (name p)) as [j|] eqn:Er; [|discriminate].
  destruct ((0 <? j) && (j <? length (name p) - 1)) eqn:Eb; [|discriminate].
  injection E as <-.
  apply andb_true_iff in Eb as [Eb1 Eb2].
  apply Nat.ltb_lt in Eb1. apply Nat.ltb_lt in Eb2.
  destruct (rfind_split dot (name p) j Er) as (rest & Hsk & Hnone & Hlt).
  rewrite Hsk.
  set (a := firstn j (name p) ++ str "__" ++ str_of_nat i).
  assert (Ea : firstn j (name p) ++ str "__" ++ str_of_nat i ++ dot :: rest
               = a ++ dot :: rest).
  { unfold a. now rewrite <- !app_assoc. }
  rewrite Ea.
  assert (Hrest : rest <> []).
  { intros ->. pose proof (f_equal (@length N) Hsk) as L.
    rewrite length_skipn in L. cbn in L. lia. }
  assert (Hlen_a : 0 < length a).
  { unfold a. rewrite !length_app. cbn. lia. }
  unfold suffix_pos. rewrite (rfind_last dot a rest Hnone).
  assert (Eb : (0 <? length a) && (length a <? length (a ++ dot :: rest) - 1) = true).
  { apply andb_true_iff. split; [now apply Nat.ltb_lt|].
    apply Nat.ltb_lt. rewrite length_app. cbn [length].
    destruct rest; [contradiction|]. cbn [length]. lia. }
  rewrite Eb.
  rewrite skipn_app, skipn_all, Nat.sub_diag. reflexivity.
Qed.

Lemma candidate_parent (p : Path) (i : nat) : parent (candidate p i) = parent p.
Proof. unfold candidate, parent. apply removelast_last. Qed.

(** X6: the path that [unique_path] returns lies in the same folder as the
    path it was given and, when that path has an extension, carries the same
    extension. *)
Theorem unique_path_keeps_folder_and_extension (fs : FS) (p q : Path) :
  unique_path fs p = Ok q ->
  parent q = parent p /\ (suffix p <> [] -> suffix q = suffix p).
Proof.
  unfold unique_path. destruct (exists_ fs p) eqn:E; cbn [negb].
  - destruct p as [|c p'].
    + cbn [unique_path_loop with_name bind]. discriminate.
    + assert (Hp : c :: p' <> []) by discriminate.
      pose proof (unique_path_loop_spec fs (c :: p') (S (length fs)) 2 Hp) as H.
      intros Hq. rewrite Hq in H. destruct H as (j & _ & -> & _).
      split; [apply candidate_parent|apply candidate_suffix].
  - intros Hq. injection Hq as <-. now split.
Qed.

Lemma unique_path_keeps_folder_and_extension_witness :
  parent (path "/d/x__2.mp4") = parent (path "/d/x.mp4")
  /\ (suffix (path "/d/x.mp4") <> [] -> suffix (path "/d/x__2.mp4") = suffix (path "/d/x.mp4")).
Proof.
  apply (unique_path_keeps_folder_and_extension taken (path "/d/x.mp4") (path "/d/x__2.mp4")).
  vm_compute. reflexivity.
Defined.

(** ** More about the rename planner *)

Lemma is_file_exists (fs : FS) (p : Path) : is_file fs p = true -> exists_ fs p = true.
Proof. unfold is_file, exists_. now destruct (stat fs p) as [[? []]|]. Qed.

Lemma lookup_file (fs : FS) (p : Path) (d : pystr) :
  lookup fs p = Some (File d) ->
  stat fs p = Some (p, File d).
Proof. unfold stat. intros H. destruct (length fs); cbn [resolve]; now rewrite H. Qed.

Lemma lookup_dir (fs : FS) (p : Path) :
  lookup fs p = Some Dir -> stat fs p = Some (p, Dir).
Proof. unfold stat. intros H. destruct (length fs); cbn [resolve]; now rewrite H. Qed.

Lemma lookup_none (fs : FS) (p : Path) : lookup fs p = None -> stat fs p = None.
Proof. unfold stat. intros H. destruct (length fs); cbn [resolve]; now rewrite H. Qed.

Lemma find_entry_In_pair (fs : FS) (p : Path) (n : Node) :
  find_entry fs p = Some n -> In (p, n) fs.
Proof.
  induction fs as [|[q m] r IH]; cbn [find_entry]; [discriminate|].
  destruct (path_eqb q p) eqn:E.
  - apply path_eqb_eq in E. intros H. injection H as <-. subst q. now left.
  - intros H. right. now apply IH.
Qed.

(** Without links to directories, a directory is found at its own path. *)
Lemma real_dir (fs : FS) (p d : Path) :
  no_linked_dirs fs = true -> stat fs p = Some (d, Dir) -> d = p.
Proof.
  intros Hfs Hs.
  destruct (lookup fs p) as [[x| |t]|] eqn:E.
  - rewrite (lookup_file fs p x E) in Hs. discriminate.
  - rewrite (lookup_dir fs p E) in Hs. now injection Hs as <-.
  - exfalso. destruct p as [|c p]; [discriminate|]. cbn [lookup] in E.
    apply find_entry_In_pair in E.
    unfold no_linked_dirs in Hfs. rewrite forallb_forall in Hfs.
    specialize (Hfs _ E). cbn [fst snd] in Hfs.
    unfold is_dir in Hfs. rewrite Hs in Hfs. discriminate.
  - rewrite (lookup_none fs p E) in Hs. discriminate.
Qed.

Lemma iterdir_children (fs : FS) (folder : Path) (listing : list Path) :
  no_linked_dirs fs = true -> iterdir fs folder = Ok listing ->
  forall q, In q listing -> parent q = folder.
Proof.
  intros Hfs H q Hq. unfold iterdir in H.
  destruct (stat fs folder) as [[d [x| |t]]|] eqn:Es; try discriminate.
  injection H as <-. apply (real_dir fs folder d Hfs) in Es. subst d.
  apply in_map_iff in Hq as ([k n] & <- & Hin). apply filter_In in Hin as [_ Hin].
  cbn [fst] in *. destruct k; [discriminate|]. now apply path_eqb_eq in Hin.
Qed.

Lemma find_by_stem_file (fs : FS) (folder : Path) (stem_ : pystr) (p : Path) :
  find_by_stem fs folder stem_ = Ok (Some p) -> is_file fs p = true.
Proof.
  unfold find_by_stem, bind. destruct (iterdir fs folder) as [ps| |]; try discriminate.
  intros H. injection H as H. apply find_some in H as [_ H].
  now apply andb_true_iff in H as [H _].
Qed.

(** X7: in an archive where no symbolic link leads to a directory, when
    [find_by_stem] returns a path, that path is listed in the folder, lies
    directly in it, is a regular file, and its stem equals the wanted stem
    up to letter case, as [str.lower] folds it; when it returns nothing, no
    regular file of the folder has such a stem. *)
Theorem find_by_stem_sound (fs : FS) (folder : Path) (stem_ : pystr) (r : option Path) :
  no_linked_dirs fs = true ->
  find_by_stem fs folder stem_ = Ok r ->
  exists listing,
    iterdir fs folder = Ok listing
    /\ match r with
       | Some p => In p listing /\ parent p = folder /\ is_file fs p = true
                   /\ lower (stem p) = lower stem_
       | None => forall p, In p listing -> is_file fs p = true ->
                           lower (stem p) <> lower stem_
       end.
Proof.
  intros Hfs. unfold find_by_stem, bind.
  destruct (iterdir fs folder) as [ps| |] eqn:Ei; try discriminate.
  intros H. injection H as <-. exists ps. split; [reflexivity|].
  destruct (find _ ps) as [p|] eqn:E.
  - apply find_some in E as [Hin Hp]. apply andb_true_iff in Hp as [Hf Hs].
    apply pystr_eqb_eq in Hs. split; [exact Hin|].
    split; [exact (iterdir_children fs folder ps Hfs Ei p Hin)|]. now split.
  - intros p Hin Hf Hs. pose proof (find_none _ _ E p Hin) as Hp. cbv beta in Hp.
    rewrite Hf, Hs, pystr_eqb_refl in Hp. discriminate.
Qed.

Lemma find_by_stem_sound_witness :
  exists listing,
    iterdir odd_names (path "/p/s1") = Ok listing
    /\ In (path "/p/s1/AUDIO.Flac") listing
    /\ parent (path "/p/s1/AUDIO.Flac") = path "/p/s1"
    /\ is_file odd_names (path "/p/s1/AUDIO.Flac") = true
    /\ lower (stem (path "/p/s1/AUDIO.Flac")) = lower (str "audio").
Proof.
  apply (find_by_stem_sound odd_names (path "/p/s1") (str "audio")
           (Some (path "/p/s1/AUDIO.Flac"))).
  - reflexivity.
  - vm_compute. reflexivity.
Defined.

(** The comparison of stems folds letters beyond ASCII: the Kelvin sign
    matches the letter k, and a capital sigma at the end of a word matches
    the final sigma. *)
Example find_by_stem_folds_unicode :
  find_by_stem kelvin_folder (path "/p") (str "k") = Ok (Some kelvin_file)
  /\ lower [913; 931]%N = [945; 962]%N
  /\ lower [931; 913]%N = [963; 945]%N
  /\ lower [304]%N = [105; 775]%N.
Proof. repeat split; vm_compute; reflexivity. Qed.

Lemma locate_exists (fs : FS) (folder : Path) (names : list string) (stem_ : string)
    (a : Path) :
  locate fs folder names stem_ = Ok (Some a) -> exists_ fs a = true.
Proof.
  unfold locate.
  destruct (find (exists_ fs) _) as [c|] eqn:E.
  - intros H. injection H as <-. now apply find_some in E as [_ E].
  - intros H. apply is_file_exists. eapply find_by_stem_file; eassumption.
Qed.

Lemma asset_block_src (fs : FS) (k : string) (sid : pystr) (t : Json) (keep : pystr)
    (D : Path -> Path) (found : option Path) (w : list Warning)
    (r : list RenameOp * list Warning) :
  match found with
  | Some a => ops <- plan_asset fs k sid t keep a (D a) ;; Ok (ops, [])
  | None => Ok ([], w)
  end = Ok r ->
  forall op, In op (fst r) ->
    found = Some (src op) /\ name (src op) <> name (dst op) /\ keep_mode op = keep.
Proof.
  intros H op Hin. destruct found as [a|].
  - rewrite plan_asset_spec in H.
    destruct (negb (pystr_eqb (name a) (name (D a))) && negb (exists_ fs (D a))) eqn:E;
      cbn [bind] in H; injection H as <-; [|contradiction].
    destruct Hin as [<-|[]]. cbn [src dst keep_mode].
    apply andb_true_iff in E as [E _]. apply negb_true_iff in E.
    repeat split; try reflexivity.
    intros Hn. rewrite Hn, pystr_eqb_refl in E. discriminate.
  - injection H as <-. contradiction.
Qed.

Lemma parent_div_plain (folder : Path) (n : pystr) :
  plain_part n = true -> parent (div folder n) = folder.
Proof.
  intros H. rewrite (div_plain_part folder n H). unfold parent.
  apply removelast_last.
Qed.

(** Without links to directories, what [locate] finds lies directly in the
    folder. *)
Lemma locate_in_folder (fs : FS) (folder : Path) (names : list string) (stem_ : string)
    (a : Path) :
  no_linked_dirs fs = true ->
  locate fs folder names stem_ = Ok (Some a) ->
  forallb (fun n => plain_part (str n)) names = true ->
  parent a = folder.
Proof.
  intros Hfs H Hnames. revert H. unfold locate.
  destruct (find (exists_ fs) _) as [c|] eqn:E.
  - intros H. injection H as <-. apply find_some in E as [E _].
    apply in_map_iff in E as (n & <- & Hn).
    rewrite forallb_forall in Hnames. now apply parent_div_plain, Hnames.
  - unfold find_by_stem, bind.
    destruct (iterdir fs folder) as [ps| |] eqn:Ei; try discriminate.
    intros H. injection H as H. apply find_some in H as [Hin _].
    exact (iterdir_children fs folder ps Hfs Ei a Hin).
Qed.

Lemma plan_piece_sources (format_json : Json -> pystr) (fs : FS) (pieces_dir : Path)
    (uc : pystr) (pb : bool) (keep : pystr) (piece : Json)
    (ops : list RenameOp) (ws : list Warning) :
  no_linked_dirs fs = true ->
  plan_piece format_json fs pieces_dir uc pb keep piece = Ok (ops, ws) ->
  forall op, In op ops ->
    exists_ fs (src op) = true /\ name (src op) <> name (dst op) /\ keep_mode op = keep
    /\ (kind op <> str "attachment" -> parent (src op) = div pieces_dir (short_id op)).
Proof.
  unfold plan_piece, bind. intros Hfs H op Hin.
  repeat step_in H.
  - injection H as <- _. contradiction.
  - injection H as <- _. contradiction.
  - injection H as <- _. cbn [fst] in Hin.
    apply in_app_or in Hin as [Hin|Hin]; [|apply in_app_or in Hin as [Hin|Hin]].
    + match goal with
      | Ha : _ = Ok ?r, Hi : In ?o (fst ?r),
        Hl : locate fs _ _ "audio" = Ok ?f |- _ =>
          destruct (asset_block_src fs "audio" _ _ keep _ _ _ r Ha o Hi) as (Hs & Hn & Hk);
          destruct (asset_block_spec fs "audio" _ _ keep _ _ _ r Ha o Hi)
            as (_ & _ & _ & Hsid & _);
          subst f; pose proof (locate_exists _ _ _ _ _ Hl) as Hex;
          pose proof (locate_in_folder _ _ _ _ _ Hfs Hl eq_refl) as Hpar
      end.
      rewrite Hsid. now repeat split.
    + match goal with
      | Ha : _ = Ok ?r, Hi : In ?o (fst ?r),
        Hl : locate fs _ _ "cover" = Ok ?f |- _ =>
          destruct (asset_block_src fs "cover" _ _ keep _ _ _ r Ha o Hi) as (Hs & Hn & Hk);
          destruct (asset_block_spec fs "cover" _ _ keep _ _ _ r Ha o Hi)
            as (_ & _ & _ & Hsid & _);
          subst f; pose proof (locate_exists _ _ _ _ _ Hl) as Hex;
          pose proof (locate_in_folder _ _ _ _ _ Hfs Hl eq_refl) as Hpar
      end.
      rewrite Hsid. now repeat split.
    + match goal with
      | Ha : match ?j with JStr _ => _ | _ => _ end = Ok ?r, Hi : In ?o (fst ?r) |- _ =>
          destruct j as [| | |att| |]; try (injection Ha as <-; contradiction);
          destruct (negb (pystr_eqb (strip att) []));
            try (injection Ha as <-; contradiction);
          match type of Ha with
          | (if exists_ fs ?src_ then _ else _) = _ =>
              destruct (exists_ fs src_) eqn:Esrc; try (injection Ha as <-; contradiction);
              match type of Ha with
              | context [div ?folder (safe_filename_base ?b ?m ?q ++ suffix src_)] =>
                  destruct (asset_block_src fs "attachment" _ _ keep
                              (fun x => div folder (safe_filename_base b m q ++ suffix x))
                              (Some src_) [] r Ha o Hi)
                    as (Hs & Hn & Hk);
                  destruct (asset_block_spec fs "attachment" _ _ keep
                              (fun x => div folder (safe_filename_base b m q ++ suffix x))
                              (Some src_) [] r Ha o Hi)
                    as (_ & _ & Hkind & _)
              end
          end
      end.
      injection Hs as Hs. rewrite Hs in Esrc. repeat split; try assumption.
      intros Hnot. contradiction.
Qed.

(** X8: in an archive where no symbolic link leads to a directory, every
    operation that [build_rename_ops] plans has a source that exists at
    planning time, a destination name different from the source name, and
    the keep mode that was asked for; the source of an audio or cover
    operation lies directly in the folder of its piece. *)
Theorem planned_sources_exist (format_json : Json -> pystr) (fs : FS)
    (pieces : list Json) (pieces_dir : Path) (username : pystr) (pb : bool)
    (keep : pystr) (ops : list RenameOp) (ws : list Warning) :
  no_linked_dirs fs = true ->
  build_rename_ops format_json fs pieces pieces_dir username pb keep = Ok (ops, ws) ->
  forall op, In op ops ->
    exists_ fs (src op) = true /\ name (src op) <> name (dst op) /\ keep_mode op = keep
    /\ (kind op <> str "attachment" -> parent (src op) = div pieces_dir (short_id op)).
Proof.
  intros Hfs. unfold build_rename_ops.
  generalize (safe_filename_base username default_max_len pb) as uc. intros uc.
  revert ops ws. induction pieces as [|piece rest IH]; intros ops ws H op Hin.
  - injection H as <- _. contradiction.
  - cbn [plan_pieces] in H. unfold bind in H.
    destruct (plan_piece format_json fs pieces_dir uc pb keep piece)
      as [[ops1 ws1]| |] eqn:E1; try discriminate.
    destruct (plan_pieces format_json fs pieces_dir uc pb keep rest)
      as [[ops2 ws2]| |] eqn:E2; try discriminate.
    injection H as <- _. cbn [fst] in Hin.
    apply in_app_or in Hin as [Hin|Hin].
    + exact (plan_piece_sources format_json fs pieces_dir uc pb keep piece ops1 ws1
               Hfs E1 op Hin).
    + exact (IH ops2 ws2 eq_refl op Hin).
Qed.

Lemma planned_sources_exist_witness :
  exists_ archive2 (src op_b2) = true
  /\ name (src op_b2) <> name (dst op_b2)
  /\ keep_mode op_b2 = str "none"
  /\ (kind op_b2 <> str "attachment"
      -> parent (src op_b2) = div pieces_dir0 (short_id op_b2)).
Proof.
  apply (planned_sources_exist plain_format archive2 [piece_a; piece_b] pieces_dir0
           (str "jdoe") false (str "none") [op_a1; op_b2]
           [WCoverNotFound (str "a1"); WCoverNotFound (str "b2")]).
  - reflexivity.
  - vm_compute. reflexivity.
  - right. left. reflexivity.
Defined.






(** Short ids that are numbers: a float that rounds to zero counts as false
    and the piece is skipped with a warning, while [NaN] counts as true and
    cannot be joined to the pieces directory. *)
Example planner_on_number_ids :
  build_rename_ops plain_format archive1 [JObj [(str "short_id", JNum (str "1e-400"))]]
    pieces_dir0 (str "jdoe") false (str "none") = Ok ([], [WNoShortId])
  /\ build_rename_ops plain_format archive1 [JObj [(str "short_id", JNum (str "NaN"))]]
       pieces_dir0 (str "jdoe") false (str "none") = Raised TypeError.
Proof. split; vm_compute; reflexivity. Qed.

(** X10: a piece whose entry in the pieces directory is a regular file
    aborts the plan: the entry passes the existence test and the stem search
    then lists it as a directory, which raises [NotADirectoryError] out of
    [build_rename_ops]. *)
Theorem planner_aborts_on_file_for_folder (format_json : Json -> pystr) (fs : FS)
    (fields : list (pystr * Json)) (rest : list Json) (pieces_dir : Path)
    (username : pystr) (pb : bool) (keep : pystr) (sid : pystr) :
  assoc (str "short_id") fields = Some (JStr sid) ->
  sid <> [] ->
  is_file fs (div pieces_dir sid) = true ->
  Forall (fun n => exists_ fs (div (div pieces_dir sid) (str n)) = false)
         ["audio.mp4"; "audio.m4a"; "audio.wav"; "audio.aac"]%string ->
  build_rename_ops format_json fs (JObj fields :: rest) pieces_dir username pb keep
  = Raised NotADirectoryError.
Proof.
  intros Hsid Hne Hfile Hnames.
  unfold build_rename_ops. cbn [plan_pieces]. unfold plan_piece at 1.
  cbn [json_get bind]. rewrite Hsid.
  assert (Ht : json_truthy (JStr sid) = true) by (destruct sid; [contradiction|reflexivity]).
  rewrite Ht, (is_file_exists fs _ Hfile). cbn [negb].
  unfold locate at 1. cbn [map find].
  inversion Hnames as [|? ? H1 Hn1]; subst. inversion Hn1 as [|? ? H2 Hn2]; subst.
  inversion Hn2 as [|? ? H3 Hn3]; subst. inversion Hn3 as [|? ? H4 _]; subst.
  rewrite H1, H2, H3, H4.
  unfold find_by_stem, iterdir. unfold is_file in Hfile.
  destruct (stat fs (div pieces_dir sid)) as [[d [data| |]]|]; try discriminate.
  reflexivity.
Qed.

Lemma planner_aborts_on_file_for_folder_witness :
  build_rename_ops plain_format file_for_folder [piece_s1] (path "/p") (str "jdoe") false
    (str "none")
  = Raised NotADirectoryError.
Proof.
  apply (planner_aborts_on_file_for_folder plain_format file_for_folder
           [ (str "short_id", JStr (str "s1")); (str "title", JStr (str "T")) ] []
           (path "/p") (str "jdoe") false (str "none") (str "s1")).
  - reflexivity.
  - discriminate.
  - vm_compute. reflexivity.
  - repeat constructor.
Defined.

(** ** More about the executor *)

Lemma mkdir_parents_existing (fs : FS) (rest : list pystr) :
  forall done,
    (forall k, 1 <= k <= length rest -> is_dir fs (done ++ firstn k rest) = true) ->
    mkdir_parents fs done rest = Ok fs.
Proof.
  induction rest as [|c r IH]; intros done H; cbn [mkdir_parents]; [reflexivity|].
  assert (H1 : is_dir fs (done ++ [c]) = true).
  { apply (H 1). cbn [length]. lia. }
  rewrite H1. apply IH. intros k Hk.
  rewrite <- app_assoc. cbn [app]. apply (H (S k)). cbn [length]. lia.
Qed.

(** X11: a dry run whose journal directory already exists changes nothing in
    the file system and ends normally, whatever the plan. *)
Theorem dry_run_leaves_file_system (pf : Platform) (jd : Json -> pystr)
    (ops : list RenameOp) (log_path : Path) (fs : FS) :
  dirs_exist fs (parent log_path) ->
  apply_rename_ops pf jd ops log_path true fs = (fs, Ok tt).
Proof.
  intros H. unfold apply_rename_ops, mkdir.
  rewrite (mkdir_parents_existing fs (parent log_path) [] H).
  now destruct ops.
Qed.

Lemma dry_run_leaves_file_system_witness :
  apply_rename_ops permissive no_dumps [op_audio1] log_in_dump true archive1
  = (archive1, Ok tt).
Proof.
  apply (dry_run_leaves_file_system permissive no_dumps [op_audio1] log_in_dump archive1).
  intros k Hk. change (length (parent log_in_dump)) with 1 in Hk.
  assert (k = 1) as -> by lia. vm_compute. reflexivity.
Defined.

Lemma apply_loop_all_taken (pf : Platform) (jd : Json -> pystr) (f : Path)
    (ops : list RenameOp) (fs : FS) :
  Forall (fun op => exists_ fs (dst op) = true) ops ->
  apply_loop pf jd f ops fs = (fs, Ok tt).
Proof.
  induction 1 as [|op rest Hop _ IH]; cbn [apply_loop]; [reflexivity|].
  now rewrite Hop.
Qed.

(** X12: once the journal is open, apply mode ends without an exception
    exactly when the destination of every operation already exists (a link
    that leads nowhere does not count as existing); every operation is then
    skipped and the file system is left as it was after the journal was
    opened. *)
Theorem apply_mode_normal_end (pf : Platform) (jd : Json -> pystr)
    (ops : list RenameOp) (log_path f : Path) (fs fs1 fs2 : FS) :
  ops <> [] ->
  mkdir fs (parent log_path) = Ok fs1 ->
  open_append fs1 log_path = Ok (fs2, f) ->
  (snd (apply_rename_ops pf jd ops log_path false fs) = Ok tt
   <-> Forall (fun op => exists_ fs2 (dst op) = true) ops)
  /\ (Forall (fun op => exists_ fs2 (dst op) = true) ops ->
      apply_rename_ops pf jd ops log_path false fs = (fs2, Ok tt)).
Proof.
  intros Hne Hmk Hopen. unfold apply_rename_ops. rewrite Hmk.
  destruct ops as [|op rest]; [contradiction|]. rewrite Hopen.
  split; [split|].
  - intros H. destruct (apply_loop pf jd f (op :: rest) fs2) as [fs' r] eqn:E.
    cbn [snd] in H. subst r. now apply apply_loop_normal_end in E as [_ E].
  - intros H. now rewrite (apply_loop_all_taken pf jd f (op :: rest) fs2 H).
  - intros H. exact (apply_loop_all_taken pf jd f (op :: rest) fs2 H).
Qed.

Lemma apply_mode_normal_end_witness :
  (snd (apply_rename_ops permissive no_dumps [op_onto_taken] (path "/log.jsonl") false taken)
   = Ok tt
   <-> Forall (fun op => exists_ (taken ++ [(path "/log.jsonl", File [])]) (dst op) = true)
              [op_onto_taken])
  /\ (Forall (fun op => exists_ (taken ++ [(path "/log.jsonl", File [])]) (dst op) = true)
             [op_onto_taken] ->
      apply_rename_ops permissive no_dumps [op_onto_taken] (path "/log.jsonl") false taken
      = (taken ++ [(path "/log.jsonl", File [])], Ok tt)).
Proof.
  apply (apply_mode_normal_end permissive no_dumps [op_onto_taken] (path "/log.jsonl")
           (path "/log.jsonl") taken taken (taken ++ [(path "/log.jsonl", File [])])).
  - discriminate.
  - vm_compute. reflexivity.
  - vm_compute. reflexivity.
Defined.

(** ** More about the undo engine *)

Lemma undo_entry_dry (pf : Platform) (e : Json) (fs : FS) :
  fst (undo_entry pf true e fs) = fs.
Proof.
  unfold undo_entry.
  destruct (entry_path e "src") as [s| |]; try reflexivity.
  destruct (entry_path e "dst") as [d| |]; try reflexivity.
  destruct (negb (exists_ fs d)); [reflexivity|].
  cbn [fst]. destruct (exists_ fs s || is_symlink fs s); [|reflexivity].
  now destruct (is_dir fs s).
Qed.

Lemma undo_loop_dry (pf : Platform) (entries : list Json) (fs : FS) :
  fst (undo_loop pf true entries fs) = fs.
Proof.
  induction entries as [|e rest IH]; cbn [undo_loop]; [reflexivity|].
  pose proof (undo_entry_dry pf e fs) as H.
  destruct (undo_entry pf true e fs) as [fs' [[]|x|]]; cbn [fst] in *; subst;
    try reflexivity.
  apply IH.
Qed.

Lemma legacy_undo_loop_dry (pf : Platform) (entries : list Json) (fs : FS) :
  fst (Legacy.undo_loop pf true entries fs) = fs.
Proof.
  induction entries as [|e rest IH]; cbn [Legacy.undo_loop]; [reflexivity|].
  assert (H : fst (Legacy.undo_entry pf true e fs) = fs).
  { unfold Legacy.undo_entry, step.
    destruct (entry_path e "src") as [s| |]; try reflexivity.
    destruct (entry_path e "dst") as [d| |]; try reflexivity.
    destruct (json_get e (str "keep_compat")) as [kc| |]; try reflexivity.
    rewrite andb_false_r. now destruct (json_truthy kc). }
  destruct (Legacy.undo_entry pf true e fs) as [fs' [[]|x|]]; cbn [fst] in *; subst;
    try reflexivity.
  apply IH.
Qed.

(** X13: an undo dry run never changes the file system, whatever the journal
    holds; this is so for [undo_rename_from_log] and for [undo_from_log] of
    the stand-alone script. *)
Theorem undo_dry_run_leaves_file_system (pf : Platform) (jl : pystr -> Outcome Json)
    (log_path : Path) (fs : FS) :
  fst (undo_rename_from_log pf jl log_path true fs) = fs
  /\ fst (Legacy.undo_from_log pf jl log_path true fs) = fs.
Proof.
  unfold undo_rename_from_log, Legacy.undo_from_log.
  destruct (negb (exists_ fs log_path)); [now split|].
  destruct (read fs log_path) as [text|]; [|now split].
  destruct (read_entries jl (split_lines text [])) as [|e es] eqn:E; [now split|].
  split; [apply undo_loop_dry|apply legacy_undo_loop_dry].
Qed.




(** The run of the witness puts the file back and leaves the journal. *)
Example undo_mixed_journal_restores :
  undo_rename_from_log permissive (reads_only (str "{record}") entry_audio_new)
    (path "/log.jsonl") false
    (renamed_with_copy ++ [(path "/log.jsonl", File mixed_journal)])
  = ([ (path "/d", Dir);
       (path "/d/audio.mp4", File (str "BYTES"));
       (path "/d/other.txt", File (str "X"));
       (path "/log.jsonl", File mixed_journal) ], Ok tt).
Proof. vm_compute. reflexivity. Qed.

(** ** Paths through the journal *)

Lemma split_slash_joined (p : Path) (cur : pystr) :
  forallb plain_part p = true ->
  split_slash (concat (map (fun c => slash :: c) p)) cur = rev cur :: p.
Proof.
  revert cur. induction p as [|c p IH]; intros cur H; [reflexivity|].
  cbn [forallb] in H. apply andb_true_iff in H as [Hc Hp].
  unfold plain_part in Hc. apply andb_true_iff in Hc as [_ Hc].
  cbn [map concat app split_slash]. rewrite N.eqb_refl.
  rewrite (split_slash_part c _ [] Hc), app_nil_r, (IH (rev c) Hp), rev_involutive.
  reflexivity.
Qed.

Lemma filter_plain (p : Path) : forallb plain_part p = true -> filter keep_part p = p.
Proof.
  induction p as [|c p IH]; [reflexivity|]. cbn [forallb filter]. intros H.
  apply andb_true_iff in H as [Hc Hp].
  unfold plain_part in Hc. apply andb_true_iff in Hc as [Hc _].
  now rewrite Hc, (IH Hp).
Qed.

(** Writing a path as text and reading the text back gives the path. *)
Lemma Path_of_str_of (p : Path) : plain_path p = true -> Path_of (str_of p) = p.
Proof.
  unfold plain_path, Path_of, parts_of, str_of. intros H.
  destruct p as [|c p]; [reflexivity|].
  rewrite (split_slash_joined (c :: p) [] H).
  change (filter keep_part (rev [] :: c :: p)) with (filter keep_part (c :: p)).
  now apply filter_plain.
Qed.

(** X15: the journal record of an operation gives back the paths of the
    operation: what [to_json] writes under [src] and [dst] is read back by
    the undo engine as the same two paths (for paths whose components are
    not empty, not a single dot and free of slashes); likewise for the
    record of the stand-alone script. *)
Theorem journal_record_keeps_paths (op : RenameOp) (lop : Legacy.RenameOp) :
  plain_path (src op) = true ->
  plain_path (dst op) = true ->
  plain_path (Legacy.src lop) = true ->
  plain_path (Legacy.dst lop) = true ->
  entry_path (to_json op) "src" = Ok (src op)
  /\ entry_path (to_json op) "dst" = Ok (dst op)
  /\ entry_path (Legacy.to_json lop) "src" = Ok (Legacy.src lop)
  /\ entry_path (Legacy.to_json lop) "dst" = Ok (Legacy.dst lop).
Proof.
  intros H1 H2 H3 H4. unfold entry_path.
  change (json_index (to_json op) (str "src")) with (Ok (JStr (str_of (src op)))).
  change (json_index (to_json op) (str "dst")) with (Ok (JStr (str_of (dst op)))).
  change (json_index (Legacy.to_json lop) (str "src"))
    with (Ok (JStr (str_of (Legacy.src lop)))).
  change (json_index (Legacy.to_json lop) (str "dst"))
    with (Ok (JStr (str_of (Legacy.dst lop)))).
  cbn [bind].
  now rewrite (Path_of_str_of _ H1), (Path_of_str_of _ H2),
              (Path_of_str_of _ H3), (Path_of_str_of _ H4).
Qed.

Lemma journal_record_keeps_paths_witness :
  entry_path (to_json op_audio1) "src" = Ok (src op_audio1)
  /\ entry_path (to_json op_audio1) "dst" = Ok (dst op_audio1)
  /\ entry_path (Legacy.to_json legacy_op1) "src" = Ok (Legacy.src legacy_op1)
  /\ entry_path (Legacy.to_json legacy_op1) "dst" = Ok (Legacy.dst legacy_op1).
Proof.
  apply (journal_record_keeps_paths op_audio1 legacy_op1); vm_compute; reflexivity.
Defined.

(** ** Moving an entry and moving it back *)

Lemma dangling_end_free (fuel : nat) (fs : FS) (p : Path) :
  lookup fs p = None -> dangling_end fuel fs p = Some p.
Proof. intros H. destruct fuel; cbn [dangling_end]; now rewrite H. Qed.

Lemma open_append_free (fs : FS) (p : Path) :
  lookup fs p = None -> is_dir fs (parent p) = true ->
  open_append fs p = Ok (fs ++ [(p, File [])], p).
Proof.
  intros Hp Hd. unfold open_append.
  rewrite (lookup_none fs p Hp), (dangling_end_free _ fs p Hp).
  destruct p as [|c t]; [discriminate|]. now rewrite Hd.
Qed.

Lemma find_entry_app (fs l : FS) (p : Path) :
  find_entry (fs ++ l) p
  = match find_entry fs p with Some n => Some n | None => find_entry l p end.
Proof.
  induction fs as [|[q n] r IH]; cbn [app find_entry]; [reflexivity|].
  now destruct (path_eqb q p).
Qed.

Lemma find_entry_None (fs : FS) (p : Path) :
  find_entry fs p = None <-> ~ In p (map fst fs).
Proof.
  induction fs as [|[q n] r IH]; cbn [find_entry map fst In]; [tauto|].
  destruct (path_eqb q p) eqn:E.
  - apply path_eqb_eq in E. split; [discriminate|]. intros H. exfalso. apply H. now left.
  - rewrite IH. split; [|tauto]. intros H [Hq|Hr]; [|tauto].
    subst. rewrite path_eqb_refl in E. discriminate.
Qed.

Lemma rebase_Some (a b q q' : Path) :
  rebase a b q = Some q' <-> exists r, q = a ++ r /\ q' = b ++ r.
Proof.
  revert q. induction a as [|x a IH]; intros q; cbn [rebase].
  - split.
    + intros H. injection H as <-. now exists q.
    + intros (r & -> & ->). reflexivity.
  - destruct q as [|y q].
    + split; [discriminate|]. intros (r & H & _). discriminate.
    + destruct (pystr_eqb x y) eqn:E.
      * apply pystr_eqb_eq in E. subst y. rewrite IH. split.
        -- intros (r & -> & ->). now exists r.
        -- intros (r & H & ->). injection H as ->. now exists r.
      * split; [discriminate|]. intros (r & H & _). injection H as -> _.
        rewrite pystr_eqb_refl in E. discriminate.
Qed.

Lemma is_below_iff (a q : Path) : is_below a q = true <-> exists r, q = a ++ r.
Proof.
  unfold is_below. destruct (rebase a [] q) as [q'|] eqn:E.
  - apply rebase_Some in E as (r & -> & _). split; [|reflexivity]. now exists r.
  - split; [discriminate|]. intros (r & ->).
    assert (H : rebase a [] (a ++ r) = Some ([] ++ r)) by (apply rebase_Some; now exists r).
    congruence.
Qed.

Lemma rebase_None (a b q : Path) : is_below a q = false -> rebase a b q = None.
Proof.
  intros H. destruct (rebase a b q) as [q'|] eqn:E; [|reflexivity].
  apply rebase_Some in E as (r & -> & _).
  assert (T : is_below a (a ++ r) = true) by (apply is_below_iff; now exists r).
  congruence.
Qed.

Lemma rebase_self (a b : Path) : rebase a b a = Some b.
Proof. apply rebase_Some. exists []. now rewrite !app_nil_r. Qed.

Lemma path_eqb_neq (p q : Path) : path_eqb p q = false <-> p <> q.
Proof.
  split.
  - intros H E. apply path_eqb_eq in E. congruence.
  - intros H. destruct (path_eqb p q) eqn:E; [|reflexivity].
    apply path_eqb_eq in E. contradiction.
Qed.

Ltac path_cases :=
  repeat match goal with
         | |- context [path_eqb ?x ?y] =>
             let E := fresh "E" in
             destruct (path_eqb x y) eqn:E;
             [apply path_eqb_eq in E; try subst|apply path_eqb_neq in E]
         end.

Lemma is_below_refl (a : Path) : is_below a a = true.
Proof. apply is_below_iff. exists []. now rewrite app_nil_r. Qed.

(** On a table in which [a] has nothing below it and nothing lies at or
    below [b], moving [a] to [b] changes the key of the entries of [a] and
    nothing else. *)
Lemma moved_entry (a b : Path) (fs : FS) (e : Path * Node) :
  (forall q, In q (map fst fs) -> is_below a q = true -> q = a) ->
  In e fs ->
  match rebase a b (fst e) with Some q => (q, snd e) | None => e end
  = if path_eqb (fst e) a then (b, snd e) else e.
Proof.
  intros leaf He. assert (Hk : In (fst e) (map fst fs)) by now apply in_map.
  destruct (path_eqb (fst e) a) eqn:E.
  - apply path_eqb_eq in E. rewrite E. now rewrite rebase_self.
  - destruct (is_below a (fst e)) eqn:Eb.
    + apply (leaf _ Hk) in Eb. rewrite Eb, path_eqb_refl in E. discriminate.
    + now rewrite (rebase_None a b _ Eb).
Qed.

Lemma find_entry_moved (a b : Path) (fs : FS) (q : Path) :
  (forall q, In q (map fst fs) -> is_below a q = true -> q = a) ->
  ~ In b (map fst fs) ->
  find_entry (moved a b fs) q
  = if path_eqb q b then find_entry fs a
    else if path_eqb q a then None else find_entry fs q.
Proof.
  induction fs as [|[k n] r IH]; intros leaf Hb.
  - cbn. now destruct (path_eqb q b), (path_eqb q a).
  - assert (IH' := IH (fun q H => leaf q (or_intror H)) (fun H => Hb (or_intror H))).
    assert (Hkb : k <> b) by (intros ->; apply Hb; now left).
    unfold moved in *. cbn [map].
    rewrite (moved_entry a b ((k, n) :: r) (k, n) leaf (or_introl eq_refl)).
    cbn [fst snd].
    destruct (path_eqb k a) eqn:Eka; cbn [find_entry]; rewrite IH'; clear IH IH'.
    + apply path_eqb_eq in Eka. subst k. path_cases; congruence.
    + apply path_eqb_neq in Eka. path_cases; congruence.
Qed.

Lemma moved_back (a b : Path) (fs : FS) :
  (forall q, In q (map fst fs) -> is_below a q = true -> q = a) ->
  (forall q, In q (map fst fs) -> is_below b q = false) ->
  moved b a (moved a b fs) = fs.
Proof.
  intros leaf free. unfold moved. rewrite map_map.
  rewrite <- (map_id fs) at 2. apply map_ext_in. intros e He.
  rewrite (moved_entry a b fs e leaf He).
  assert (Hk : In (fst e) (map fst fs)) by now apply in_map.
  destruct (path_eqb (fst e) a) eqn:E.
  - apply path_eqb_eq in E. cbn [fst snd]. rewrite rebase_self, <- E. now destruct e.
  - now rewrite (rebase_None b a _ (free _ Hk)).
Qed.

Lemma In_find_entry (fs : FS) (q : Path) :
  In q (map fst fs) -> exists n, find_entry fs q = Some n.
Proof.
  intros H. destruct (find_entry fs q) as [n|] eqn:E; [now exists n|].
  now apply find_entry_None in E.
Qed.

(** In a tree, whatever lies above an entry is a directory. *)
Lemma tree_up (fs : FS) (a : Path) :
  tree fs -> forall r, r <> [] -> In (a ++ r) (map fst fs) -> lookup fs a = Some Dir.
Proof.
  intros Ht r. induction r as [|x r' IH] using rev_ind; [contradiction|].
  intros _ Hin. specialize (Ht _ Hin).
  unfold parent in Ht. rewrite app_assoc, removelast_last in Ht.
  destruct r' as [|y r'']; [now rewrite app_nil_r in Ht|].
  apply IH; [discriminate|].
  assert (Hne : a ++ y :: r'' <> []) by now destruct a.
  destruct (a ++ y :: r'') as [|c t] eqn:E; [contradiction|].
  cbn [lookup] in Ht. eapply find_entry_In; eassumption.
Qed.

Lemma leaf_of_file (fs : FS) (a : Path) (d : pystr) :
  tree fs -> lookup fs a = Some (File d) ->
  forall q, In q (map fst fs) -> is_below a q = true -> q = a.
Proof.
  intros Ht Ha q Hq Hb. apply is_below_iff in Hb as (r & ->).
  destruct r as [|x r]; [now rewrite app_nil_r|].
  assert (lookup fs a = Some Dir) by (eapply tree_up; [exact Ht| |exact Hq]; discriminate).
  congruence.
Qed.

Lemma free_below (fs : FS) (b : Path) :
  tree fs -> lookup fs b = None ->
  forall q, In q (map fst fs) -> is_below b q = false.
Proof.
  intros Ht Hb q Hq. destruct (is_below b q) eqn:E; [|reflexivity].
  apply is_below_iff in E as (r & ->).
  destruct r as [|x r].
  - rewrite app_nil_r in Hq. destruct b as [|c b]; [discriminate|].
    cbn [lookup] in Hb. now apply find_entry_None in Hb.
  - assert (lookup fs b = Some Dir) by (eapply tree_up; [exact Ht| |exact Hq]; discriminate).
    congruence.
Qed.

Lemma find_entry_remove (fs : FS) (p q : Path) :
  find_entry (remove_entry fs p) q = if path_eqb q p then None else find_entry fs q.
Proof.
  unfold remove_entry. induction fs as [|[k n] r IH]; cbn [filter find_entry fst].
  - now destruct (path_eqb q p).
  - destruct (path_eqb k p) eqn:Ekp; cbn [negb find_entry]; rewrite IH;
      [apply path_eqb_eq in Ekp; subst|apply path_eqb_neq in Ekp]; path_cases; congruence.
Qed.

Lemma remove_entry_keys (fs : FS) (p q : Path) :
  In q (map fst (remove_entry fs p)) -> In q (map fst fs).
Proof.
  unfold remove_entry. intros H. apply in_map_iff in H as (e & <- & He).
  apply filter_In in He as [He _]. now apply in_map.
Qed.

Lemma remove_entry_absent (fs : FS) (p : Path) :
  ~ In p (map fst fs) -> remove_entry fs p = fs.
Proof.
  unfold remove_entry. induction fs as [|[k n] r IH]; cbn [filter map fst In]; [reflexivity|].
  intros H. destruct (path_eqb k p) eqn:E.
  - apply path_eqb_eq in E. tauto.
  - cbn [negb]. f_equal. apply IH. tauto.
Qed.

Lemma lookup_find_entry (fs : FS) (p : Path) : p <> [] -> lookup fs p = find_entry fs p.
Proof. now destruct p. Qed.

(** [os_rename] of a regular file to a free place in an existing directory. *)
Lemma os_rename_file (fs : FS) (a b : Path) (d : pystr) :
  a <> [] ->
  find_entry fs a = Some (File d) ->
  lookup fs (parent b) = Some Dir ->
  lookup fs b = None ->
  is_below a b = false ->
  os_rename fs a b = Ok (moved a b (remove_entry fs b)).
Proof.
  intros Ha Hf Hp Hb Hab.
  assert (E : path_eqb a b = false).
  { apply path_eqb_neq. intros ->. now rewrite is_below_refl in Hab. }
  unfold os_rename, moved.
  destruct a as [|c a']; [contradiction|]. rewrite Hf.
  unfold is_dir. rewrite (lookup_dir fs _ Hp). cbn [negb]. rewrite Hb.
  now rewrite E, Hab.
Qed.

(** X16: undoing one journal record whose renamed file is still there puts
    the file back under its old name: a regular file left under the old name
    (the compat copy or hard link) is deleted first, the renamed file is
    moved back with its data, the new name is gone, and no other path
    changes. *)
Theorem undo_entry_restores (pf : Platform) (e : Json) (fs : FS) (s d : Path)
    (data : pystr) :
  tree fs ->
  entry_path e "src" = Ok s ->
  entry_path e "dst" = Ok d ->
  lookup fs d = Some (File data) ->
  match lookup fs s with
  | None => True
  | Some (File _) => deletes pf s
  | Some _ => False
  end ->
  lookup fs (parent s) = Some Dir ->
  s <> d ->
  exists fs',
    undo_entry pf false e fs = (fs', Ok tt)
    /\ lookup fs' s = Some (File data)
    /\ lookup fs' d = None
    /\ forall q, q <> s -> q <> d -> lookup fs' q = lookup fs q.
Proof.
  intros Ht Hes Hed Hd Hs Hps Hsd.
  assert (Hd0 : d <> []) by (intros ->; discriminate).
  assert (Hs0 : s <> []) by (intros ->; cbn in Hs; exact Hs).
  pose proof (leaf_of_file fs d data Ht Hd) as Hleaf.
  rewrite (lookup_find_entry fs d Hd0) in Hd.
  set (fs1 := remove_entry fs s).
  assert (H1 : (if exists_ fs s || is_symlink fs s
                then if is_dir fs s then fs else delete_compat pf fs s
                else fs) = fs1).
  { unfold fs1. destruct (lookup fs s) as [[ds| |t]|] eqn:Els; try contradiction.
    - unfold exists_, is_dir, delete_compat, unlink. rewrite (lookup_file fs s ds Els), Els.
      cbn [orb]. destruct Hs as [->|[-> ->]]; reflexivity.
    - unfold exists_, is_symlink. rewrite (lookup_none fs s Els), Els. cbn [orb].
      symmetry. apply remove_entry_absent. apply find_entry_None.
      now rewrite <- (lookup_find_entry fs s Hs0). }
  assert (Hk1 : forall q, In q (map fst fs1) -> In q (map fst fs))
    by (intros q; apply remove_entry_keys).
  assert (Hleaf1 : forall q, In q (map fst fs1) -> is_below d q = true -> q = d)
    by (intros q Hq; apply Hleaf; auto).
  assert (Hs1 : find_entry fs1 s = None)
    by (unfold fs1; rewrite find_entry_remove; now rewrite path_eqb_refl).
  assert (Hs1' : ~ In s (map fst fs1)) by now apply find_entry_None.
  assert (Hd1 : find_entry fs1 d = Some (File data)).
  { unfold fs1. rewrite find_entry_remove.
    assert (E : path_eqb d s = false) by (apply path_eqb_neq; congruence).
    now rewrite E. }
  assert (Hps1 : lookup fs1 (parent s) = Some Dir).
  { destruct (parent s) as [|c t] eqn:Ep; [reflexivity|].
    cbn [lookup] in *. unfold fs1. rewrite find_entry_remove.
    destruct (path_eqb (c :: t) s) eqn:E; [|exact Hps].
    apply path_eqb_eq in E. rewrite <- E in Hs.
    cbn [lookup] in Hs. rewrite Hps in Hs. contradiction. }
  assert (Hds : is_below d s = false).
  { destruct (is_below d s) eqn:E; [|reflexivity].
    apply is_below_iff in E as (r & Er).
    destruct r as [|x r] using rev_ind; [rewrite app_nil_r in Er; congruence|].
    clear IHr. subst s. unfold parent in Hps. rewrite app_assoc, removelast_last in Hps.
    destruct r as [|y r'].
    - rewrite app_nil_r in Hps. rewrite (lookup_find_entry fs d Hd0) in Hps. congruence.
    - assert (Hne : d ++ y :: r' <> []) by now destruct d.
      rewrite (lookup_find_entry fs _ Hne) in Hps. apply find_entry_In in Hps.
      assert (Hb : is_below d (d ++ y :: r') = true) by (apply is_below_iff; eauto).
      apply (Hleaf _ Hps) in Hb.
      rewrite <- (app_nil_r d) in Hb at 2. apply app_inv_head in Hb. discriminate. }
  exists (moved d s fs1). split; [|split; [|split]].
  - unfold undo_entry. rewrite Hes, Hed.
    unfold exists_ at 1. rewrite (lookup_file fs d data); [|now rewrite lookup_find_entry].
    cbn [negb]. rewrite H1. unfold attempt.
    rewrite (os_rename_file fs1 d s data Hd0 Hd1 Hps1); try assumption.
    + now rewrite (remove_entry_absent fs1 s Hs1').
    + now rewrite lookup_find_entry.
  - rewrite (lookup_find_entry _ s Hs0), (find_entry_moved d s fs1 s Hleaf1 Hs1').
    now rewrite path_eqb_refl.
  - rewrite (lookup_find_entry _ d Hd0), (find_entry_moved d s fs1 d Hleaf1 Hs1').
    assert (E : path_eqb d s = false) by (apply path_eqb_neq; congruence).
    now rewrite E, path_eqb_refl.
  - intros q Hqs Hqd. destruct q as [|c t]; [reflexivity|]. cbn [lookup].
    rewrite (find_entry_moved d s fs1 (c :: t) Hleaf1 Hs1').
    apply path_eqb_neq in Hqs, Hqd. rewrite Hqs, Hqd.
    unfold fs1. rewrite find_entry_remove. now rewrite Hqs.
Qed.

Lemma undo_entry_restores_witness :
  exists fs',
    undo_entry permissive false entry_audio_new renamed_with_copy = (fs', Ok tt)
    /\ lookup fs' (path "/d/audio.mp4") = Some (File (str "BYTES"))
    /\ lookup fs' (path "/d/new.mp4") = None
    /\ forall q, q <> path "/d/audio.mp4" -> q <> path "/d/new.mp4" ->
                 lookup fs' q = lookup renamed_with_copy q.
Proof.
  apply (undo_entry_restores permissive entry_audio_new renamed_with_copy
           (path "/d/audio.mp4") (path "/d/new.mp4") (str "BYTES")).
  - intros q Hq. cbn in Hq.
    repeat (destruct Hq as [<-|Hq]; [vm_compute; reflexivity|]). contradiction.
  - vm_compute. reflexivity.
  - vm_compute. reflexivity.
  - vm_compute. reflexivity.
  - vm_compute. left. reflexivity.
  - vm_compute. reflexivity.
  - vm_compute. discriminate.
Defined.

(** ** Apply and undo in the stand-alone script *)

Lemma tree_dirs_exist (fs : FS) (p : Path) :
  tree fs -> lookup fs p = Some Dir -> dirs_exist fs p.
Proof.
  intros Ht Hp k Hk. unfold is_dir.
  assert (E : p = firstn k p ++ skipn k p) by (symmetry; apply firstn_skipn).
  destruct (skipn k p) as [|x r] eqn:Es.
  - rewrite app_nil_r in E. rewrite <- E. now rewrite (lookup_dir fs p Hp).
  - assert (Hne : p <> []) by (intros ->; cbn in Hk; lia).
    rewrite (lookup_find_entry fs p Hne) in Hp. apply find_entry_In in Hp.
    rewrite E in Hp.
    rewrite (lookup_dir fs (firstn k p)); [reflexivity|].
    eapply tree_up; [exact Ht| |exact Hp]. discriminate.
Qed.

Lemma not_below_file (fs : FS) (a b : Path) (d : pystr) :
  tree fs -> lookup fs a = Some (File d) -> lookup fs (parent b) = Some Dir ->
  a <> b -> is_below a b = false.
Proof.
  intros Ht Ha Hp Hab. destruct (is_below a b) eqn:E; [|reflexivity].
  apply is_below_iff in E as (r & Er).
  destruct r as [|x r _] using rev_ind; [rewrite app_nil_r in Er; congruence|].
  subst b. unfold parent in Hp. rewrite app_assoc, removelast_last in Hp.
  destruct r as [|y r'].
  - rewrite app_nil_r in Hp. congruence.
  - assert (Hne : a ++ y :: r' <> []) by now destruct a.
    rewrite (lookup_find_entry fs _ Hne) in Hp. apply find_entry_In in Hp.
    assert (Hb : is_below a (a ++ y :: r') = true) by (apply is_below_iff; eauto).
    apply (leaf_of_file fs a d Ht Ha _ Hp) in Hb.
    rewrite <- (app_nil_r a) in Hb at 2. apply app_inv_head in Hb. discriminate.
Qed.

Lemma not_below_free (fs : FS) (b q : Path) :
  tree fs -> lookup fs b = None -> lookup fs (parent q) = Some Dir ->
  q <> b -> is_below b q = false.
Proof.
  intros Ht Hb Hp Hqb. destruct (is_below b q) eqn:E; [|reflexivity].
  apply is_below_iff in E as (r & Er).
  destruct r as [|x r _] using rev_ind; [rewrite app_nil_r in Er; congruence|].
  subst q. unfold parent in Hp. rewrite app_assoc, removelast_last in Hp.
  destruct r as [|y r'].
  - rewrite app_nil_r in Hp. congruence.
  - assert (Hne : b ++ y :: r' <> []) by now destruct b.
    rewrite (lookup_find_entry fs _ Hne) in Hp. apply find_entry_In in Hp.
    assert (Hbelow : is_below b (b ++ y :: r') = true) by (apply is_below_iff; eauto).
    rewrite (free_below fs b Ht Hb _ Hp) in Hbelow. discriminate.
Qed.

Lemma split_lines_one (l cur : pystr) :
  Forall (fun c => c <> 10%N /\ c <> 13%N) l ->
  split_lines (l ++ [newline]) cur = [rev cur ++ l].
Proof.
  intros H. revert cur. induction H as [|c t [H10 H13] _ IH]; intros cur.
  - cbn. now rewrite app_nil_r.
  - cbn [app split_lines].
    apply N.eqb_neq in H10, H13. rewrite H10, H13. cbn [orb].
    rewrite IH. cbn [rev]. now rewrite <- app_assoc.
Qed.

Lemma set_data_absent (fs : FS) (p : Path) (d : pystr) :
  find_entry fs p = None -> set_data fs p d = fs.
Proof.
  unfold set_data. induction fs as [|[k n] r IH]; cbn [map find_entry fst]; [reflexivity|].
  destruct (path_eqb k p); [discriminate|]. intros H. now rewrite (IH H).
Qed.

Lemma moved_single (a b q : Path) (n : Node) :
  is_below a q = false -> moved a b [(q, n)] = [(q, n)].
Proof. intros H. unfold moved. cbn [map fst]. now rewrite (rebase_None a b q H). Qed.

(** X17: in the stand-alone script, applying one operation without compat
    link and then undoing from the journal restores the file system: after
    the apply run the file is at its new path and the old path is free, and
    after the undo run the file system is the original one plus the journal
    file with its one line.  The file system is a tree, the source is a
    regular file, the destination and the journal are free places in
    existing directories, and the JSON codec reads back what it wrote on one
    line. *)
Theorem legacy_apply_then_undo (pf : Platform) (jd : Json -> pystr)
    (jl : pystr -> Outcome Json) (op : Legacy.RenameOp) (log_path : Path) (fs : FS)
    (data : pystr) :
  tree fs ->
  Legacy.keep_compat op = false ->
  lookup fs (Legacy.src op) = Some (File data) ->
  lookup fs (Legacy.dst op) = None ->
  lookup fs (parent (Legacy.dst op)) = Some Dir ->
  lookup fs log_path = None ->
  lookup fs (parent log_path) = Some Dir ->
  log_path <> Legacy.dst op ->
  plain_path (Legacy.src op) = true ->
  plain_path (Legacy.dst op) = true ->
  Forall (fun c => c <> 10%N /\ c <> 13%N) (jd (Legacy.to_json op)) ->
  strip (jd (Legacy.to_json op)) <> [] ->
  jl (strip (jd (Legacy.to_json op))) = Ok (Legacy.to_json op) ->
  let applied := Legacy.apply_ops pf jd [op] log_path false fs in
  snd applied = Ok tt
  /\ lookup (fst applied) (Legacy.dst op) = Some (File data)
  /\ lookup (fst applied) (Legacy.src op) = None
  /\ Legacy.undo_from_log pf jl log_path false (fst applied)
     = (fs ++ [(log_path, File (jd (Legacy.to_json op) ++ [newline]))], Ok tt).
Proof.
  intros Ht Hkc Hsrc Hdst Hpd Hlog Hpl Hld Hps Hpdst Hnl Hne Hjl.
  set (s := Legacy.src op) in *. set (d := Legacy.dst op) in *.
  set (line := jd (Legacy.to_json op)) in *.
  assert (Hs0 : s <> []) by (intros E; rewrite E in Hsrc; discriminate).
  assert (Hd0 : d <> []) by (intros E; rewrite E in Hdst; discriminate).
  assert (Hl0 : log_path <> []) by (intros E; rewrite E in Hlog; discriminate).
  assert (Hsd : s <> d) by congruence.
  assert (Hsl : s <> log_path) by congruence.
  pose proof (leaf_of_file fs s data Ht Hsrc) as Hleaf.
  pose proof (free_below fs d Ht Hdst) as Hfree.
  assert (Hd_key : ~ In d (map fst fs)).
  { apply find_entry_None. now rewrite <- (lookup_find_entry fs d Hd0). }
  assert (Hl_key : find_entry fs log_path = None)
    by now rewrite <- (lookup_find_entry fs log_path Hl0).
  assert (Hbsd : is_below s d = false) by (eapply not_below_file; eassumption).
  assert (Hbsl : is_below s log_path = false) by (eapply not_below_file; eassumption).
  assert (Hbdl : is_below d log_path = false) by (eapply not_below_free; eassumption).
  assert (Hbds : is_below d s = false).
  { apply Hfree. rewrite (lookup_find_entry fs s Hs0) in Hsrc.
    eapply find_entry_In; eassumption. }
  assert (Hpsrc : lookup fs (parent s) = Some Dir).
  { apply Ht. rewrite (lookup_find_entry fs s Hs0) in Hsrc.
    eapply find_entry_In; eassumption. }
  assert (Els : path_eqb log_path s = false) by (apply path_eqb_neq; congruence).
  assert (Eld : path_eqb log_path d = false) by (apply path_eqb_neq; congruence).
  assert (Esd : path_eqb s d = false) by (apply path_eqb_neq; congruence).
  assert (Eds : path_eqb d s = false) by (apply path_eqb_neq; congruence).
  (* the apply run *)
  set (fs2 := fs ++ [(log_path, File [])]).
  assert (Hopen : open_append fs log_path = Ok (fs2, log_path)).
  { apply open_append_free; [exact Hlog|].
    unfold is_dir. now rewrite (lookup_dir fs _ Hpl). }
  assert (H2s : find_entry fs2 s = Some (File data)).
  { unfold fs2. rewrite find_entry_app, <- (lookup_find_entry fs s Hs0), Hsrc. reflexivity. }
  assert (H2d : lookup fs2 d = None).
  { rewrite (lookup_find_entry fs2 d Hd0). unfold fs2.
    rewrite find_entry_app, <- (lookup_find_entry fs d Hd0), Hdst.
    cbn [find_entry]. now rewrite Eld. }
  assert (H2pd : lookup fs2 (parent d) = Some Dir).
  { destruct (parent d) as [|c t] eqn:E; [reflexivity|]. cbn [lookup] in *.
    unfold fs2. now rewrite find_entry_app, Hpd. }
  assert (H2dk : ~ In d (map fst fs2)).
  { apply find_entry_None. now rewrite <- (lookup_find_entry fs2 d Hd0). }
  set (fs3 := moved s d fs ++ [(log_path, File [])]).
  assert (Hren : os_rename fs2 s d = Ok fs3).
  { rewrite (os_rename_file fs2 s d data Hs0 H2s H2pd H2d Hbsd).
    rewrite (remove_entry_absent fs2 d H2dk). unfold fs2, fs3, moved.
    rewrite map_app. fold (moved s d fs). fold (moved s d [(log_path, File [])]).
    now rewrite (moved_single s d log_path _ Hbsl). }
  assert (Hm_log : find_entry (moved s d fs) log_path = None).
  { rewrite (find_entry_moved s d fs log_path Hleaf Hd_key). now rewrite Eld, Els. }
  set (line' := line ++ [newline]).
  set (fs4 := moved s d fs ++ [(log_path, File line')]).
  assert (Happ : append fs3 log_path line' = fs4).
  { unfold append, fs3. rewrite find_entry_app, Hm_log. cbn [find_entry].
    rewrite path_eqb_refl. unfold set_data. rewrite map_app.
    fold (set_data (moved s d fs) log_path ([] ++ line')).
    rewrite (set_data_absent _ _ _ Hm_log). cbn [map fst]. now rewrite path_eqb_refl. }
  assert (Hfst : Legacy.apply_ops pf jd [op] log_path false fs = (fs4, Ok tt)).
  { unfold Legacy.apply_ops, mkdir.
    rewrite (mkdir_parents_existing fs (parent log_path) []
               (tree_dirs_exist fs _ Ht Hpl)).
    rewrite Hopen. cbn [Legacy.apply_loop]. fold s d.
    unfold exists_ at 1. rewrite (lookup_none fs2 d H2d).
    rewrite Hren, Hkc. fold line line'. now rewrite Happ. }
  assert (H4d : find_entry fs4 d = Some (File data)).
  { unfold fs4. rewrite find_entry_app, (find_entry_moved s d fs d Hleaf Hd_key).
    now rewrite path_eqb_refl, <- (lookup_find_entry fs s Hs0), Hsrc. }
  assert (H4s : find_entry fs4 s = None).
  { unfold fs4. rewrite find_entry_app, (find_entry_moved s d fs s Hleaf Hd_key).
    rewrite Esd, path_eqb_refl. cbn [find_entry]. now rewrite Els. }
  assert (H4l : lookup fs4 log_path = Some (File line')).
  { rewrite (lookup_find_entry fs4 _ Hl0). unfold fs4.
    rewrite find_entry_app, Hm_log. cbn [find_entry]. now rewrite path_eqb_refl. }
  cbv zeta. rewrite Hfst. cbn [fst snd].
  split; [reflexivity|]. split; [now rewrite lookup_find_entry|].
  split; [now rewrite lookup_find_entry|].
  (* the undo run *)
  unfold Legacy.undo_from_log.
  unfold exists_ at 1, read. rewrite (lookup_file fs4 log_path line' H4l). cbn [negb].
  unfold line'. rewrite (split_lines_one line [] Hnl). cbn [rev app read_entries].
  destruct (strip line) as [|c t] eqn:Est; [contradiction|].
  rewrite Hjl. cbn [rev app Legacy.undo_loop].
  unfold Legacy.undo_entry, entry_path.
  change (json_index (Legacy.to_json op) (str "src")) with (Ok (JStr (str_of s))).
  change (json_index (Legacy.to_json op) (str "dst")) with (Ok (JStr (str_of d))).
  change (json_get (Legacy.to_json op) (str "keep_compat"))
    with (Ok (JBool (Legacy.keep_compat op))).
  cbn [bind step]. rewrite (Path_of_str_of s Hps), (Path_of_str_of d Hpdst), Hkc.
  cbn [step json_truthy].
  assert (Hex_d : exists_ fs4 d = true).
  { unfold exists_. rewrite (lookup_file fs4 d data); [reflexivity|].
    now rewrite lookup_find_entry. }
  assert (Hex_s : exists_ fs4 s = false).
  { unfold exists_. rewrite (lookup_none fs4 s); [reflexivity|].
    now rewrite lookup_find_entry. }
  fold line'. fold fs4. rewrite Hex_d, Hex_s. cbn [negb andb].
  assert (H4ps : lookup fs4 (parent s) = Some Dir).
  { destruct (parent s) as [|c' t'] eqn:E; [reflexivity|]. cbn [lookup] in *.
    unfold fs4. rewrite find_entry_app, (find_entry_moved s d fs _ Hleaf Hd_key).
    assert (E1 : path_eqb (c' :: t') d = false).
    { apply path_eqb_neq. intros E1. rewrite E1 in Hpsrc.
      rewrite <- (lookup_find_entry fs d Hd0) in Hpsrc. congruence. }
    assert (E2 : path_eqb (c' :: t') s = false).
    { apply path_eqb_neq. intros E2. rewrite E2 in Hpsrc.
      rewrite <- (lookup_find_entry fs s Hs0) in Hpsrc. congruence. }
    now rewrite E1, E2, Hpsrc. }
  assert (H4sk : ~ In s (map fst fs4)) by now apply find_entry_None.
  assert (Hback : os_rename fs4 d s = Ok (fs ++ [(log_path, File line')])).
  { rewrite (os_rename_file fs4 d s data Hd0 H4d H4ps); try assumption.
    - rewrite (remove_entry_absent fs4 s H4sk). unfold fs4, moved.
      rewrite map_app. fold (moved s d fs). fold (moved d s (moved s d fs)).
      fold (moved d s [(log_path, File line')]).
      now rewrite (moved_back s d fs Hleaf Hfree), (moved_single d s log_path _ Hbdl).
    - now rewrite lookup_find_entry. }
  now rewrite Hback.
Qed.

Lemma archive1_is_tree : tree archive1.
Proof.
  intros q Hq. cbn in Hq.
  repeat (destruct Hq as [<-|Hq]; [vm_compute; reflexivity|]). contradiction.
Qed.

Lemma legacy_apply_then_undo_witness :
  let applied := Legacy.apply_ops permissive dumps_one_line [legacy_op1] log0 false archive1 in
  snd applied = Ok tt
  /\ lookup (fst applied) (Legacy.dst legacy_op1) = Some (File (str "AUDIO-BYTES"))
  /\ lookup (fst applied) (Legacy.src legacy_op1) = None
  /\ Legacy.undo_from_log permissive (reads_as (Legacy.to_json legacy_op1)) log0 false
       (fst applied)
     = (archive1 ++ [(log0, File (dumps_one_line (Legacy.to_json legacy_op1) ++ [newline]))],
        Ok tt).
Proof.
  apply (legacy_apply_then_undo permissive dumps_one_line
           (reads_as (Legacy.to_json legacy_op1)) legacy_op1 log0 archive1
           (str "AUDIO-BYTES")).
  - exact archive1_is_tree.
  - reflexivity.
  - vm_compute. reflexivity.
  - vm_compute. reflexivity.
  - vm_compute. reflexivity.
  - vm_compute. reflexivity.
  - vm_compute. reflexivity.
  - vm_compute. discriminate.
  - vm_compute. reflexivity.
  - vm_compute. reflexivity.
  - vm_compute. repeat constructor; discriminate.
  - vm_compute. discriminate.
  - reflexivity.
Defined.

(** ** More about the command line *)



(** A step that raises no [SystemExit] keeps the file system and the fact
    that the process does not end with status 0. *)
Lemma step_keeps (fs : FS) (A : Type) (m : Outcome A) (k : A -> FS * Outcome Z) :
  (forall c, m <> Raised (SystemExit c)) ->
  (forall a, fst (k a) = fs /\ exit_status (snd (k a)) <> Some 0%Z) ->
  fst (step fs m k) = fs /\ exit_status (snd (step fs m k)) <> Some 0%Z.
Proof.
  intros Hm H. destruct m as [a|e|]; cbn [step fst snd]; [apply H| |].
  - split; [reflexivity|]. destruct e; try discriminate. now elim (Hm code).
  - split; [reflexivity|discriminate].
Qed.

Lemma json_get_no_exit (d : Json) (k : pystr) (c : Z) :
  json_get d k <> Raised (SystemExit c).
Proof. destruct (json_get_cases d k) as [[v ->]| ->]; discriminate. Qed.

Lemma rename_run_stops
    (pf : Platform) (jd : Json -> pystr) (jl : pystr -> Outcome Json)
    (fj : Json -> pystr)
    (ct : Json -> Path -> Json -> bool -> bool -> bool -> FS -> FS * Outcome Z)
    (cl : CommandLine) (f : RenameFlags) (fs : FS) :
  (forall s c, jl s <> Raised (SystemExit c)) ->
  sub cl = SubRename f ->
  undo f = false ->
  fst (main pf jd jl fj ct cl fs) = fs
  /\ exit_status (snd (main pf jd jl fj ct cl fs)) <> Some 0%Z.
Proof.
  intros Hjl Hsub Hundo. unfold main, parse_args. rewrite Hsub.
  destruct (keep_link f && keep_copy f) eqn:Hkeep;
    [cbn; split; [reflexivity|discriminate]|].
  cbn [step attr app String.eqb Ascii.eqb Bool.eqb path_or].
  rewrite !path_or_of_path. cbn [step].
  destruct (negb (exists_ fs _)); [cbn; split; [reflexivity|discriminate]|].
  destruct (negb (exists_ fs _)); [cbn; split; [reflexivity|discriminate]|].
  apply step_keeps.
  { intros c. unfold load_alltihop_json.
    destruct (stat fs _) as [[q [d| |t]]|]; try discriminate. apply Hjl. }
  intros data. apply step_keeps; [intros c; apply json_get_no_exit|]. intros user.
  apply step_keeps; [intros c; apply json_get_no_exit|]. intros un.
  apply step_keeps;
    [intros c; destruct (json_truthy un); [discriminate|apply json_get_no_exit]|].
  intros dn.
  change (pystr_eqb (str "rename") (str "rename")) with true. cbv iota.
  cbn [step arg_truthy]. rewrite Hundo.
  destruct (dry_run f); cbn [step arg_truthy orb];
    destruct (apply f); cbn [step arg_truthy orb];
    unfold main_rename;
    (apply step_keeps; [intros c; apply json_get_no_exit|]); intros pieces;
    (destruct pieces; try (cbn; split; [reflexivity|discriminate]));
    cbn [step attr String.eqb Ascii.eqb Bool.eqb arg_truthy];
    destruct (keep_link f); cbn; split; try reflexivity; discriminate.
Qed.

(** X19: a [rename] run without [--undo] never changes the file system, and
    the process ends with exit status 0 only when help is asked for with
    [-h]: every other run stops at a start-up check or at the missing
    attribute.  This holds whatever the other options, the manifest and the
    archive, for a JSON parser that raises no [SystemExit]. *)
Theorem rename_never_changes_or_succeeds
    (pf : Platform) (jd : Json -> pystr) (jl : pystr -> Outcome Json)
    (fj : Json -> pystr)
    (ct : Json -> Path -> Json -> bool -> bool -> bool -> FS -> FS * Outcome Z)
    (cl : CommandLine) (fs : FS) :
  (forall s c, jl s <> Raised (SystemExit c)) ->
  match sub cl with
  | SubRename f => undo f = false
  | SubHelp c => c = Some "rename"%string
  | SubTag _ => False
  end ->
  fst (main pf jd jl fj ct cl fs) = fs
  /\ (exit_status (snd (main pf jd jl fj ct cl fs)) = Some 0%Z
      <-> sub cl = SubHelp (Some "rename"%string)).
Proof.
  intros Hjl Hsub.
  destruct (sub cl) as [f|f|c] eqn:Ecl; [|contradiction|].
  - destruct (rename_run_stops pf jd jl fj ct cl f fs Hjl Ecl Hsub) as [H1 H2].
    split; [exact H1|]. split; [intros H; contradiction|discriminate].
  - subst c. unfold main, parse_args. rewrite Ecl. cbn [step fst snd exit_status].
    split; [reflexivity|]. split; reflexivity.
Qed.

Lemma rename_never_changes_or_succeeds_witness :
  fst (main permissive no_dumps (reads_as manifest1) plain_format no_tag rename_help
         archive1_with_manifest) = archive1_with_manifest
  /\ (exit_status (snd (main permissive no_dumps (reads_as manifest1) plain_format no_tag
                          rename_help archive1_with_manifest)) = Some 0%Z
      <-> sub rename_help = SubHelp (Some "rename"%string)).
Proof.
  apply (rename_never_changes_or_succeeds permissive no_dumps (reads_as manifest1)
           plain_format no_tag rename_help archive1_with_manifest).
  - intros s c. discriminate.
  - reflexivity.
Defined.

(** [rename --apply] on an archive with its manifest: the file system is
    left as it was and the process ends with status 1. *)
Example rename_apply_ends_with_status_1 :
  fst (main permissive no_dumps (reads_as manifest1) plain_format no_tag (plain_rename true)
         archive1_with_manifest) = archive1_with_manifest
  /\ exit_status (snd (main permissive no_dumps (reads_as manifest1) plain_format no_tag
                         (plain_rename true) archive1_with_manifest)) = Some 1%Z.
Proof. split; vm_compute; reflexivity. Qed.

(** ** The manifest loader *)

Lemma lstrip_by_length (f : N -> bool) (s : pystr) :
  length (lstrip_by f s) <= length s.
Proof.
  induction s as [|c t IH]; cbn [lstrip_by length]; [lia|].
  destruct (f c); cbn [length]; lia.
Qed.

Lemma strip_fixed (t : pystr) :
  strip t = t -> lstrip_by is_space t = t /\ rstrip_by is_space t = t.
Proof.
  unfold strip. intros H.
  assert (L : lstrip_by is_space t = t).
  { pose proof (rstrip_by_length is_space (lstrip_by is_space t)) as L1.
    rewrite H in L1. destruct t as [|c t']; [reflexivity|].
    cbn [lstrip_by] in *. destruct (is_space c); [|reflexivity].
    pose proof (lstrip_by_length is_space t') as L2. cbn [length] in L1. lia. }
  split; [exact L|]. now rewrite L in H.
Qed.

Lemma strip_with_semicolon (t : pystr) :
  strip t = t -> strip (t ++ [59%N]) = t ++ [59%N].
Proof.
  intros H. destruct (strip_fixed t H) as [L _]. unfold strip.
  assert (E : lstrip_by is_space (t ++ [59%N]) = t ++ [59%N]).
  { destruct t as [|c t']; [reflexivity|]. cbn [app lstrip_by] in *.
    destruct (is_space c) eqn:Ec; [|reflexivity].
    pose proof (lstrip_by_length is_space t') as L2.
    pose proof (f_equal (@length N) L) as L3. cbn [length] in L3. lia. }
  rewrite E. now apply rstrip_by_snoc.
Qed.

(** X20: the JavaScript wrapper of the manifest is transparent: a file that
    holds [alltihop=<text>;] loads exactly as a file that holds the bare
    text (a text without blanks around it, not ending in a semicolon and not
    itself starting with the prefix), namely as what [json.loads] makes of
    the text. *)
Theorem manifest_wrapper_is_transparent (jl : pystr -> Outcome Json)
    (fs1 fs2 : FS) (p1 p2 : Path) (t : pystr) :
  strip t = t ->
  rstrip_by (fun c => (c =? 59)%N) t = t ->
  starts_with (str "alltihop=") t = false ->
  lookup fs1 p1 = Some (File (str "alltihop=" ++ t ++ [59%N])) ->
  lookup fs2 p2 = Some (File t) ->
  load_alltihop_json jl fs1 p1 = jl t /\ load_alltihop_json jl fs2 p2 = jl t.
Proof.
  intros Hs Hsemi Hpre H1 H2. unfold load_alltihop_json.
  rewrite (lookup_file fs1 p1 _ H1), (lookup_file fs2 p2 _ H2). split.
  - assert (E1 : strip (str "alltihop=" ++ t ++ [59%N]) = str "alltihop=" ++ t ++ [59%N]).
    { unfold strip.
      change (lstrip_by is_space (str "alltihop=" ++ t ++ [59%N]))
        with (str "alltihop=" ++ t ++ [59%N]).
      rewrite app_assoc. now apply rstrip_by_snoc. }
    rewrite E1.
    change (starts_with (str "alltihop=") (str "alltihop=" ++ t ++ [59%N]))
      with (pystr_eqb (str "alltihop=") (str "alltihop=")).
    change (pystr_eqb (str "alltihop=") (str "alltihop=")) with true. cbv iota.
    change (skipn (length (str "alltihop=")) (str "alltihop=" ++ t ++ [59%N]))
      with (t ++ [59%N]).
    rewrite (strip_with_semicolon t Hs).
    now rewrite (rstrip_by_snoc_drop _ t 59%N eq_refl), Hsemi.
  - now rewrite Hs, Hpre, Hs, Hsemi.
Qed.

Lemma manifest_wrapper_is_transparent_witness :
  load_alltihop_json (reads_as manifest1) archive1_with_manifest (path "/dump/alltihop.json")
  = reads_as manifest1 bare_manifest
  /\ load_alltihop_json (reads_as manifest1)
       [(path "/m.json", File bare_manifest)] (path "/m.json")
     = reads_as manifest1 bare_manifest.
Proof.
  apply (manifest_wrapper_is_transparent (reads_as manifest1) archive1_with_manifest
           [(path "/m.json", File bare_manifest)] (path "/dump/alltihop.json")
           (path "/m.json") bare_manifest); vm_compute; reflexivity.
Defined.

(** ** The tag command *)

Lemma first_existing_exists (fs : FS) (ps : list Path) (p : Path) :
  first_existing fs ps = Some p -> exists_ fs p = true.
Proof. unfold first_existing. intros H. now apply find_some in H as [_ H]. Qed.

Lemma by_stem_or_sole_exists (fs : FS) (folder : Path) (stem_ : string)
    (exts : list string) (p : Path) :
  by_stem_or_sole fs folder stem_ exts = Ok (Some p) -> exists_ fs p = true.
Proof.
  unfold by_stem_or_sole, bind.
  destruct (find_by_stem fs folder (str stem_)) as [[q|]| |] eqn:E; try discriminate.
  - intros H. injection H as <-.
    apply is_file_exists. eapply find_by_stem_file; eassumption.
  - unfold candidates, bind. destruct (iterdir fs folder) as [ps| |]; try discriminate.
    destruct (filter _ ps) as [|x [|y l]] eqn:Ef; try discriminate.
    intros H. injection H as <-.
    assert (Hin : In x (filter (fun p => is_file fs p && mem (lower (suffix p)) (map str exts)) ps))
      by (rewrite Ef; now left).
    apply filter_In in Hin as [_ Hin]. apply andb_true_iff in Hin as [Hin _].
    now apply is_file_exists.
Qed.

(** X21: a path returned by [find_audio_file] or by [find_cover_file] exists
    in the file system, whichever of the search steps found it. *)
Theorem found_asset_exists (fs : FS) (folder : Path) (base : pystr) (p : Path) :
  find_audio_file fs folder base = Ok (Some p)
  \/ find_cover_file fs folder base = Ok (Some p) ->
  exists_ fs p = true.
Proof.
  unfold find_audio_file, find_cover_file.
  intros [H|H]; revert H;
    (destruct (first_existing fs _) as [q|] eqn:E1;
     [intros H; injection H as <-; eapply first_existing_exists; eassumption|]);
    clear E1;
    (destruct (first_existing fs _) as [q|] eqn:E2;
     [intros H; injection H as <-; eapply first_existing_exists; eassumption|]);
    apply by_stem_or_sole_exists.
Qed.

Lemma found_asset_exists_witness :
  exists_ odd_names (path "/p/s1/AUDIO.Flac") = true.
Proof.
  apply (found_asset_exists odd_names (path "/p/s1") (str "jdoe_-_T")
           (path "/p/s1/AUDIO.Flac")).
  left. vm_compute. reflexivity.
Defined.

Lemma step_fst (fs : FS) (A B : Type) (m : Outcome A) (k : A -> FS * Outcome B) :
  (forall a, fst (k a) = fs) -> fst (step fs m k) = fs.
Proof. intros H. destruct m; cbn; [apply H|reflexivity..]. Qed.

Section TagProperties.

Variable casefold : pystr -> pystr.
Variable format_json : Json -> pystr.
Variable json_dumps_indent : Json -> pystr.
Variable tag_mp4_file :
  Path -> Json -> pystr -> pystr -> option pystr -> Json -> option Path -> Json ->
  FS -> FS * Outcome unit.

Lemma tag_piece_dry (pieces_dir : Path) (username uc : pystr) (pb ow : bool)
    (piece : Json) (fs : FS) :
  fst (tag_piece casefold format_json json_dumps_indent tag_mp4_file
         pieces_dir username uc pb true ow piece fs) = fs.
Proof.
  unfold tag_piece.
  repeat (apply step_fst; intros ?).
  destruct (negb (json_truthy a)); [reflexivity|].
  destruct a; try reflexivity.
  destruct (negb (exists_ fs (div pieces_dir s))); [reflexivity|].
  apply step_fst. intros [audio|]; [|reflexivity].
  destruct (negb (mem (lower (suffix audio)) (map str AUDIO_EXTS))); [reflexivity|].
  apply step_fst. intros cover. reflexivity.
Qed.

Lemma tag_pieces_dry (pieces_dir : Path) (username uc : pystr) (pb ow : bool)
    (pieces : list Json) (fs : FS) :
  fst (tag_pieces casefold format_json json_dumps_indent tag_mp4_file
         pieces_dir username uc pb true ow pieces fs) = fs.
Proof.
  induction pieces as [|piece rest IH]; cbn [tag_pieces]; [reflexivity|].
  pose proof (tag_piece_dry pieces_dir username uc pb ow piece fs) as H.
  destruct (tag_piece _ _ _ _ _ _ _ _ _ _ piece fs) as [fs1 [[n w]|e|]];
    cbn [fst] in H; subst fs1; try reflexivity.
  destruct (tag_pieces _ _ _ _ _ _ _ _ _ _ rest fs) as [fs2 [[n' w']|e|]];
    cbn [fst] in *; exact IH.
Qed.

(** X22: a dry run of the tag command never changes the file system: no
    sidecar file is written and the tagging library is not called, whatever
    the manifest holds. *)
Theorem tag_dry_run_leaves_file_system (data : Json) (pieces_dir : Path)
    (username : pystr) (pb ow : bool) (fs : FS) :
  fst (cmd_tag casefold format_json json_dumps_indent tag_mp4_file
         data pieces_dir username pb true ow fs) = fs.
Proof.
  unfold cmd_tag. apply step_fst. intros pieces.
  destruct pieces; try reflexivity.
  pose proof (tag_pieces_dry pieces_dir username
                (safe_filename_base username default_max_len pb) pb ow items fs) as H.
  destruct (tag_pieces _ _ _ _ _ _ _ _ _ _ items fs) as [fs' [r|e|]]; exact H.
Qed.

End TagProperties.

(** ** The compatibility entry at the old path *)

Lemma missing_is_not_root (fs : FS) (p : Path) : exists_ fs p = false -> p <> [].
Proof.
  intros H ->. unfold exists_ in H.
  now rewrite (lookup_dir fs [] eq_refl) in H.
Qed.

Lemma lookup_grown (fs : FS) (old p : Path) (n m : Node) :
  lookup fs p = Some m -> lookup (fs ++ [(old, n)]) p = Some m.
Proof.
  destruct p as [|c p]; [easy|]. cbn [lookup]. intros H.
  now rewrite find_entry_app, H.
Qed.

Lemma lookup_grown_at (fs : FS) (old : Path) (n : Node) :
  old <> [] -> lookup fs old = None -> lookup (fs ++ [(old, n)]) old = Some n.
Proof.
  destruct old as [|c p]; [easy|]. cbn [lookup]. intros _ H.
  rewrite find_entry_app, H. cbn [find_entry]. now rewrite path_eqb_refl.
Qed.

Lemma read_file (fs : FS) (p : Path) (d : pystr) :
  lookup fs p = Some (File d) -> read fs p = Some d.
Proof. intros H. unfold read. now rewrite (lookup_file fs p d H). Qed.

Lemma read_through_link (fs : FS) (p q : Path) (d : pystr) :
  fs <> [] ->
  lookup fs p = Some (Symlink q) -> lookup fs q = Some (File d) -> read fs p = Some d.
Proof.
  intros Hfs Hp Hq. unfold read, stat.
  destruct fs as [|e r]; [easy|]. cbn [length resolve]. rewrite Hp.
  destruct (length r); cbn [resolve]; now rewrite Hq.
Qed.

Lemma set_data_grown (fs : FS) (old : Path) (d0 d : pystr) :
  old <> [] -> lookup fs old = None ->
  set_data (fs ++ [(old, File d0)]) old d = fs ++ [(old, File d)].
Proof.
  intros Ho H. destruct old as [|c p]; [easy|]. cbn [lookup] in H.
  unfold set_data. rewrite map_app. fold (set_data fs (c :: p) d).
  rewrite (set_data_absent fs (c :: p) d H). cbn [map fst].
  now rewrite path_eqb_refl.
Qed.

Lemma dangling_end_lookup (fuel : nat) (fs : FS) (p q : Path) :
  dangling_end fuel fs p = Some q -> lookup fs q = None.
Proof.
  revert p. induction fuel as [|k IH]; intros p; cbn [dangling_end];
    destruct (lookup fs p) as [[d| |t]|] eqn:E; try discriminate;
    try (intros H; injection H as <-; exact E).
  apply IH.
Qed.

(** Once a file is created where a chain of links ended, the chain leads to
    that file. *)
Lemma resolve_to_new_file (fs : FS) (q : Path) (d : pystr) (fuel : nat) :
  q <> [] ->
  forall p k, dangling_end fuel fs p = Some q -> fuel <= k ->
              resolve k (fs ++ [(q, File d)]) p = Some (q, File d).
Proof.
  intros Hq. induction fuel as [|f IH]; intros p k H Hk; cbn [dangling_end] in H;
    destruct (lookup fs p) as [[d'| |t]|] eqn:E; try discriminate.
  - injection H as ->.
    destruct k; cbn [resolve]; now rewrite (lookup_grown_at fs q (File d) Hq E).
  - destruct k as [|k]; [lia|]. cbn [resolve].
    rewrite (lookup_grown fs q p (File d) (Symlink t) E). apply IH; [exact H|lia].
  - injection H as ->.
    destruct k; cbn [resolve]; now rewrite (lookup_grown_at fs q (File d) Hq E).
Qed.

Lemma open_append_cases (fs fs1 : FS) (p q : Path) :
  open_append fs p = Ok (fs1, q) ->
  (exists d, stat fs p = Some (q, File d) /\ fs1 = fs)
  \/ (stat fs p = None /\ dangling_end (length fs) fs p = Some q /\ q <> []
      /\ fs1 = fs ++ [(q, File [])]).
Proof.
  unfold open_append.
  destruct (stat fs p) as [[q' [d| |t]]|] eqn:Es; try discriminate.
  - intros H. injection H as <- <-. left. now exists d.
  - destruct (dangling_end (length fs) fs p) as [[|c r]|] eqn:Ed; try discriminate.
    destruct (is_dir fs (parent (c :: r))); [|discriminate].
    intros H. injection H as <- <-. right. now repeat split.
Qed.

Lemma read_new_file (fs : FS) (p q : Path) (d : pystr) :
  q <> [] -> dangling_end (length fs) fs p = Some q ->
  read (fs ++ [(q, File d)]) p = Some d.
Proof.
  intros Hq H. unfold read, stat.
  rewrite (resolve_to_new_file fs q d (length fs) Hq p _ H); [reflexivity|].
  rewrite length_app. lia.
Qed.

(** X23: when the old path is missing and the renamed path is a regular
    file, a compatibility entry made by [ensure_compat_link] or by
    [ensure_compat_copy] reads at the old path as the renamed file does, and
    every entry that was there before is still there, unchanged. *)
Theorem compat_entry_reads_like_renamed (pf : Platform) (fs fs' : FS)
    (old_path new_path : Path) (d : pystr) :
  exists_ fs old_path = false ->
  lookup fs new_path = Some (File d) ->
  ensure_compat_link pf fs old_path new_path = Ok fs'
  \/ ensure_compat_copy pf fs old_path new_path = Ok fs' ->
  read fs' old_path = Some d
  /\ read fs' new_path = Some d
  /\ forall p n, lookup fs p = Some n -> lookup fs' p = Some n.
Proof.
  intros Hex Hnew H.
  pose proof (missing_is_not_root fs old_path Hex) as Hold.
  assert (Hshape : (exists q, q <> [] /\ dangling_end (length fs) fs old_path = Some q
                              /\ fs' = fs ++ [(q, File d)])
                   \/ (lookup fs old_path = None
                       /\ fs' = fs ++ [(old_path, Symlink new_path)])).
  { destruct H as [H|H].
    - unfold ensure_compat_link in H. rewrite Hex in H.
      unfold os_link, os_symlink in H. rewrite (lookup_file fs new_path d Hnew) in H.
      destruct (lookup fs old_path) eqn:El; [discriminate|].
      destruct (is_dir fs (parent old_path) && hardlink_ok pf new_path old_path).
      + injection H as <-. left. exists old_path.
        split; [exact Hold|]. split; [now apply dangling_end_free|reflexivity].
      + destruct (is_dir fs (parent old_path) && symlink_ok pf new_path old_path);
          [|discriminate].
        injection H as <-. now right.
    - unfold ensure_compat_copy in H. rewrite Hex in H.
      unfold copy2 in H. rewrite (lookup_file fs new_path d Hnew) in H.
      destruct (copy_ok pf new_path old_path); [|discriminate].
      unfold bind in H.
      destruct (open_append fs old_path) as [[fs1 q]| |] eqn:Eo; try discriminate.
      cbn [fst snd] in H. injection H as <-.
      apply open_append_cases in Eo as [(d0 & Es & _)|(_ & Hq & Hq0 & ->)].
      + unfold exists_ in Hex. now rewrite Es in Hex.
      + left. exists q. split; [exact Hq0|]. split; [exact Hq|].
        apply set_data_grown; [exact Hq0|]. eapply dangling_end_lookup; eassumption. }
  destruct Hshape as [(q & Hq0 & Hq & ->) | (El & ->)].
  - split; [|split].
    + now apply read_new_file.
    + apply read_file. now apply lookup_grown.
    + intros p n Hp. now apply lookup_grown.
  - split; [|split].
    + apply (read_through_link _ old_path new_path d).
      * now destruct fs.
      * now apply lookup_grown_at.
      * now apply lookup_grown.
    + apply read_file. now apply lookup_grown.
    + intros p n Hp. now apply lookup_grown.
Qed.

Lemma compat_entry_reads_like_renamed_witness :
  read (renamed_only ++ [(path "/d/old.mp4", File (str "BYTES"))]) (path "/d/old.mp4")
    = Some (str "BYTES")
  /\ read (renamed_only ++ [(path "/d/old.mp4", File (str "BYTES"))]) (path "/d/new.mp4")
    = Some (str "BYTES")
  /\ forall p n, lookup renamed_only p = Some n ->
       lookup (renamed_only ++ [(path "/d/old.mp4", File (str "BYTES"))]) p = Some n.
Proof.
  apply (compat_entry_reads_like_renamed permissive renamed_only _
           (path "/d/old.mp4") (path "/d/new.mp4") (str "BYTES")).
  - vm_compute. reflexivity.
  - vm_compute. reflexivity.
  - left. vm_compute. reflexivity.
Defined.

(** ** Sidecar files and errors of the tagging library *)

Lemma find_entry_set_data (fs : FS) (q p : Path) (t : pystr) :
  find_entry (set_data fs q t) p
  = if path_eqb q p
    then match find_entry fs p with Some _ => Some (File t) | None => None end
    else find_entry fs p.
Proof.
  unfold set_data. induction fs as [|[k n] r IH]; cbn [map find_entry fst].
  - now destruct (path_eqb q p).
  - destruct (path_eqb k q) eqn:Ekq; cbn [find_entry].
    + apply path_eqb_eq in Ekq. subst k.
      destruct (path_eqb q p) eqn:Eqp; [reflexivity|]. exact IH.
    + destruct (path_eqb k p) eqn:Ekp.
      * destruct (path_eqb q p) eqn:Eqp; [|reflexivity].
        apply path_eqb_eq in Ekp, Eqp. subst. now rewrite path_eqb_refl in Ekq.
      * exact IH.
Qed.

Lemma resolve_lookup (fuel : nat) (fs : FS) (p q : Path) (n : Node) :
  resolve fuel fs p = Some (q, n) -> lookup fs q = Some n.
Proof.
  revert p. induction fuel as [|k IH]; intros p; cbn [resolve];
    destruct (lookup fs p) as [[d| |t]|] eqn:E; try discriminate;
    try (intros H; injection H as <- <-; exact E).
  apply IH.
Qed.

Lemma resolve_set_data (fuel : nat) (fs : FS) (p q : Path) (d t : pystr) :
  resolve fuel fs p = Some (q, File d) ->
  resolve fuel (set_data fs q t) p = Some (q, File t).
Proof.
  intros H. pose proof (resolve_lookup fuel fs p q (File d) H) as Hq.
  assert (Hlk : forall x, lookup (set_data fs q t) x
                          = if path_eqb q x then Some (File t) else lookup fs x).
  { intros [|c x].
    - destruct q; [discriminate|reflexivity].
    - cbn [lookup]. rewrite find_entry_set_data.
      destruct (path_eqb q (c :: x)) eqn:E; [|reflexivity].
      apply path_eqb_eq in E. subst q. cbn [lookup] in Hq. now rewrite Hq. }
  revert p H. induction fuel as [|k IH]; intros p; cbn [resolve]; rewrite Hlk;
    destruct (path_eqb q p) eqn:E;
    try (apply path_eqb_eq in E; subst p; rewrite Hq; reflexivity);
    destruct (lookup fs p) as [[d'| |t']|] eqn:El; try discriminate;
    try (intros H; injection H as -> _; now rewrite path_eqb_refl in E).
  apply IH.
Qed.

Lemma write_text_read (fs fs' : FS) (p : Path) (text : pystr) :
  write_text fs p text = Ok fs' -> read fs' p = Some text.
Proof.
  unfold write_text, bind.
  destruct (open_append fs p) as [[fs1 q]| |] eqn:Eo; try discriminate.
  cbn [fst snd]. intros H. injection H as <-.
  apply open_append_cases in Eo as [(d & Es & ->)|(_ & Hq & Hq0 & ->)].
  - unfold read, stat, set_data. rewrite length_map. fold (set_data fs q text).
    unfold stat in Es. now rewrite (resolve_set_data _ fs p q d text Es).
  - rewrite (set_data_grown fs q [] text Hq0 (dangling_end_lookup _ fs p q Hq)).
    now apply read_new_file.
Qed.

(** X24: in an archive where no symbolic link leads to a directory,
    [write_meta_file] leaves an existing sidecar alone when overwriting is
    off; in every other case a write that succeeds leaves a sidecar that
    reads as the piece's JSON text followed by a newline, also when the
    sidecar path is a symbolic link to a file or to a place where no file
    exists yet. *)
Theorem sidecar_holds_piece_json (json_dumps_indent : Json -> pystr)
    (fs fs' : FS) (meta_path : Path) (piece : Json) (overwrite : bool) :
  no_linked_dirs fs = true ->
  write_meta_file json_dumps_indent fs meta_path piece overwrite = Ok fs' ->
  if exists_ fs meta_path && negb overwrite then fs' = fs
  else read fs' meta_path = Some (json_dumps_indent piece ++ [newline]).
Proof.
  intros _. unfold write_meta_file.
  destruct (exists_ fs meta_path && negb overwrite).
  - intros H. now injection H as <-.
  - apply write_text_read.
Qed.

Lemma sidecar_holds_piece_json_witness :
  read (archive1_linked_sidecar
          ++ [(path "/dump/meta_store.json", File (str "{record}" ++ [newline]))]) sidecar1
  = Some (dumps_one_line piece1 ++ [newline]).
Proof.
  apply (sidecar_holds_piece_json dumps_one_line archive1_linked_sidecar _ sidecar1
           piece1 false).
  - reflexivity.
  - vm_compute. reflexivity.
Defined.

Section TagErrors.

Variable casefold : pystr -> pystr.
Variable format_json : Json -> pystr.
Variable json_dumps_indent : Json -> pystr.
Variable tag_mp4_file :
  Path -> Json -> pystr -> pystr -> option pystr -> Json -> option Path -> Json ->
  FS -> FS * Outcome unit.


End TagErrors.

